(** * MaxScale filter modules: ccrfilter, qlafilter and topfilter

    A shallow embedding of the three filter modules under
    [server/modules/filter] and the properties of their entry points
    ([createInstance], [newSession], [routeQuery], [clientReply],
    [closeSession]).

    Conventions of the embedding:
    - a C [int] is a [Z]; arithmetic that can leave the 32-bit range goes
      through [wrap32];
    - a [char *] that may be [NULL] is an [option string];
    - the clock ([time], [gettimeofday]) is an input of every entry point
      that reads it;
    - the downstream / upstream call that ends [routeQuery] / [clientReply]
      is the buffer returned by the embedded function;
    - the collaborators that live outside the filter directory (the SQL
      extractor, the classifier, the POSIX regex engine) are the members of
      the classes [Host] and [Regex]. *)

From Stdlib Require Import ZArith String Ascii Lia Bool.
From stdpp Require Import base list strings pretty gmap.
From Stdlib Require Import Sorted Permutation.

Local Open Scope Z_scope.

(* ===================================================================== *)
(** ** Machine integers and libc helpers *)

(** Value of a C [int] after a conversion or an arithmetic step on a
    two's-complement machine. *)
Definition wrap32 (z : Z) : Z := (z + 2 ^ 31) mod 2 ^ 32 - 2 ^ 31.

Definition is_digit (c : ascii) : bool :=
  let n := N_of_ascii c in (48 <=? n)%N && (n <=? 57)%N.

Definition is_space (c : ascii) : bool :=
  let n := N_of_ascii c in (n =? 32)%N || ((9 <=? n)%N && (n <=? 13)%N).

Fixpoint atoi_digits (acc : Z) (s : string) : Z :=
  match s with
  | String c r =>
      if is_digit c
      then atoi_digits (10 * acc + Z.of_N (N_of_ascii c) - 48) r
      else acc
  | EmptyString => acc
  end.

Fixpoint skip_spaces (s : string) : string :=
  match s with
  | String c r => if is_space c then skip_spaces r else s
  | EmptyString => s
  end.

(** The range of a C [long] (64 bits). *)
Definition LONG_MAX : Z := 2 ^ 63 - 1.
Definition LONG_MIN : Z := - 2 ^ 63.

(** libc [strtol(s, NULL, 10)]: leading blanks, an optional sign, then
    decimal digits; a value outside the range of [long] gives [LONG_MAX]
    or [LONG_MIN]. *)
Definition strtol (s : string) : Z :=
  match skip_spaces s with
  | String "-" r => Z.max LONG_MIN (- atoi_digits 0 r)
  | String "+" r => Z.min LONG_MAX (atoi_digits 0 r)
  | r => Z.min LONG_MAX (atoi_digits 0 r)
  end.

(** libc [atoi]: [(int) strtol(s, NULL, 10)]. *)
Definition atoi (s : string) : Z := wrap32 (strtol s).

Definition to_lower (c : ascii) : ascii :=
  let n := N_of_ascii c in
  if (65 <=? n)%N && (n <=? 90)%N then ascii_of_N (n + 32) else c.

Fixpoint lower (s : string) : string :=
  match s with
  | String c r => String (to_lower c) (lower r)
  | EmptyString => EmptyString
  end.

(** [!strcmp(a, b)] *)
Definition streq (a b : string) : bool := String.eqb a b.

(** [!strcasecmp(a, b)] *)
Definition strcaseeq (a b : string) : bool := String.eqb (lower a) (lower b).

(** [<regex.h>] compilation flags (glibc values). *)
Definition REG_EXTENDED : Z := 1.
Definition REG_ICASE : Z := 2.

(** The POSIX regex engine.  [regcomp] yields [None] when it returns a
    non-zero code; [regexec r s] is [true] when [regexec] returns 0. *)
Class Regex := {
  regex_t : Type;
  regcomp : string -> Z -> option regex_t;
  regexec : regex_t -> string -> bool
}.

(* ===================================================================== *)
(** ** Buffers, hints and the host services *)

Inductive HINT_TYPE := HINT_ROUTE_TO_MASTER | HINT_ROUTE_TO_SLAVE
                     | HINT_ROUTE_TO_NAMED_SERVER | HINT_ROUTE_TO_ALL.

Record HINT := { hint_type : HINT_TYPE; hint_data : option string }.

(** A [GWBUF] chain (buffer.h): the first buffer, the buffers linked
    through [next], and the routing hints attached to the head. *)
Record GWBUF := {
  gw_head : string;
  gw_next : list string;
  hint : list HINT
}.

Definition gwbuf_content (q : GWBUF) : string :=
  gw_head q +:+ String.concat "" (gw_next q).

(** [queue->next != NULL] *)
Definition has_next (q : GWBUF) : bool :=
  match gw_next q with [] => false | _ => true end.

(** Modelled from the spec: [gwbuf_make_contiguous] (buffer.c is not among
    the sources).  A stage hands on the message it was given, so the
    chain becomes one buffer with the same bytes and the same hints. *)
Definition gwbuf_make_contiguous (q : GWBUF) : GWBUF :=
  {| gw_head := gwbuf_content q; gw_next := []; hint := hint q |}.

(** [if (queue->next != NULL) queue = gwbuf_make_contiguous(queue);] *)
Definition contiguous (q : GWBUF) : GWBUF :=
  if has_next q then gwbuf_make_contiguous q else q.

(** Modelled from the spec: [hint_create_route(head, type, data)] (hint.c
    is not among the sources) attaches a routing hint to the message: a
    new hint in front of [head]. *)
Definition hint_create_route (head : list HINT) (t : HINT_TYPE)
    (data : option string) : list HINT :=
  {| hint_type := t; hint_data := data |} :: head.

(** Services of the surrounding server used by the filters (modutil.c,
    the query classifier, filter.c, skygw_utils), none of them among the
    sources: they are taken as given. *)
Class Host := {
  modutil_is_SQL : GWBUF -> bool;
  modutil_get_SQL : GWBUF -> option string;
  qc_get_operation : GWBUF -> Z;
  (** the [QUERY_OP_SELECT] member of [qc_query_op_t] (query_classifier.h) *)
  QUERY_OP_SELECT : Z;
  filter_standard_parameter : string -> bool;
  squeeze_whitespace : string -> string;
  trim : string -> string;
  (** [localtime_r] followed by [strftime "%F %T"] *)
  strftime_FT : Z -> string
}.

(** A name/value pair of the filter section of the configuration. *)
Record FILTER_PARAMETER := { name : string; value : string }.

(** Heap objects a constructor obtains: strings from [MXS_STRDUP_A],
    compiled patterns from [regcomp], the instance block itself. *)
Inductive resource :=
| RStr (s : string)
| RRegex (pattern : string)
| RInstance.

Definition resource_eqb (a b : resource) : bool :=
  match a, b with
  | RStr s, RStr t => String.eqb s t
  | RRegex s, RRegex t => String.eqb s t
  | RInstance, RInstance => true
  | _, _ => false
  end.

Fixpoint release (r : resource) (live : list resource) : list resource :=
  match live with
  | [] => []
  | x :: rest => if resource_eqb r x then rest else x :: release r rest
  end.

(** [MXS_FREE(p)] for a string field: [free(NULL)] does nothing. *)
Definition MXS_FREE_str (p : option string) (live : list resource)
    : list resource :=
  match p with Some s => release (RStr s) live | None => live end.

(** The heap objects behind a string field and behind a compiled pattern
    slot. *)
Definition strs (p : option string) : list resource :=
  match p with Some s => [RStr s] | None => [] end.

Definition regs {R : Type} (p : option string) (slot : option R)
    : list resource :=
  match p, slot with Some m, Some _ => [RRegex m] | _, _ => [] end.

(** The options the constructors know. *)
Definition supported_option (o : string) : bool :=
  strcaseeq o "ignorecase" || strcaseeq o "case" || strcaseeq o "extended".

(** What a constructor leaves behind: the value it returns ([None] for
    [NULL]), the heap objects still allocated, and the lines sent to
    [MXS_ERROR]. *)
Record built (I : Type) := {
  instance : option I;
  live : list resource;
  errors : list string
}.
Arguments instance {I} _.
Arguments live {I} _.
Arguments errors {I} _.

(** The loop over [options], the same in the three filters up to the text
    of the message and to whether an unknown option sets [error]. *)
Definition option_flags (log_prefix : string) (options : list string)
    (strict : bool) (cflags : Z) : Z * list string * bool :=
  fold_left
    (fun '(cf, log, err) o =>
       if strcaseeq o "ignorecase" then (Z.lor cf REG_ICASE, log, err)
       else if strcaseeq o "case"
            then (Z.land cf (Z.lnot REG_ICASE), log, err)
       else if strcaseeq o "extended" then (Z.lor cf REG_EXTENDED, log, err)
       else (cf, log ++ [log_prefix +:+ o +:+ "'."], err || strict))
    options (cflags, [], false).

(** What an option says about letter case: [Some true] to ignore it,
    [Some false] to respect it, [None] when it says nothing. *)
Definition case_option (o : string) : option bool :=
  if strcaseeq o "ignorecase" then Some true
  else if strcaseeq o "case" then Some false
  else None.

(** The value of the last parameter called [n], if there is one. *)
Definition setting (n : string) (params : list FILTER_PARAMETER)
    : option string :=
  last (value <$> List.filter (fun p => streq (name p) n) params).

(* ===================================================================== *)
(** ** ccrfilter.c: the routing hysteresis filter *)

Module Ccr.
Section Filter.
Context `{Host} `{Regex}.

Definition CCR_DEFAULT_TIME : Z := 60.

Record LAGSTATS := {
  n_add_count : Z;
  n_add_time : Z;
  n_modified : Z
}.

(** [re] and [nore] are [None] until [regcomp] has filled them. *)
Record CCR_INSTANCE := {
  match_ : option string;
  nomatch : option string;
  time : Z;
  count : Z;
  stats : LAGSTATS;
  re : option regex_t;
  nore : option regex_t
}.

Record CCR_SESSION := {
  hints_left : Z;
  last_modification : Z
}.

Definition set_count (i : CCR_INSTANCE) (v : Z) : CCR_INSTANCE :=
  {| match_ := match_ i; nomatch := nomatch i; time := time i; count := v;
     stats := stats i; re := re i; nore := nore i |}.
Definition set_time (i : CCR_INSTANCE) (v : Z) : CCR_INSTANCE :=
  {| match_ := match_ i; nomatch := nomatch i; time := v; count := count i;
     stats := stats i; re := re i; nore := nore i |}.
Definition set_match (i : CCR_INSTANCE) (v : option string) : CCR_INSTANCE :=
  {| match_ := v; nomatch := nomatch i; time := time i; count := count i;
     stats := stats i; re := re i; nore := nore i |}.
Definition set_nomatch (i : CCR_INSTANCE) (v : option string) : CCR_INSTANCE :=
  {| match_ := match_ i; nomatch := v; time := time i; count := count i;
     stats := stats i; re := re i; nore := nore i |}.
Definition set_re (i : CCR_INSTANCE) (v : option regex_t) : CCR_INSTANCE :=
  {| match_ := match_ i; nomatch := nomatch i; time := time i; count := count i;
     stats := stats i; re := v; nore := nore i |}.
Definition set_nore (i : CCR_INSTANCE) (v : option regex_t) : CCR_INSTANCE :=
  {| match_ := match_ i; nomatch := nomatch i; time := time i; count := count i;
     stats := stats i; re := re i; nore := v |}.
Definition set_stats (i : CCR_INSTANCE) (v : LAGSTATS) : CCR_INSTANCE :=
  {| match_ := match_ i; nomatch := nomatch i; time := time i; count := count i;
     stats := v; re := re i; nore := nore i |}.

(** One turn of the loop over [params]. *)
Definition set_parameter (st : CCR_INSTANCE * list resource * list string)
    (p : FILTER_PARAMETER) : CCR_INSTANCE * list resource * list string :=
  let '(i, lv, log) := st in
  if streq (name p) "count" then (set_count i (atoi (value p)), lv, log)
  else if streq (name p) "time" then (set_time i (atoi (value p)), lv, log)
  else if streq (name p) "match"
       then (set_match i (Some (value p)), RStr (value p) :: lv, log)
  else if streq (name p) "ignore"
       then (set_nomatch i (Some (value p)), RStr (value p) :: lv, log)
  else if negb (filter_standard_parameter (name p))
       then (i, lv, log ++ ["ccrfilter: Unexpected parameter '" +:+ name p
                              +:+ "'." +:+ String "010" ""])
  else (i, lv, log).

Definition createInstance (options : list string)
    (params : list FILTER_PARAMETER) : built CCR_INSTANCE :=
  let i0 := {| match_ := None; nomatch := None; time := CCR_DEFAULT_TIME;
               count := 0;
               stats := {| n_add_count := 0; n_add_time := 0;
                           n_modified := 0 |};
               re := None; nore := None |} in
  let '(i1, lv1, log1) :=
    fold_left set_parameter params (i0, [RInstance], []) in
  let '(cflags, log2, _) :=
    option_flags "ccrfilter: unsupported option '" options false REG_ICASE in
  let '(i2, lv2, log3) :=
    match match_ i1 with
    | Some m =>
        match regcomp m cflags with
        | Some c => (set_re i1 (Some c), RRegex m :: lv1, [])
        | None =>
            (i1, lv1, ["ccrfilter: Failed to compile regex '" +:+ m +:+ "'."])
        end
    | None => (i1, lv1, [])
    end in
  let '(i3, lv3, log4) :=
    match nomatch i2 with
    | Some m =>
        match regcomp m cflags with
        | Some c => (set_nore i2 (Some c), RRegex m :: lv2, [])
        | None =>
            (i2, lv2, ["ccrfilter: Failed to compile regex '" +:+ m +:+ "'."])
        end
    | None => (i2, lv2, [])
    end in
  {| instance := Some i3; live := lv3;
     errors := log1 ++ log2 ++ log3 ++ log4 |}.

Definition newSession (my_instance : CCR_INSTANCE) : CCR_SESSION :=
  {| hints_left := 0; last_modification := 0 |}.

(** [regexec] on a [regex_t] field; [None] when the field was never
    compiled, where the C call has no defined result. *)
Definition regexec_field (r : option regex_t) (sql : string) : option bool :=
  c ← r; Some (regexec c sql).

Definition bump_modified (i : CCR_INSTANCE) : CCR_INSTANCE :=
  set_stats i {| n_add_count := n_add_count (stats i);
                 n_add_time := n_add_time (stats i);
                 n_modified := wrap32 (n_modified (stats i) + 1) |}.
Definition bump_add_count (i : CCR_INSTANCE) : CCR_INSTANCE :=
  set_stats i {| n_add_count := wrap32 (n_add_count (stats i) + 1);
                 n_add_time := n_add_time (stats i);
                 n_modified := n_modified (stats i) |}.
Definition bump_add_time (i : CCR_INSTANCE) : CCR_INSTANCE :=
  set_stats i {| n_add_count := n_add_count (stats i);
                 n_add_time := wrap32 (n_add_time (stats i) + 1);
                 n_modified := n_modified (stats i) |}.

Definition add_master_hint (queue : GWBUF) : GWBUF :=
  {| gw_head := gw_head queue; gw_next := gw_next queue;
     hint := hint_create_route (hint queue) HINT_ROUTE_TO_MASTER None |}.

(** The branch taken for a statement that possibly modifies data. *)
Definition modification_rule (my_instance : CCR_INSTANCE)
    (my_session : CCR_SESSION) (queue : GWBUF) (now : Z)
    : option (CCR_INSTANCE * CCR_SESSION * GWBUF) :=
  match modutil_get_SQL queue with
  | Some sql =>
      not_ignored ← match nomatch my_instance with
                    | None => Some true
                    | Some _ => negb <$> regexec_field (nore my_instance) sql
                    end;
      if (not_ignored : bool) then
        matched ← match match_ my_instance with
                  | None => Some true
                  | Some _ => regexec_field (re my_instance) sql
                  end;
        if (matched : bool) then
          Some (bump_modified my_instance,
                {| hints_left := count my_instance;
                   last_modification := now |},
                queue)
        else Some (my_instance, my_session, queue)
      else Some (my_instance, my_session, queue)
  | None => Some (my_instance, my_session, queue)
  end.

(** The two [else if] branches: hint by count, then hint by time. *)
Definition read_rule (my_instance : CCR_INSTANCE)
    (my_session : CCR_SESSION) (queue : GWBUF) (now : Z)
    : CCR_INSTANCE * CCR_SESSION * GWBUF :=
  if 0 <? hints_left my_session then
    (bump_add_count my_instance,
     {| hints_left := hints_left my_session - 1;
        last_modification := last_modification my_session |},
     add_master_hint queue)
  else if now - last_modification my_session <? time my_instance then
    (bump_add_time my_instance, my_session, add_master_hint queue)
  else (my_instance, my_session, queue).

(** [routeQuery]; the third component is the buffer handed to
    [my_session->down.routeQuery]. *)
Definition routeQuery (my_instance : CCR_INSTANCE) (my_session : CCR_SESSION)
    (queue : GWBUF) (now : Z) : option (CCR_INSTANCE * CCR_SESSION * GWBUF) :=
  if modutil_is_SQL queue then
    let queue := contiguous queue in
    if negb (Z.land (qc_get_operation queue) (Z.lnot QUERY_OP_SELECT) =? 0)
    then modification_rule my_instance my_session queue now
    else Some (read_rule my_instance my_session queue now)
  else Some (my_instance, my_session, queue).

(** A session driven by a sequence of requests, each with the clock value
    [time(NULL)] returns for it; the buffers sent downstream are collected
    in arrival order. *)
Fixpoint run (my_instance : CCR_INSTANCE) (my_session : CCR_SESSION)
    (requests : list (GWBUF * Z))
    : option (CCR_INSTANCE * CCR_SESSION * list GWBUF) :=
  match requests with
  | [] => Some (my_instance, my_session, [])
  | (queue, now) :: rest =>
      '(i, s, out) ← routeQuery my_instance my_session queue now;
      '(i', s', outs) ← run i s rest;
      Some (i', s', out :: outs)
  end.

(** Every configured pattern has its compiled form. *)
Definition compiled (i : CCR_INSTANCE) : bool :=
  match match_ i, re i with Some _, None => false | _, _ => true end &&
  match nomatch i, nore i with Some _, None => false | _, _ => true end.

(** The configuration part of the instance: everything but the running
    totals. *)
Definition same_config (i i' : CCR_INSTANCE) : Prop :=
  match_ i' = match_ i /\ nomatch i' = nomatch i /\ time i' = time i /\
  count i' = count i /\ re i' = re i /\ nore i' = nore i.

(** [queue] is SQL whose classified operation is exactly select. *)
Definition is_select (queue : GWBUF) : bool :=
  modutil_is_SQL queue &&
  (qc_get_operation (contiguous queue) =? QUERY_OP_SELECT).

(** [queue] is SQL that the filter takes as a data modification: the
    operation has a bit outside [QUERY_OP_SELECT], the text is there, it
    is not ignored and it is matched. *)
Definition observed_modification (i : CCR_INSTANCE) (queue : GWBUF) : bool :=
  modutil_is_SQL queue &&
  negb (Z.land (qc_get_operation (contiguous queue))
               (Z.lnot QUERY_OP_SELECT) =? 0) &&
  match modutil_get_SQL (contiguous queue) with
  | Some sql =>
      match nomatch i, nore i with
      | None, _ => true
      | Some _, Some r => negb (regexec r sql)
      | Some _, None => false
      end &&
      match match_ i, re i with
      | None, _ => true
      | Some _, Some r => regexec r sql
      | Some _, None => false
      end
  | None => false
  end.

(** The number of hints on the buffers of a list. *)
Definition hints_carried (queues : list GWBUF) : Z :=
  foldr (fun q n => Z.of_nat (length (hint q)) + n) 0 queues.

End Filter.
End Ccr.

(* ===================================================================== *)
(** ** qlafilter.c: the query logger *)

Module Qla.
Section Filter.
Context `{Host} `{Regex}.

Record QLA_INSTANCE := {
  sessions : Z;
  filebase : option string;
  source : option string;
  userName : option string;
  match_ : option string;
  re : option regex_t;
  nomatch : option string;
  nore : option regex_t
}.

(** [fp] names the file the open stream writes to. *)
Record QLA_SESSION := {
  filename : string;
  fp : option string;
  active : Z;
  user : option string;
  remote : option string
}.

Definition set_match (i : QLA_INSTANCE) (v : option string) :=
  {| sessions := sessions i; filebase := filebase i; source := source i;
     userName := userName i; match_ := v; re := re i;
     nomatch := nomatch i; nore := nore i |}.
Definition set_nomatch (i : QLA_INSTANCE) (v : option string) :=
  {| sessions := sessions i; filebase := filebase i; source := source i;
     userName := userName i; match_ := match_ i; re := re i;
     nomatch := v; nore := nore i |}.
Definition set_source (i : QLA_INSTANCE) (v : option string) :=
  {| sessions := sessions i; filebase := filebase i; source := v;
     userName := userName i; match_ := match_ i; re := re i;
     nomatch := nomatch i; nore := nore i |}.
Definition set_userName (i : QLA_INSTANCE) (v : option string) :=
  {| sessions := sessions i; filebase := filebase i; source := source i;
     userName := v; match_ := match_ i; re := re i;
     nomatch := nomatch i; nore := nore i |}.
Definition set_filebase (i : QLA_INSTANCE) (v : option string) :=
  {| sessions := sessions i; filebase := v; source := source i;
     userName := userName i; match_ := match_ i; re := re i;
     nomatch := nomatch i; nore := nore i |}.
Definition set_re (i : QLA_INSTANCE) (v : option regex_t) :=
  {| sessions := sessions i; filebase := filebase i; source := source i;
     userName := userName i; match_ := match_ i; re := v;
     nomatch := nomatch i; nore := nore i |}.
Definition set_nore (i : QLA_INSTANCE) (v : option regex_t) :=
  {| sessions := sessions i; filebase := filebase i; source := source i;
     userName := userName i; match_ := match_ i; re := re i;
     nomatch := nomatch i; nore := v |}.
Definition set_sessions (i : QLA_INSTANCE) (v : Z) :=
  {| sessions := v; filebase := filebase i; source := source i;
     userName := userName i; match_ := match_ i; re := re i;
     nomatch := nomatch i; nore := nore i |}.

(** Loop state of the constructor: instance under construction, live
    heap objects, messages, and the [error] flag. *)
Definition building : Type :=
  QLA_INSTANCE * list resource * list string * bool.

Definition set_parameter (st : building) (p : FILTER_PARAMETER) : building :=
  let '(i, lv, log, error) := st in
  if streq (name p) "match"
  then (set_match i (Some (value p)), RStr (value p) :: lv, log, error)
  else if streq (name p) "exclude"
  then (set_nomatch i (Some (value p)), RStr (value p) :: lv, log, error)
  else if streq (name p) "source"
  then (set_source i (Some (value p)), RStr (value p) :: lv, log, error)
  else if streq (name p) "user"
  then (set_userName i (Some (value p)), RStr (value p) :: lv, log, error)
  else if streq (name p) "filebase"
  then (set_filebase i (Some (value p)), RStr (value p) :: lv, log, error)
  else if negb (filter_standard_parameter (name p))
  then (i, lv, log ++ ["qlafilter: Unexpected parameter '" +:+ name p
                         +:+ "'."], true)
  else (i, lv, log, error).

(** [if (field && regcomp(&slot, field, cflags)) { ... }] for [match]. *)
Definition compile_match (cflags : Z) (st : building) : building :=
  let '(i, lv, log, error) := st in
  match match_ i with
  | Some m =>
      match regcomp m cflags with
      | Some c => (set_re i (Some c), RRegex m :: lv, log, error)
      | None =>
          (set_match i None, MXS_FREE_str (Some m) lv,
           log ++ ["qlafilter: Invalid regular expression '" +:+ m +:+
                   "' for the 'match' parameter." +:+ String "010" ""],
           true)
      end
  | None => st
  end.

Definition compile_nomatch (cflags : Z) (st : building) : building :=
  let '(i, lv, log, error) := st in
  match nomatch i with
  | Some m =>
      match regcomp m cflags with
      | Some c => (set_nore i (Some c), RRegex m :: lv, log, error)
      | None =>
          (set_nomatch i None, MXS_FREE_str (Some m) lv,
           log ++ ["qlafilter: Invalid regular expression '" +:+ m +:+
                   "' for the 'nomatch' parameter."], true)
      end
  | None => st
  end.

(** The [if (error)] block. *)
Definition cleanup (i : QLA_INSTANCE) (lv : list resource) : list resource :=
  let lv := match match_ i with
            | Some m => release (RRegex m) (MXS_FREE_str (Some m) lv)
            | None => lv
            end in
  let lv := match nomatch i with
            | Some m => release (RRegex m) (MXS_FREE_str (Some m) lv)
            | None => lv
            end in
  let lv := MXS_FREE_str (filebase i) lv in
  let lv := MXS_FREE_str (source i) lv in
  let lv := MXS_FREE_str (userName i) lv in
  release RInstance lv.

Definition createInstance (options : list string)
    (params : list FILTER_PARAMETER) : built QLA_INSTANCE :=
  let i0 := {| sessions := 0; filebase := None; source := None;
               userName := None; match_ := None; re := None;
               nomatch := None; nore := None |} in
  let '(i1, lv1, log1, error1) :=
    fold_left set_parameter params (i0, [RInstance], [], false) in
  let '(cflags, log2, error2) :=
    option_flags "qlafilter: Unsupported option '" options true REG_ICASE in
  let '(log3, error3) :=
    match filebase i1 with
    | None => (["qlafilter: No 'filebase' parameter defined."], true)
    | Some _ => ([], false)
    end in
  let '(i2, lv2, log4, error) :=
    compile_nomatch cflags
      (compile_match cflags
         (set_sessions i1 0, lv1, log1 ++ log2 ++ log3,
          error1 || error2 || error3)) in
  if error
  then {| instance := None; live := cleanup i2 lv2; errors := log4 |}
  else {| instance := Some i2; live := lv2; errors := log4 |}.

(** [sprintf(buf, "%s.%d", base, n)] *)
Definition file_name (base : string) (n : Z) : string :=
  base +:+ "." +:+ pretty n.

(** [newSession].  [remote] and [userName] are what [session_get_remote]
    and [session_getUser] return; [can_open] tells whether [fopen]
    succeeds.  The result is [None] when [filebase] is [NULL] (the
    [strlen] of it is undefined); otherwise the instance with its counter
    advanced, the session ([None] for [NULL]) and the files. *)
Definition newSession (my_instance : QLA_INSTANCE)
    (remote_ userName_ : option string) (can_open : bool)
    (fs : gmap string string)
    : option (QLA_INSTANCE * option QLA_SESSION * gmap string string) :=
  base ← filebase my_instance;
  let active_ :=
    if match source my_instance, remote_ with
       | Some src, Some r => negb (streq r src)
       | _, _ => false
       end
       ||
       match userName my_instance, userName_ with
       | Some u, Some v => negb (streq v u)
       | _, _ => false
       end
    then 0 else 1 in
  let filename_ := file_name base (sessions my_instance) in
  let my_instance' :=
    set_sessions my_instance (wrap32 (sessions my_instance + 1)) in
  if negb (active_ =? 0) then
    if can_open then
      Some (my_instance',
            Some {| filename := filename_; fp := Some filename_;
                    active := active_; user := userName_;
                    remote := remote_ |},
            <[filename_ := ""]> fs)
    else Some (my_instance', None, fs)
  else
    Some (my_instance',
          Some {| filename := filename_; fp := None; active := active_;
                  user := userName_; remote := remote_ |},
          fs).

(** [closeSession]: the stream handed to [fclose], if any. *)
Definition closeSession (my_session : QLA_SESSION) : option string :=
  if negb (active my_session =? 0) then fp my_session else None.

Definition regexec_field (r : option regex_t) (sql : string) : option bool :=
  c ← r; Some (regexec c sql).

Definition newline : string := String (ascii_of_nat 10) "".

(** The text of [fprintf(fp, "%s,%s@%s,%s\n", ...)]. *)
Definition log_line (stamp user_ remote_ sql : string) : string :=
  stamp +:+ "," +:+ user_ +:+ "@" +:+ remote_ +:+ "," +:+ sql +:+ newline.

(** [fprintf] on a stream: the text goes to the end of the file. *)
Definition fprintf (stream : string) (text : string)
    (fs : gmap string string) : gmap string string :=
  <[stream := default "" (fs !! stream) +:+ text]> fs.

(** [routeQuery].  [now] is the [tv_sec] read by [gettimeofday].  The
    result is [None] where the C code has no defined behaviour (an
    uncompiled pattern, a [NULL] stream or a [NULL] string printed);
    otherwise the files and the buffer passed downstream. *)
Definition routeQuery (my_instance : QLA_INSTANCE) (my_session : QLA_SESSION)
    (queue : GWBUF) (now : Z) (fs : gmap string string)
    : option (gmap string string * GWBUF) :=
  if negb (active my_session =? 0) then
    let queue := contiguous queue in
    match modutil_get_SQL queue with
    | Some ptr =>
        matched ← match match_ my_instance with
                  | None => Some true
                  | Some _ => regexec_field (re my_instance) ptr
                  end;
        if (matched : bool) then
          kept ← match nomatch my_instance with
                 | None => Some true
                 | Some _ => negb <$> regexec_field (nore my_instance) ptr
                 end;
          if (kept : bool) then
            stream ← fp my_session;
            u ← user my_session;
            r ← remote my_session;
            Some (fprintf stream
                    (log_line (strftime_FT now) u r
                       (trim (squeeze_whitespace ptr))) fs,
                  queue)
          else Some (fs, queue)
        else Some (fs, queue)
    | None => Some (fs, queue)
    end
  else Some (fs, queue).

(** The parameters the logger accepts. *)
Definition recognized (p : FILTER_PARAMETER) : bool :=
  streq (name p) "match" || streq (name p) "exclude" ||
  streq (name p) "source" || streq (name p) "user" ||
  streq (name p) "filebase" || filter_standard_parameter (name p).

(** The heap objects an instance under construction points to, in the
    order in which the [if (error)] block lets go of them. *)
Definition owned (i : QLA_INSTANCE) : list resource :=
  strs (match_ i) ++ regs (match_ i) (re i) ++
  strs (nomatch i) ++ regs (nomatch i) (nore i) ++
  strs (filebase i) ++ strs (source i) ++ strs (userName i) ++ [RInstance].

(** The fields no parameter seen so far has set. *)
Definition unset (seen : list string) (i : QLA_INSTANCE) : Prop :=
  re i = None /\ nore i = None /\
  ("match" ∉ seen -> match_ i = None) /\
  ("exclude" ∉ seen -> nomatch i = None) /\
  ("source" ∉ seen -> source i = None) /\
  ("user" ∉ seen -> userName i = None) /\
  ("filebase" ∉ seen -> filebase i = None).

Definition compiled (i : QLA_INSTANCE) : bool :=
  match match_ i, re i with Some _, None => false | _, _ => true end &&
  match nomatch i, nore i with Some _, None => false | _, _ => true end.

(** A session driven by a sequence of requests, each with the clock value
    read for it; the buffers sent downstream are collected in arrival
    order. *)
Fixpoint run (my_instance : QLA_INSTANCE) (my_session : QLA_SESSION)
    (requests : list (GWBUF * Z)) (fs : gmap string string)
    : option (gmap string string * list GWBUF) :=
  match requests with
  | [] => Some (fs, [])
  | (queue, now) :: rest =>
      '(fs1, out) ← routeQuery my_instance my_session queue now fs;
      '(fs2, outs) ← run my_instance my_session rest fs1;
      Some (fs2, out :: outs)
  end.

(** The request is one the logger writes down: its text is extracted,
    matched and not excluded. *)
Definition logged (my_instance : QLA_INSTANCE) (queue : GWBUF) : bool :=
  match modutil_get_SQL (contiguous queue) with
  | Some ptr =>
      match match_ my_instance, re my_instance with
      | None, _ => true
      | Some _, Some r => regexec r ptr
      | Some _, None => false
      end &&
      match nomatch my_instance, nore my_instance with
      | None, _ => true
      | Some _, Some r => negb (regexec r ptr)
      | Some _, None => false
      end
  | None => false
  end.

(** The text the logged requests of a sequence add to the file. *)
Fixpoint transcript (my_instance : QLA_INSTANCE) (user_ remote_ : string)
    (requests : list (GWBUF * Z)) : string :=
  match requests with
  | [] => ""
  | (queue, now) :: rest =>
      (if logged my_instance queue
       then log_line (strftime_FT now) user_ remote_
              (trim (squeeze_whitespace
                       (default "" (modutil_get_SQL (contiguous queue)))))
       else "") +:+ transcript my_instance user_ remote_ rest
  end.

(** Sessions attached one after the other, each with the address and user
    of its client and whether its file can be opened; a session that
    could not be made is [None]. *)
Fixpoint attach (my_instance : QLA_INSTANCE)
    (clients : list (option string * option string * bool))
    (fs : gmap string string)
    : option (QLA_INSTANCE * list (option QLA_SESSION) * gmap string string) :=
  match clients with
  | [] => Some (my_instance, [], fs)
  | (remote_, user_, can_open) :: rest =>
      '(i, s, fs1) ← newSession my_instance remote_ user_ can_open fs;
      '(i', ss, fs2) ← attach i rest fs1;
      Some (i', s :: ss, fs2)
  end.

End Filter.
End Qla.

(* ===================================================================== *)
(** ** topfilter.c: the top-N latency tracker *)

Module Topn.
Section Filter.
Context `{Host} `{Regex}.

(** Value of a C [long] ([time_t], [suseconds_t]) after an arithmetic
    step. *)
Definition wrap64 (z : Z) : Z := (z + 2 ^ 63) mod 2 ^ 64 - 2 ^ 63.

Record timeval := { tv_sec : Z; tv_usec : Z }.

(** The [timersub] and [timeradd] macros of [<sys/time.h>]. *)
Definition timersub (a b : timeval) : timeval :=
  let sec := wrap64 (tv_sec a - tv_sec b) in
  let usec := wrap64 (tv_usec a - tv_usec b) in
  if usec <? 0
  then {| tv_sec := wrap64 (sec - 1); tv_usec := wrap64 (usec + 1000000) |}
  else {| tv_sec := sec; tv_usec := usec |}.

Definition timeradd (a b : timeval) : timeval :=
  let sec := wrap64 (tv_sec a + tv_sec b) in
  let usec := wrap64 (tv_usec a + tv_usec b) in
  if 1000000 <=? usec
  then {| tv_sec := wrap64 (sec + 1); tv_usec := wrap64 (usec - 1000000) |}
  else {| tv_sec := sec; tv_usec := usec |}.

Record TOPN_INSTANCE := {
  sessions : Z;
  topN : Z;
  filebase : option string;
  source : option string;
  user : option string;
  match_ : option string;
  re : option regex_t;
  exclude : option string;
  exre : option regex_t
}.

Record TOPNQ := {
  duration : timeval;
  sql : option string
}.

(** [top] holds the [topN] entries [top[0] .. top[topN - 1]], so that a
    loop over [i < topN] is a traversal of the list; the extra [NULL]
    pointer that ends the C array is never read. *)
Record TOPN_SESSION := {
  active : Z;
  clientHost : option string;
  userName : option string;
  filename : string;
  start : timeval;
  current : option string;
  top : list TOPNQ;
  n_statements : Z;
  total : timeval;
  connect : timeval;
  disconnect : timeval
}.

Definition set_topN (i : TOPN_INSTANCE) (v : Z) :=
  {| sessions := sessions i; topN := v; filebase := filebase i;
     source := source i; user := user i; match_ := match_ i; re := re i;
     exclude := exclude i; exre := exre i |}.
Definition set_filebase (i : TOPN_INSTANCE) (v : option string) :=
  {| sessions := sessions i; topN := topN i; filebase := v;
     source := source i; user := user i; match_ := match_ i; re := re i;
     exclude := exclude i; exre := exre i |}.
Definition set_match (i : TOPN_INSTANCE) (v : option string) :=
  {| sessions := sessions i; topN := topN i; filebase := filebase i;
     source := source i; user := user i; match_ := v; re := re i;
     exclude := exclude i; exre := exre i |}.
Definition set_exclude (i : TOPN_INSTANCE) (v : option string) :=
  {| sessions := sessions i; topN := topN i; filebase := filebase i;
     source := source i; user := user i; match_ := match_ i; re := re i;
     exclude := v; exre := exre i |}.
Definition set_source (i : TOPN_INSTANCE) (v : option string) :=
  {| sessions := sessions i; topN := topN i; filebase := filebase i;
     source := v; user := user i; match_ := match_ i; re := re i;
     exclude := exclude i; exre := exre i |}.
Definition set_user (i : TOPN_INSTANCE) (v : option string) :=
  {| sessions := sessions i; topN := topN i; filebase := filebase i;
     source := source i; user := v; match_ := match_ i; re := re i;
     exclude := exclude i; exre := exre i |}.
Definition set_re (i : TOPN_INSTANCE) (v : option regex_t) :=
  {| sessions := sessions i; topN := topN i; filebase := filebase i;
     source := source i; user := user i; match_ := match_ i; re := v;
     exclude := exclude i; exre := exre i |}.
Definition set_exre (i : TOPN_INSTANCE) (v : option regex_t) :=
  {| sessions := sessions i; topN := topN i; filebase := filebase i;
     source := source i; user := user i; match_ := match_ i; re := re i;
     exclude := exclude i; exre := v |}.
Definition set_sessions (i : TOPN_INSTANCE) (v : Z) :=
  {| sessions := v; topN := topN i; filebase := filebase i;
     source := source i; user := user i; match_ := match_ i; re := re i;
     exclude := exclude i; exre := exre i |}.

Definition building : Type :=
  TOPN_INSTANCE * list resource * list string * bool.

Definition set_parameter (st : building) (p : FILTER_PARAMETER) : building :=
  let '(i, lv, log, error) := st in
  if streq (name p) "count"
  then (set_topN i (atoi (value p)), lv, log, error)
  else if streq (name p) "filebase"
  then (set_filebase i (Some (value p)), RStr (value p) :: lv, log, error)
  else if streq (name p) "match"
  then (set_match i (Some (value p)), RStr (value p) :: lv, log, error)
  else if streq (name p) "exclude"
  then (set_exclude i (Some (value p)), RStr (value p) :: lv, log, error)
  else if streq (name p) "source"
  then (set_source i (Some (value p)), RStr (value p) :: lv, log, error)
  else if streq (name p) "user"
  then (set_user i (Some (value p)), RStr (value p) :: lv, log, error)
  else if negb (filter_standard_parameter (name p))
  then (i, lv, log ++ ["topfilter: Unexpected parameter '" +:+ name p
                         +:+ "'."], true)
  else (i, lv, log, error).

(** The failure branch calls [regfree] on the slot [regcomp] rejected and
    frees the text. *)
Definition compile_match (cflags : Z) (st : building) : building :=
  let '(i, lv, log, error) := st in
  match match_ i with
  | Some m =>
      match regcomp m cflags with
      | Some c => (set_re i (Some c), RRegex m :: lv, log, error)
      | None =>
          (set_match i None, MXS_FREE_str (Some m) (release (RRegex m) lv),
           log ++ ["topfilter: Invalid regular expression '" +:+ m +:+
                   "' for the 'match' parameter."], true)
      end
  | None => st
  end.

Definition compile_exclude (cflags : Z) (st : building) : building :=
  let '(i, lv, log, error) := st in
  match exclude i with
  | Some m =>
      match regcomp m cflags with
      | Some c => (set_exre i (Some c), RRegex m :: lv, log, error)
      | None =>
          (set_exclude i None, MXS_FREE_str (Some m) (release (RRegex m) lv),
           log ++ ["topfilter: Invalid regular expression '" +:+ m +:+
                   "' for the 'nomatch' parameter." +:+ String "010" ""],
           true)
      end
  | None => st
  end.

Definition cleanup (i : TOPN_INSTANCE) (lv : list resource) : list resource :=
  let lv := match exclude i with
            | Some m => MXS_FREE_str (Some m) (release (RRegex m) lv)
            | None => lv
            end in
  let lv := match match_ i with
            | Some m => MXS_FREE_str (Some m) (release (RRegex m) lv)
            | None => lv
            end in
  let lv := MXS_FREE_str (filebase i) lv in
  let lv := MXS_FREE_str (source i) lv in
  let lv := MXS_FREE_str (user i) lv in
  release RInstance lv.

Definition createInstance (options : list string)
    (params : list FILTER_PARAMETER) : built TOPN_INSTANCE :=
  let i0 := {| sessions := 0; topN := 10; filebase := None; source := None;
               user := None; match_ := None; re := None;
               exclude := None; exre := None |} in
  let '(i1, lv1, log1, error1) :=
    fold_left set_parameter params (i0, [RInstance], [], false) in
  let '(cflags, log2, error2) :=
    option_flags "topfilter: Unsupported option '" options true REG_ICASE in
  let '(log3, error3) :=
    match filebase i1 with
    | None => (["topfilter: No 'filebase' parameter defined."], true)
    | Some _ => ([], false)
    end in
  let '(i2, lv2, log4, error) :=
    compile_exclude cflags
      (compile_match cflags
         (set_sessions i1 0, lv1, log1 ++ log2 ++ log3,
          error1 || error2 || error3)) in
  if error
  then {| instance := None; live := cleanup i2 lv2; errors := log4 |}
  else {| instance := Some i2; live := lv2; errors := log4 |}.

Definition file_name (base : string) (n : Z) : string :=
  base +:+ "." +:+ pretty n.

Definition zero_time : timeval := {| tv_sec := 0; tv_usec := 0 |}.

(** [newSession].  [remote] and [user_] come from the client session,
    [now] from [gettimeofday].  [None] stands for the two ways the C code
    stops: [strlen] of a [NULL] [filebase], and [MXS_ABORT_IF_NULL] after
    [calloc] is asked for a negative number of slots. *)
Definition newSession (my_instance : TOPN_INSTANCE)
    (remote user_ : option string) (now : timeval)
    : option (TOPN_INSTANCE * TOPN_SESSION) :=
  base ← filebase my_instance;
  let filename_ := file_name base (sessions my_instance) in
  let my_instance' :=
    set_sessions my_instance (wrap32 (sessions my_instance + 1)) in
  if wrap32 (topN my_instance + 1) <? 0 then None
  else
    let top_ := replicate (Z.to_nat (topN my_instance))
                  {| duration := zero_time; sql := None |} in
    let active_ := 1 in
    let active_ :=
      match source my_instance, remote with
      | Some src, Some r => if negb (streq r src) then 0 else active_
      | _, _ => active_
      end in
    let active_ :=
      match user my_instance, user_ with
      | Some u, Some v => if negb (streq v u) then 0 else active_
      | _, _ => active_
      end in
    let filename_ := file_name base (sessions my_instance') in
    Some (my_instance',
          {| active := active_; clientHost := remote; userName := user_;
             filename := filename_; start := zero_time; current := None;
             top := top_; n_statements := 0; total := zero_time;
             connect := now; disconnect := zero_time |}).

Definition regexec_field (r : option regex_t) (text : string) : option bool :=
  c ← r; Some (regexec c text).

Definition record_pending (s : TOPN_SESSION) (ptr : string) (now : timeval)
    : TOPN_SESSION :=
  {| active := active s; clientHost := clientHost s; userName := userName s;
     filename := filename s; start := now; current := Some ptr;
     top := top s; n_statements := wrap32 (n_statements s + 1);
     total := total s; connect := connect s; disconnect := disconnect s |}.

(** [routeQuery]; the buffer returned is the one passed downstream. *)
Definition routeQuery (my_instance : TOPN_INSTANCE) (my_session : TOPN_SESSION)
    (queue : GWBUF) (now : timeval) : option (TOPN_SESSION * GWBUF) :=
  if negb (active my_session =? 0) then
    let queue := contiguous queue in
    match modutil_get_SQL queue with
    | Some ptr =>
        matched ← match match_ my_instance with
                  | None => Some true
                  | Some _ => regexec_field (re my_instance) ptr
                  end;
        if (matched : bool) then
          kept ← match exclude my_instance with
                 | None => Some true
                 | Some _ => negb <$> regexec_field (exre my_instance) ptr
                 end;
          if (kept : bool)
          then Some (record_pending my_session ptr now, queue)
          else Some (my_session, queue)
        else Some (my_session, queue)
    | None => Some (my_session, queue)
    end
  else Some (my_session, queue).

(** [cmp_topn]: the [long] difference returned as an [int]. *)
Definition cmp_topn (a b : TOPNQ) : Z :=
  if tv_sec (duration b) =? tv_sec (duration a)
  then wrap32 (wrap64 (tv_usec (duration b) - tv_usec (duration a)))
  else wrap32 (wrap64 (tv_sec (duration b) - tv_sec (duration a))).

(** libc [qsort] with comparison [cmp]: an insertion sort that puts [x]
    before the first element it does not compare greater than. *)
Fixpoint sorted_insert (cmp : TOPNQ -> TOPNQ -> Z) (x : TOPNQ)
    (l : list TOPNQ) : list TOPNQ :=
  match l with
  | [] => [x]
  | y :: r => if cmp x y <=? 0 then x :: l else y :: sorted_insert cmp x r
  end.

Definition qsort (cmp : TOPNQ -> TOPNQ -> Z) (l : list TOPNQ) : list TOPNQ :=
  fold_right (sorted_insert cmp) [] l.

(** The [for] loop of [clientReply]: index of the first free slot. *)
Fixpoint first_free (l : list TOPNQ) : option nat :=
  match l with
  | [] => None
  | e :: r => match sql e with
              | None => Some 0%nat
              | Some _ => S <$> first_free r
              end
  end.

(** [diff] exceeds the duration of [last]. *)
Definition longer (diff : timeval) (last : TOPNQ) : bool :=
  (tv_sec (duration last) <? tv_sec diff) ||
  ((tv_sec diff =? tv_sec (duration last)) &&
   (tv_usec (duration last) <? tv_usec diff)).

Definition set_ranking (s : TOPN_SESSION) (total_ : timeval)
    (top_ : list TOPNQ) : TOPN_SESSION :=
  {| active := active s; clientHost := clientHost s; userName := userName s;
     filename := filename s; start := start s; current := None;
     top := top_; n_statements := n_statements s;
     total := total_; connect := connect s; disconnect := disconnect s |}.

(** [clientReply]; the buffer returned is the one passed upstream.
    [None] when the code reads [top[topN - 1]] outside the array. *)
Definition clientReply (my_instance : TOPN_INSTANCE) (my_session : TOPN_SESSION)
    (reply : GWBUF) (now : timeval) : option (TOPN_SESSION * GWBUF) :=
  match current my_session with
  | Some cur =>
      let diff := timersub now (start my_session) in
      let total_ := timeradd (total my_session) diff in
      let entry := {| duration := diff; sql := Some cur |} in
      match first_free (top my_session) with
      | Some i =>
          Some (set_ranking my_session total_
                  (qsort cmp_topn (<[i := entry]> (top my_session))),
                reply)
      | None =>
          if topN my_instance - 1 <? 0 then None
          else
            last ← top my_session !! Z.to_nat (topN my_instance - 1);
            if longer diff last
            then Some (set_ranking my_session total_
                         (qsort cmp_topn
                            (<[Z.to_nat (topN my_instance - 1) := entry]>
                               (top my_session))),
                       reply)
            else Some (set_ranking my_session total_ (top my_session), reply)
      end
  | None => Some (my_session, reply)
  end.

(** One [fprintf] of the end-of-session report, with its arguments. *)
Inductive report_line :=
| Header (n : Z)
| Entry (millis : Z) (text : string)
| SessionStarted (sec : Z)
| ConnectionFrom (host : string)
| Username (u : string)
| TotalStatements (statements : Z)
| TotalTime (sec msec : Z)
| AverageTime (millis divisor : Z)
| ConnectionTime (sec msec : Z).

Definition millis (t : timeval) : Z :=
  wrap64 (wrap64 (tv_sec t * 1000) + Z.quot (tv_usec t) 1000).

(** [closeSession].  [now] is the clock, [can_open] whether [fopen]
    succeeds.  [AverageTime m d] is the line that prints the [double]
    quotient [m / d]. *)
Definition closeSession (my_instance : TOPN_INSTANCE)
    (my_session : TOPN_SESSION) (now : timeval) (can_open : bool)
    (fs : gmap string (list report_line))
    : TOPN_SESSION * gmap string (list report_line) :=
  let s := {| active := active my_session;
              clientHost := clientHost my_session;
              userName := userName my_session;
              filename := filename my_session; start := start my_session;
              current := current my_session; top := top my_session;
              n_statements := n_statements my_session;
              total := total my_session; connect := connect my_session;
              disconnect := now |} in
  let diff := timersub (disconnect s) (connect s) in
  if can_open then
    let statements :=
      if negb (n_statements s =? 0) then n_statements s else 1 in
    let report :=
      [Header (topN my_instance)] ++
      omap (fun e => Entry (millis (duration e)) <$> sql e) (top s) ++
      [SessionStarted (tv_sec (connect s))] ++
      match clientHost s with Some h => [ConnectionFrom h] | None => [] end ++
      match userName s with Some u => [Username u] | None => [] end ++
      [TotalStatements statements;
       TotalTime (wrap32 (tv_sec (total s)))
                 (Z.quot (wrap32 (tv_usec (total s))) 1000);
       AverageTime (millis (total s)) (wrap32 (1000 * statements));
       ConnectionTime (wrap32 (tv_sec diff))
                      (Z.quot (wrap32 (tv_usec diff)) 1000)] in
    (s, <[filename s := report]> fs)
  else (s, fs).

Inductive event :=
| Request (queue : GWBUF) (now : timeval)
| Reply (reply : GWBUF) (now : timeval).

Definition clock (e : event) : timeval :=
  match e with Request _ t => t | Reply _ t => t end.

Definition step (my_instance : TOPN_INSTANCE) (s : TOPN_SESSION) (e : event)
    : option (TOPN_SESSION * GWBUF) :=
  match e with
  | Request q t => routeQuery my_instance s q t
  | Reply r t => clientReply my_instance s r t
  end.

(** A session driven by a sequence of requests and replies; the buffers
    forwarded to the neighbours are collected in arrival order. *)
Fixpoint run (my_instance : TOPN_INSTANCE) (s : TOPN_SESSION)
    (events : list event) : option (TOPN_SESSION * list GWBUF) :=
  match events with
  | [] => Some (s, [])
  | e :: rest =>
      '(s1, out) ← step my_instance s e;
      '(s2, outs) ← run my_instance s1 rest;
      Some (s2, out :: outs)
  end.

(** The parameters the tracker accepts. *)
Definition recognized (p : FILTER_PARAMETER) : bool :=
  streq (name p) "count" || streq (name p) "filebase" ||
  streq (name p) "match" || streq (name p) "exclude" ||
  streq (name p) "source" || streq (name p) "user" ||
  filter_standard_parameter (name p).

(** The heap objects an instance under construction points to, in the
    order in which the [if (error)] block lets go of them. *)
Definition owned (i : TOPN_INSTANCE) : list resource :=
  regs (exclude i) (exre i) ++ strs (exclude i) ++
  regs (match_ i) (re i) ++ strs (match_ i) ++
  strs (filebase i) ++ strs (source i) ++ strs (user i) ++ [RInstance].

(** The fields no parameter seen so far has set. *)
Definition unset (seen : list string) (i : TOPN_INSTANCE) : Prop :=
  re i = None /\ exre i = None /\
  ("match" ∉ seen -> match_ i = None) /\
  ("exclude" ∉ seen -> exclude i = None) /\
  ("source" ∉ seen -> source i = None) /\
  ("user" ∉ seen -> user i = None) /\
  ("filebase" ∉ seen -> filebase i = None).

Definition compiled (i : TOPN_INSTANCE) : bool :=
  match match_ i, re i with Some _, None => false | _, _ => true end &&
  match exclude i, exre i with Some _, None => false | _, _ => true end.

Definition message (e : event) : GWBUF :=
  match e with Request q _ => q | Reply r _ => r end.

(** [a] is at least as long as [b]: seconds first, then microseconds. *)
Definition dur_ge (a b : timeval) : Prop :=
  tv_sec b < tv_sec a \/ (tv_sec b = tv_sec a /\ tv_usec b <= tv_usec a).

(** The order of a ranking: the longer statement comes first. *)
Definition no_shorter (a b : TOPNQ) : Prop :=
  dur_ge (duration a) (duration b).

(** The entries of the ranking that hold a statement. *)
Definition occupied (l : list TOPNQ) : list TOPNQ :=
  filter (fun e => is_Some (sql e)) l.

(** A clock reading of a session whose readings all fall in a span of
    2^30 seconds that starts at [base]. *)
Definition in_window (base : Z) (t : timeval) : Prop :=
  base <= tv_sec t < base + 2 ^ 30 /\ 0 <= tv_usec t < 1000000.

(** A difference of two readings of one window. *)
Definition small (d : timeval) : Prop :=
  - 2 ^ 30 <= tv_sec d < 2 ^ 30 /\ 0 <= tv_usec d < 1000000.

(** What holds of a session between two calls: the array has its [topN]
    slots, every duration is a difference of readings, the array is in
    ranking order, and a pending statement was started inside the
    window. *)
Definition ranked (my_instance : TOPN_INSTANCE) (base : Z)
    (s : TOPN_SESSION) : Prop :=
  length (top s) = Z.to_nat (topN my_instance) /\
  Forall (fun e => small (duration e)) (top s) /\
  StronglySorted no_shorter (top s) /\
  (is_Some (current s) -> in_window base (start s)).

(** What holds of a session that has recorded no statement: nothing is
    pending and no execution time has been added. *)
Definition idle (s : TOPN_SESSION) : Prop :=
  0 <= n_statements s /\
  (n_statements s = 0 -> total s = zero_time /\ current s = None).

(** The durations [clientReply] measures along a run: one for each reply
    that finds a statement pending. *)
Fixpoint measured (my_instance : TOPN_INSTANCE) (s : TOPN_SESSION)
    (events : list event) : list timeval :=
  match events with
  | [] => []
  | e :: rest =>
      match step my_instance s e with
      | Some (s1, _) =>
          match e, current s with
          | Reply _ now, Some _ =>
              timersub now (start s) :: measured my_instance s1 rest
          | _, _ => measured my_instance s1 rest
          end
      | None => []
      end
  end.

(** The durations the ranking holds. *)
Definition kept (s : TOPN_SESSION) : list timeval :=
  duration <$> occupied (top s).

(** The ranking holds the longest of the durations measured so far:
    [history] splits into the kept durations and the dropped ones, no
    dropped duration is longer than a kept one, and nothing is dropped
    while fewer than [n] are kept. *)
Definition top_selection (n : nat) (kept_ dropped history : list timeval)
    : Prop :=
  history ≡ₚ kept_ ++ dropped /\
  Forall (fun d => Forall (fun k => dur_ge k d) kept_) dropped /\
  (dropped <> [] -> length kept_ = n).

(** A [timeval] in microseconds. *)
Definition micro (t : timeval) : Z := tv_sec t * 1000000 + tv_usec t.

(** The request is one [routeQuery] records as pending in an active
    session: its text is extracted, matched and not excluded. *)
Definition recorded (my_instance : TOPN_INSTANCE) (e : event) : bool :=
  match e with
  | Request queue _ =>
      match modutil_get_SQL (contiguous queue) with
      | Some ptr =>
          match match_ my_instance, re my_instance with
          | None, _ => true
          | Some _, Some r => regexec r ptr
          | Some _, None => false
          end &&
          match exclude my_instance, exre my_instance with
          | None, _ => true
          | Some _, Some r => negb (regexec r ptr)
          | Some _, None => false
          end
      | None => false
      end
  | Reply _ _ => false
  end.

(** What a session with the given [active] flag hands to its neighbour
    for an event. *)
Definition forwarded (active_ : Z) (e : event) : GWBUF :=
  match e with
  | Request queue _ => if active_ =? 0 then queue else contiguous queue
  | Reply reply _ => reply
  end.

(** The number of requests of a sequence that an active session
    records. *)
Definition count_recorded (my_instance : TOPN_INSTANCE)
    (events : list event) : Z :=
  Z.of_nat (length (filter (fun e => recorded my_instance e = true) events)).

(** What the report prints for an entry: milliseconds and text. *)
Definition entry_of (e : TOPNQ) : Z * string :=
  (millis (duration e), default "" (sql e)).

(** The [Entry] lines of a report, in the order they were written. *)
Definition entries (report : list report_line) : list (Z * string) :=
  omap (fun l => match l with Entry m t => Some (m, t) | _ => None end)
       report.

(** Sessions attached one after the other, each with the address and user
    of its client and the clock. *)
Fixpoint attach (my_instance : TOPN_INSTANCE)
    (clients : list (option string * option string * timeval))
    : option (TOPN_INSTANCE * list TOPN_SESSION) :=
  match clients with
  | [] => Some (my_instance, [])
  | (remote, user_, now) :: rest =>
      '(i, s) ← newSession my_instance remote user_ now;
      '(i', ss) ← attach i rest;
      Some (i', s :: ss)
  end.

End Filter.
End Topn.

(* ===================================================================== *)
(** ** testfilter.c: the statement counter *)

Module Testfilter.
Section Filter.
Context `{Host}.

Record TEST_INSTANCE := { sessions : Z }.

Record TEST_SESSION := { count : Z }.

Definition createInstance (options : list string)
    (params : list FILTER_PARAMETER) : TEST_INSTANCE :=
  {| sessions := 0 |}.

Definition newSession (my_instance : TEST_INSTANCE)
    : TEST_INSTANCE * TEST_SESSION :=
  ({| sessions := wrap32 (sessions my_instance + 1) |}, {| count := 0 |}).

(** [routeQuery]; the buffer returned is the one passed downstream. *)
Definition routeQuery (my_session : TEST_SESSION) (queue : GWBUF)
    : TEST_SESSION * GWBUF :=
  (if modutil_is_SQL queue
   then {| count := wrap32 (count my_session + 1) |}
   else my_session,
   queue).

(** The line [diagnostic] prints: the session's count when a session is
    given, the number of sessions otherwise. *)
Inductive diagnosis :=
| QueriesRouted (n : Z)
| SessionsCreated (n : Z).

Definition diagnostic (my_instance : TEST_INSTANCE)
    (fsession : option TEST_SESSION) : diagnosis :=
  match fsession with
  | Some my_session => QueriesRouted (count my_session)
  | None => SessionsCreated (sessions my_instance)
  end.

Fixpoint run (my_session : TEST_SESSION) (requests : list GWBUF)
    : TEST_SESSION * list GWBUF :=
  match requests with
  | [] => (my_session, [])
  | queue :: rest =>
      let '(s, out) := routeQuery my_session queue in
      let '(s', outs) := run s rest in
      (s', out :: outs)
  end.

(** [n] sessions attached one after the other. *)
Fixpoint attach (my_instance : TEST_INSTANCE) (n : nat) : TEST_INSTANCE :=
  match n with
  | O => my_instance
  | S k => attach (newSession my_instance).1 k
  end.

End Filter.
End Testfilter.

(* ===================================================================== *)
(** ** debugcli.c: the debug command line router *)

Module Debugcli.

Inductive CLI_MODE := CLIM_USER | CLIM_DEVELOPER.

(** [session] is the client session the router session belongs to; the
    mode field is [mode] in the C structure. *)
Record CLI_SESSION := {
  cmdbuf : string;
  client_mode : CLI_MODE;
  session : nat
}.

(** [sessions] is the chain of router sessions, by address, from
    [inst->sessions] through the [next] fields. *)
Record CLI_INSTANCE := {
  service : nat;
  mode : CLI_MODE;
  sessions : list nat
}.

Definition VERSION_STR : string := "V1.1.1".

Definition newline : ascii := ascii_of_nat 10.

(** [createInstance]: the instance, the list [instances] with the new
    instance in front, and the lines sent to [MXS_ERROR]. *)
Definition createInstance (instances : list CLI_INSTANCE) (service_ : nat)
    (options : list string)
    : CLI_INSTANCE * list CLI_INSTANCE * list string :=
  let '(mode_, log) :=
    fold_left
      (fun '(m, log) o =>
         if strcaseeq o "developer" then (CLIM_DEVELOPER, log)
         else if strcaseeq o "user" then (CLIM_USER, log)
         else (m, log ++ ["Unknown option for CLI '" +:+ o +:+ "'"]))
      options (CLIM_USER, []) in
  let inst := {| service := service_; mode := mode_; sessions := [] |} in
  (inst, inst :: instances, log).

(** The mode an option asks for; [None] for an option the router does not
    know. *)
Definition mode_option (o : string) : option CLI_MODE :=
  if strcaseeq o "developer" then Some CLIM_DEVELOPER
  else if strcaseeq o "user" then Some CLIM_USER
  else None.

Definition unknown_option (o : string) : bool :=
  match mode_option o with Some _ => false | None => true end.

(** [newSession]: [client] is the address [MXS_MALLOC] returned for the
    router session; the last component is what is printed to the client. *)
Definition newSession (inst : CLI_INSTANCE) (client session_ : nat)
    : CLI_INSTANCE * CLI_SESSION * list string :=
  ({| service := service inst; mode := mode inst;
      sessions := client :: sessions inst |},
   {| cmdbuf := ""; client_mode := mode inst; session := session_ |},
   ["Welcome the MariaDB Corporation MaxScale Debug Interface ("
      +:+ VERSION_STR +:+ ")." +:+ String newline ""] ++
   (match mode inst with
    | CLIM_DEVELOPER =>
        ["WARNING: This interface is meant for developer usage,"
           +:+ String newline "";
         "passing incorrect addresses to commands can endanger your "
           +:+ "MaxScale server." +:+ String newline (String newline "")]
    | CLIM_USER => []
    end) ++
   ["Type help for a list of available commands."
      +:+ String newline (String newline "")]).

(** The [else] branch of [closeSession]: walk the chain to the session
    whose successor is [session] and unlink the successor. *)
Fixpoint unlink (session_ : nat) (chain : list nat) : list nat :=
  match chain with
  | [] => []
  | ptr :: rest =>
      match rest with
      | next :: after =>
          if (next =? session_)%nat then ptr :: after
          else ptr :: unlink session_ rest
      | [] => [ptr]
      end
  end.

Definition closeSession (inst : CLI_INSTANCE) (session_ : nat)
    : CLI_INSTANCE :=
  {| service := service inst; mode := mode inst;
     sessions :=
       match sessions inst with
       | first :: rest =>
           if (first =? session_)%nat then rest
           else unlink session_ (sessions inst)
       | [] => []
       end |}.

Fixpoint string_take (n : nat) (s : string) : string :=
  match n, s with
  | S k, String c r => String c (string_take k r)
  | _, _ => ""
  end.

Fixpoint has_char (c : ascii) (s : string) : bool :=
  match s with
  | String d r => Ascii.eqb c d || has_char c r
  | EmptyString => false
  end.

Inductive cli_event :=
| Warning
| Executed (command : string)
| Prompt
| Closed.

Section Router.
(** [CMDBUFLEN] (debugcli.h) and [execute_cmd] (debugcmd.c) are not among
    the sources: they are taken as given. *)
Variable CMDBUFLEN : Z.
Variable execute_cmd : CLI_SESSION -> bool.

(** The [while] loop of [execute] from the buffer [queue] points to, with
    [cmdlen] bytes already in [cmdbuf]: the bytes added to [cmdbuf], the
    warnings, and the buffers left in the queue.  [None] when the bytes
    [strncat] is given hold a NUL, after which the next [strncat] reads
    bytes the call has not written. *)
Fixpoint extract (cmdlen : Z) (queue : list string)
    : option (string * list cli_event * list string) :=
  match queue with
  | [] => Some ("", [], [])
  | data :: rest =>
      if cmdlen <? CMDBUFLEN - 1 then
        let len := Z.of_nat (String.length data) in
        let n := Z.min len (CMDBUFLEN - cmdlen - 1) in
        let copied := string_take (Z.to_nat n) data in
        if has_char zero copied then None
        else
          '(more, warnings, unread) ← extract (cmdlen + n) rest;
          Some (copied +:+ more,
                (if negb (n =? len) then [Warning] else []) ++ warnings,
                unread)
      else Some ("", [], queue)
  end.

(** [execute]: the session with its command buffer, what happened, the
    buffers not consumed, and the value returned. *)
Definition execute (client : CLI_SESSION) (queue : option GWBUF)
    : option (CLI_SESSION * list cli_event * list string * Z) :=
  '(text, warnings, unread) ←
    extract 0 (match queue with
               | Some q => gw_head q :: gw_next q
               | None => []
               end);
  let client' := {| cmdbuf := text; client_mode := client_mode client;
                    session := session client |} in
  Some (client',
        warnings ++
        (if has_char newline text
         then Executed text ::
              (if execute_cmd client' then [Prompt] else [Closed])
         else []),
        unread, 1).

End Router.
End Debugcli.

(* ===================================================================== *)
(** ** A concrete host, to run the filters on explicit inputs *)

Module Demo.

Fixpoint contains (pat s : string) : bool :=
  String.prefix pat s ||
  match s with
  | String _ r => contains pat r
  | EmptyString => false
  end.

(** A toy pattern engine: a pattern is a plain substring.  As with the
    POSIX engine of the C library, [regcomp] rejects the lone opening
    bracket in either syntax, and the lone opening parenthesis in the
    extended syntax only, where it opens a group. *)
Definition regex : Regex :=
  {| regex_t := string;
     regcomp := fun p cflags =>
       if String.eqb p "[" ||
          (String.eqb p "(" && Z.testbit cflags 0)
       then None else Some p;
     regexec := fun r s => contains r s |}.

(** The classifier answers by the leading keyword, with the values of
    [qc_query_op_t]: 0 undefined, 1 select, 2 update, 4 insert, 8 delete. *)
Definition operation (s : string) : Z :=
  if String.prefix "SELECT" s then 1
  else if String.prefix "UPDATE" s then 2
  else if String.prefix "INSERT" s then 4
  else if String.prefix "DELETE" s then 8
  else 0.

Definition host : Host :=
  {| modutil_is_SQL := fun q => negb (String.eqb (gwbuf_content q) "");
     modutil_get_SQL := fun q =>
       if String.eqb (gw_head q) "" then None else Some (gw_head q);
     qc_get_operation := fun q => operation (gw_head q);
     QUERY_OP_SELECT := 1;
     filter_standard_parameter := fun n =>
       String.eqb n "type" || String.eqb n "module";
     squeeze_whitespace := fun s => s;
     trim := fun s => s;
     strftime_FT := fun _ => "2016-10-10 10:10:10" |}.

Definition packet (text : string) : GWBUF :=
  {| gw_head := text; gw_next := []; hint := [] |}.

(** A logger restricted to one client address, with a [match] and an
    [exclude] pattern. *)
Definition qla_instance : @Qla.QLA_INSTANCE regex :=
  {| Qla.sessions := 0; Qla.filebase := Some "/tmp/qla";
     Qla.source := Some "10.0.0.1"; Qla.userName := None;
     Qla.match_ := Some "FROM";
     Qla.re := regcomp (Regex := regex) "FROM" REG_ICASE;
     Qla.nomatch := Some "secret";
     Qla.nore := regcomp (Regex := regex) "secret" REG_ICASE |}.

Definition qla_session : Qla.QLA_SESSION :=
  {| Qla.filename := "/tmp/qla.0"; Qla.fp := Some "/tmp/qla.0";
     Qla.active := 1; Qla.user := Some "alice";
     Qla.remote := Some "10.0.0.1" |}.

(** A tracker of the two slowest statements, restricted to one client
    address. *)
Definition topn_instance : @Topn.TOPN_INSTANCE regex :=
  {| Topn.sessions := 0; Topn.topN := 2; Topn.filebase := Some "/tmp/top";
     Topn.source := Some "10.0.0.1"; Topn.user := None;
     Topn.match_ := None; Topn.re := None;
     Topn.exclude := None; Topn.exre := None |}.

Definition at_time (sec usec : Z) : Topn.timeval :=
  {| Topn.tv_sec := sec; Topn.tv_usec := usec |}.

(** The tracker after its first [newSession]. *)
Definition topn_attached : @Topn.TOPN_INSTANCE regex :=
  Topn.set_sessions topn_instance 1.

(** The session [newSession] makes at time 100 for a client at [host]. *)
Definition topn_session (host : string) (active_ : Z) : Topn.TOPN_SESSION :=
  {| Topn.active := active_; Topn.clientHost := Some host;
     Topn.userName := Some "alice"; Topn.filename := "/tmp/top.1";
     Topn.start := Topn.zero_time; Topn.current := None;
     Topn.top := [ {| Topn.duration := Topn.zero_time; Topn.sql := None |};
                   {| Topn.duration := Topn.zero_time; Topn.sql := None |} ];
     Topn.n_statements := 0; Topn.total := Topn.zero_time;
     Topn.connect := at_time 100 0; Topn.disconnect := Topn.zero_time |}.

(** A session with both slots taken (5 s and 3 s) and a statement pending
    since time 100. *)
Definition topn_full_session : Topn.TOPN_SESSION :=
  {| Topn.active := 1; Topn.clientHost := Some "10.0.0.1";
     Topn.userName := Some "alice"; Topn.filename := "/tmp/top.1";
     Topn.start := at_time 100 0; Topn.current := Some "SELECT c FROM t";
     Topn.top := [ {| Topn.duration := at_time 5 0;
                      Topn.sql := Some "SELECT a FROM t" |};
                   {| Topn.duration := at_time 3 0;
                      Topn.sql := Some "SELECT b FROM t" |} ];
     Topn.n_statements := 3; Topn.total := at_time 8 0;
     Topn.connect := at_time 90 0; Topn.disconnect := Topn.zero_time |}.

(** A tracker of the ten slowest statements, open to every client. *)
Definition topn_ten : @Topn.TOPN_INSTANCE regex :=
  {| Topn.sessions := 0; Topn.topN := 10; Topn.filebase := Some "/tmp/top";
     Topn.source := None; Topn.user := None;
     Topn.match_ := None; Topn.re := None;
     Topn.exclude := None; Topn.exre := None |}.

(** Statements sent one after the other, each answered after the given
    seconds and microseconds. *)
Fixpoint statements (t : Z) (latencies : list (Z * Z)) : list Topn.event :=
  match latencies with
  | [] => []
  | (sec, usec) :: rest =>
      Topn.Request (packet "SELECT 1") (at_time t 0) ::
      Topn.Reply (packet "OK") (at_time (t + sec) usec) ::
      statements (t + sec + 1) rest
  end.

(** [count=2], [time=60], no pattern. *)
Definition ccr_instance : @Ccr.CCR_INSTANCE regex :=
  {| Ccr.match_ := None; Ccr.nomatch := None; Ccr.time := 60;
     Ccr.count := 2;
     Ccr.stats := {| Ccr.n_add_count := 0; Ccr.n_add_time := 0;
                     Ccr.n_modified := 0 |};
     Ccr.re := None; Ccr.nore := None |}.

Definition param (n v : string) : FILTER_PARAMETER :=
  {| name := n; value := v |}.

End Demo.

(* ===================================================================== *)
(** * Properties *)

Lemma wrap32_small (z : Z) : - 2 ^ 31 <= z < 2 ^ 31 -> wrap32 z = z.
Proof.
  intros Hz. unfold wrap32.
  rewrite Z.mod_small by lia. lia.
Qed.

Lemma option_flags_error prefix options strict cflags :
  (option_flags prefix options strict cflags).2 =
    strict && negb (forallb supported_option options).
Proof.
  unfold option_flags.
  set (f := fun '(cf, log, err) o => _).
  assert (forall acc,
            (fold_left f options acc).2 =
              acc.2 || (strict && negb (forallb supported_option options)))
    as Hfold.
  { induction options as [|o options IH]; intros [[cf log] err]; simpl.
    - by rewrite andb_false_r, orb_false_r.
    - rewrite IH. unfold supported_option.
      destruct (strcaseeq o "ignorecase"); [done|].
      destruct (strcaseeq o "case"); [done|].
      destruct (strcaseeq o "extended"); [done|].
      simpl. rewrite andb_true_r. by destruct err, strict. }
  rewrite Hfold. done.
Qed.

Lemma append_empty_r (s : string) : s +:+ "" = s.
Proof.
  induction s as [|c s IH]; [done|].
  change (String c (s +:+ "") = String c s). by f_equal.
Qed.

(** [contiguous] changes how the bytes are chained, not the bytes nor the
    hints. *)
Lemma contiguous_content (q : GWBUF) :
  gwbuf_content (contiguous q) = gwbuf_content q /\
  hint (contiguous q) = hint q /\
  (gw_next q = [] -> contiguous q = q).
Proof.
  unfold contiguous, has_next. destruct (gw_next q) eqn:Hn.
  - done.
  - split; [|split; [done | done]].
    unfold gwbuf_make_contiguous, gwbuf_content at 1. simpl.
    apply append_empty_r.
Qed.

(** ** The hysteresis filter *)

Section CcrProperties.
Context `{Host} `{Regex}.
Import Ccr.

Lemma same_config_refl i : same_config i i.
Proof. by repeat split. Qed.

Lemma same_config_trans i j k :
  same_config i j -> same_config j k -> same_config i k.
Proof. unfold same_config. intuition congruence. Qed.

Lemma same_config_compiled i i' :
  same_config i i' -> compiled i' = compiled i.
Proof.
  unfold same_config, compiled.
  intros (-> & -> & _ & _ & -> & ->). done.
Qed.

Lemma ccr_modification_rule_total i s q now :
  compiled i = true -> is_Some (modification_rule i s q now).
Proof.
  unfold compiled, modification_rule, regexec_field. intros Hc.
  apply andb_prop in Hc as [Hm Hn].
  destruct (modutil_get_SQL q) as [sql|]; [|done].
  destruct (nomatch i), (nore i), (match_ i), (re i); simpl in *;
    try discriminate; repeat case_match; done.
Qed.

Lemma ccr_modification_rule_cases i s q now i' s' q' :
  modification_rule i s q now = Some (i', s', q') ->
  same_config i i' /\ q' = q /\
  (s' = s \/ s' = {| hints_left := count i; last_modification := now |}).
Proof.
  unfold modification_rule. intros Hr.
  repeat (case_match; simplify_option_eq);
    (split; [by repeat split | split; [done | auto]]).
Qed.

Lemma ccr_read_rule_cases i s q now i' s' q' :
  read_rule i s q now = (i', s', q') ->
  same_config i i' /\
  (s' = s \/ (0 < hints_left s /\ hints_left s' = hints_left s - 1)).
Proof.
  unfold read_rule. intros Hr.
  repeat case_match; simplify_eq; (split; [by repeat split|]); auto.
  right. simpl. split; [lia | done].
Qed.

Lemma ccr_routeQuery_total i s q now :
  compiled i = true -> is_Some (routeQuery i s q now).
Proof.
  intros Hc. unfold routeQuery.
  repeat case_match; try done. by apply ccr_modification_rule_total.
Qed.

(** What one [routeQuery] can do to [hints_left]: leave it, reset it to
    the configured count, or take one off a positive value. *)
Lemma ccr_routeQuery_hints_left i s q now i' s' q' :
  routeQuery i s q now = Some (i', s', q') ->
  same_config i i' /\
  (hints_left s' = hints_left s \/ hints_left s' = count i \/
   (0 < hints_left s /\ hints_left s' = hints_left s - 1)).
Proof.
  unfold routeQuery. intros Hr.
  destruct (modutil_is_SQL q).
  - destruct (negb _).
    + apply ccr_modification_rule_cases in Hr as (Hc & _ & [->| ->]); auto.
    + injection Hr as Hr.
      apply ccr_read_rule_cases in Hr as (Hc & [->|?]); auto.
  - simplify_eq. split; [apply same_config_refl | auto].
Qed.

Lemma ccr_run_hints_left_nonneg i s requests :
  compiled i = true -> 0 <= count i -> 0 <= hints_left s ->
  exists i' s' out,
    run i s requests = Some (i', s', out) /\ same_config i i' /\
    0 <= hints_left s' /\ length out = length requests.
Proof.
  revert i s. induction requests as [|[q now] rest IH]; intros i s Hc Hn Hs.
  - exists i, s, []. simpl. by repeat split.
  - destruct (ccr_routeQuery_total i s q now Hc) as [[[i1 s1] q1] Hr].
    destruct (ccr_routeQuery_hints_left _ _ _ _ _ _ _ Hr) as (Hcfg & Hh).
    destruct (IH i1 s1) as (i' & s' & out & Hrun & Hcfg' & Hs' & Hlen).
    + by rewrite (same_config_compiled _ _ Hcfg).
    + destruct Hcfg as (_ & _ & _ & -> & _). done.
    + lia.
    + exists i', s', (q1 :: out). simpl. rewrite Hr. simpl. rewrite Hrun. simpl.
      split; [done|]. split; [by eapply same_config_trans|].
      split; [done|]. simpl. by rewrite Hlen.
Qed.

(** C9.  In a session of an instance whose configured count is not
    negative, [hints_left] is 0 at creation and is not negative after any
    number of [routeQuery] calls, whatever the requests and the clock: every
    prefix of every request sequence runs to a state with
    [0 <= hints_left].  A single call leaves the field as it is, resets
    it to the configured count, or takes one off a positive value. *)
Theorem ccr_hints_left_never_negative (i : CCR_INSTANCE)
    (requests : list (GWBUF * Z)) (n : nat) :
  compiled i = true -> 0 <= count i ->
  hints_left (newSession i) = 0 /\
  (exists i' s' out,
     run i (newSession i) (take n requests) = Some (i', s', out) /\
     0 <= hints_left s') /\
  (forall s q now i' s' q',
     routeQuery i s q now = Some (i', s', q') ->
     hints_left s' = hints_left s \/ hints_left s' = count i \/
     (0 < hints_left s /\ hints_left s' = hints_left s - 1)).
Proof.
  intros Hc Hn. split; [done|]. split.
  - destruct (ccr_run_hints_left_nonneg i (newSession i) (take n requests))
      as (i' & s' & out & Hrun & _ & Hs & _); [done | done | simpl; lia |].
    by exists i', s', out.
  - intros s q now i' s' q' Hr.
    by destruct (ccr_routeQuery_hints_left _ _ _ _ _ _ _ Hr) as [_ ?].
Qed.

Lemma ccr_select_takes_read_rule i s q now :
  is_select q = true ->
  routeQuery i s q now = Some (read_rule i s (contiguous q) now).
Proof.
  unfold is_select, routeQuery. intros [-> Hop%Z.eqb_eq]%andb_prop.
  by rewrite Hop, Z.land_lnot_diag.
Qed.

Lemma ccr_observed_modification_resets i s q now :
  observed_modification i q = true ->
  routeQuery i s q now =
    Some (bump_modified i,
          {| hints_left := count i; last_modification := now |},
          contiguous q).
Proof.
  unfold observed_modification, routeQuery, modification_rule, regexec_field.
  intros [[-> ->]%andb_prop Hsql]%andb_prop.
  destruct (modutil_get_SQL (contiguous q)) as [sql|]; [|done].
  apply andb_prop in Hsql as [Hn Hm].
  destruct (nomatch i), (nore i), (match_ i), (re i); simpl in *;
    try discriminate; rewrite ?Hm; try rewrite (negb_true_iff _) in Hn;
    rewrite ?Hn; simpl; done.
Qed.

(** C5.  With count=2 and time=60, after an observed data modification at
    time [t0]: the next two selects each get the route-to-master hint and
    take one off [hints_left] (2, then 1, then 0); a third select that comes
    less than 60 seconds after [t0] gets the hint from the time rule, the
    session (and so [hints_left]) is left as it was, and only the
    by-time total moves.  Each of the three selects goes downstream with
    its bytes and with one hint more than it came with, in front of the
    others: route to master, with no data; the modification goes
    downstream with the hints it came with. *)
Theorem ccr_two_by_count_third_by_time (i : CCR_INSTANCE) (s : CCR_SESSION)
    (w r1 r2 r3 : GWBUF) (t0 t1 t2 t3 : Z) :
  count i = 2 -> time i = 60 ->
  observed_modification i w = true ->
  is_select r1 = true -> is_select r2 = true -> is_select r3 = true ->
  t3 - t0 < 60 ->
  exists i1 i2 i3 i4 s1 s2 s3,
    routeQuery i s w t0 = Some (i1, s1, contiguous w) /\
    hints_left s1 = 2 /\ last_modification s1 = t0 /\
    routeQuery i1 s1 r1 t1 = Some (i2, s2, add_master_hint (contiguous r1)) /\
    hints_left s2 = 1 /\
    routeQuery i2 s2 r2 t2 = Some (i3, s3, add_master_hint (contiguous r2)) /\
    hints_left s3 = 0 /\
    routeQuery i3 s3 r3 t3 = Some (i4, s3, add_master_hint (contiguous r3)) /\
    n_add_count (stats i4) = n_add_count (stats i3) /\
    n_add_time (stats i4) = wrap32 (n_add_time (stats i3) + 1) /\
    Forall
      (fun r =>
         gwbuf_content (add_master_hint (contiguous r)) = gwbuf_content r /\
         hint (add_master_hint (contiguous r)) =
           {| hint_type := HINT_ROUTE_TO_MASTER; hint_data := None |}
             :: hint r)
      [r1; r2; r3] /\
    gwbuf_content (contiguous w) = gwbuf_content w /\
    hint (contiguous w) = hint w.
Proof.
  intros Hcount Htime Hw Hr1 Hr2 Hr3 Ht.
  eexists _, _, _, _, _, _, _.
  split; [by apply ccr_observed_modification_resets|].
  split; [done|]. split; [done|].
  split.
  { rewrite (ccr_select_takes_read_rule _ _ _ _ Hr1). unfold read_rule. simpl.
    rewrite Hcount. simpl. reflexivity. }
  split; [simpl; lia|].
  split.
  { rewrite (ccr_select_takes_read_rule _ _ _ _ Hr2). unfold read_rule. simpl.
    reflexivity. }
  split; [simpl; lia|].
  split.
  { rewrite (ccr_select_takes_read_rule _ _ _ _ Hr3). unfold read_rule. simpl.
    rewrite Htime.
    destruct (Z.ltb_spec (t3 - t0) 60) as [_|?]; [reflexivity | lia]. }
  split; [done|]. split; [done|].
  assert (forall r,
            gwbuf_content (add_master_hint (contiguous r)) = gwbuf_content r /\
            hint (add_master_hint (contiguous r)) =
              {| hint_type := HINT_ROUTE_TO_MASTER; hint_data := None |}
                :: hint r) as Hq.
  { intros r. destruct (contiguous_content r) as (Hcontent & Hhint & _).
    split; [exact Hcontent|].
    unfold add_master_hint, hint_create_route. simpl. by rewrite Hhint. }
  split; [repeat constructor; apply Hq|].
  destruct (contiguous_content w) as (? & ? & _). done.
Qed.

(** Whatever [QUERY_OP_SELECT] is, a statement classified with operation 0
    has no bit outside it and goes to the hint branches. *)
Lemma ccr_zero_operation_takes_read_rule i s q now :
  modutil_is_SQL q = true -> qc_get_operation (contiguous q) = 0 ->
  routeQuery i s q now = Some (read_rule i s (contiguous q) now).
Proof.
  unfold routeQuery. intros -> ->. by rewrite Z.land_0_l.
Qed.

Lemma ccr_other_operation_takes_modification_rule i s q now :
  modutil_is_SQL q = true ->
  Z.land (qc_get_operation (contiguous q)) (Z.lnot QUERY_OP_SELECT) <> 0 ->
  routeQuery i s q now = modification_rule i s (contiguous q) now.
Proof.
  unfold routeQuery. intros -> Hop.
  by destruct (Z.eqb_spec (Z.land (qc_get_operation (contiguous q))
                                  (Z.lnot QUERY_OP_SELECT)) 0).
Qed.

(** [createInstance] of the hysteresis filter has no failure exit. *)
Lemma ccr_createInstance_never_fails options params :
  is_Some (instance (createInstance options params)).
Proof.
  unfold createInstance.
  destruct (fold_left _ _ _) as [[i1 lv1] log1].
  destruct (option_flags _ _ _ _) as [[cf log2] e].
  repeat case_match; simplify_eq; done.
Qed.

End CcrProperties.

(** C9 on the demo host: count 2, an insert followed by two selects. *)
Lemma ccr_hints_left_never_negative_witness :
  Ccr.hints_left (Ccr.newSession Demo.ccr_instance) = 0 /\
  (exists i' s' out,
     Ccr.run (H := Demo.host) Demo.ccr_instance
       (Ccr.newSession Demo.ccr_instance)
       (take 3 [(Demo.packet "INSERT INTO t VALUES (1)", 100);
                (Demo.packet "SELECT a FROM t", 101);
                (Demo.packet "SELECT b FROM t", 102)]) = Some (i', s', out) /\
     0 <= Ccr.hints_left s') /\
  (forall s q now i' s' q',
     Ccr.routeQuery (H := Demo.host) Demo.ccr_instance s q now
       = Some (i', s', q') ->
     Ccr.hints_left s' = Ccr.hints_left s \/
     Ccr.hints_left s' = Ccr.count Demo.ccr_instance \/
     (0 < Ccr.hints_left s /\ Ccr.hints_left s' = Ccr.hints_left s - 1)).
Proof.
  apply (ccr_hints_left_never_negative (H := Demo.host) Demo.ccr_instance);
    [reflexivity | simpl; lia].
Defined.

(** C5 on the demo host: an insert at 100, selects at 101, 102 and 130. *)
Lemma ccr_two_by_count_third_by_time_witness :
  exists i1 i2 i3 i4 s1 s2 s3,
    Ccr.routeQuery (H := Demo.host) Demo.ccr_instance
      (Ccr.newSession Demo.ccr_instance)
      (Demo.packet "INSERT INTO t VALUES (1)") 100
      = Some (i1, s1, contiguous (Demo.packet "INSERT INTO t VALUES (1)")) /\
    Ccr.hints_left s1 = 2 /\ Ccr.last_modification s1 = 100 /\
    Ccr.routeQuery (H := Demo.host) i1 s1 (Demo.packet "SELECT a FROM t") 101
      = Some (i2, s2,
              Ccr.add_master_hint (contiguous (Demo.packet "SELECT a FROM t")))
    /\ Ccr.hints_left s2 = 1 /\
    Ccr.routeQuery (H := Demo.host) i2 s2 (Demo.packet "SELECT b FROM t") 102
      = Some (i3, s3,
              Ccr.add_master_hint (contiguous (Demo.packet "SELECT b FROM t")))
    /\ Ccr.hints_left s3 = 0 /\
    Ccr.routeQuery (H := Demo.host) i3 s3 (Demo.packet "SELECT c FROM t") 130
      = Some (i4, s3,
              Ccr.add_master_hint (contiguous (Demo.packet "SELECT c FROM t")))
    /\ Ccr.n_add_count (Ccr.stats i4) = Ccr.n_add_count (Ccr.stats i3) /\
    Ccr.n_add_time (Ccr.stats i4) = wrap32 (Ccr.n_add_time (Ccr.stats i3) + 1)
    /\
    Forall
      (fun r =>
         gwbuf_content (Ccr.add_master_hint (contiguous r))
           = gwbuf_content r /\
         hint (Ccr.add_master_hint (contiguous r)) =
           {| hint_type := HINT_ROUTE_TO_MASTER; hint_data := None |}
             :: hint r)
      [Demo.packet "SELECT a FROM t"; Demo.packet "SELECT b FROM t";
       Demo.packet "SELECT c FROM t"] /\
    gwbuf_content (contiguous (Demo.packet "INSERT INTO t VALUES (1)"))
      = gwbuf_content (Demo.packet "INSERT INTO t VALUES (1)") /\
    hint (contiguous (Demo.packet "INSERT INTO t VALUES (1)"))
      = hint (Demo.packet "INSERT INTO t VALUES (1)").
Proof.
  apply (ccr_two_by_count_third_by_time (H := Demo.host) Demo.ccr_instance);
    first [reflexivity | lia].
Defined.

(** C3.  A statement the classifier leaves undefined (operation 0, which
    is not [QUERY_OP_SELECT]) is not taken as a data modification: with
    count=2 the session keeps [hints_left = 0] and
    [last_modification = 0], where the data-modification rule gives 2 and
    the current time. *)
Example ccr_undefined_operation_not_modifying :
  let i := Demo.ccr_instance in
  let s := Ccr.newSession i in
  let q := Demo.packet "FLUSH TABLES" in
  modutil_is_SQL (Host := Demo.host) q = true /\
  qc_get_operation (Host := Demo.host) q = 0 /\
  qc_get_operation (Host := Demo.host) q
    <> QUERY_OP_SELECT (Host := Demo.host) /\
  Ccr.routeQuery (H := Demo.host) i s q 1000 = Some (i, s, q) /\
  Ccr.modification_rule (H := Demo.host) i s q 1000 =
    Some (Ccr.bump_modified i,
          {| Ccr.hints_left := 2; Ccr.last_modification := 1000 |}, q).
Proof. repeat split; done. Qed.

(** C1.  The hysteresis filter's constructor with the option [extended]
    on the pattern [(], which does not compile in the extended syntax:
    the error is logged, but the instance is returned, with the text of
    the pattern and no compiled form, and the string and the instance
    block stay allocated.  On the unknown parameter [bogus] the error is
    logged and the instance is returned as well. *)
Example ccr_createInstance_keeps_bad_pattern :
  let b := Ccr.createInstance (H := Demo.host) (H0 := Demo.regex)
             ["extended"] [Demo.param "match" "("] in
  let b' := Ccr.createInstance (H := Demo.host) (H0 := Demo.regex) []
              [Demo.param "bogus" "1"] in
  regcomp (Regex := Demo.regex) "(" (Z.lor REG_ICASE REG_EXTENDED) = None /\
  (exists i, instance b = Some i /\ Ccr.match_ i = Some "(" /\
             Ccr.re i = None /\ Ccr.compiled i = false) /\
  errors b = ["ccrfilter: Failed to compile regex '('."] /\
  live b = [RStr "("; RInstance] /\
  (exists i', instance b' = Some i' /\ Ccr.match_ i' = None /\
              Ccr.nomatch i' = None /\ Ccr.count i' = 0 /\
              Ccr.time i' = 60) /\
  errors b' =
    ["ccrfilter: Unexpected parameter 'bogus'." +:+ String "010" ""] /\
  live b' = [RInstance].
Proof.
  split; [reflexivity|].
  split; [eexists; repeat split; reflexivity|].
  split; [reflexivity|]. split; [reflexivity|].
  split; [eexists; repeat split; reflexivity|].
  split; reflexivity.
Qed.

(** ** The query logger *)

(** *** Heap accounting *)

Lemma resource_eqb_eq a b : resource_eqb a b = true <-> a = b.
Proof.
  destruct a, b; simpl; try (split; [done | congruence]).
  - rewrite String.eqb_eq. split; congruence.
  - rewrite String.eqb_eq. split; congruence.
Qed.

Lemma release_head r l : release r (r :: l) = l.
Proof.
  simpl. by destruct (resource_eqb r r) eqn:E;
    [|rewrite (proj2 (resource_eqb_eq r r) eq_refl) in E].
Qed.

(** [release] takes one copy of the object out of the heap, wherever it
    is. *)
Lemma release_perm r l l' : l ≡ₚ l' -> release r l ≡ₚ release r l'.
Proof.
  induction 1 as [|x l l' Hl IH|x y l|l l' l'' _ IH1 _ IH2]; simpl.
  - done.
  - destruct (resource_eqb r x); [done | by constructor].
  - destruct (resource_eqb r y) eqn:Ey, (resource_eqb r x) eqn:Ex;
      try done.
    + apply resource_eqb_eq in Ey as <-, Ex as <-. done.
    + apply Permutation_swap.
  - by etrans.
Qed.

Lemma MXS_FREE_str_perm p l l' :
  l ≡ₚ l' -> MXS_FREE_str p l ≡ₚ MXS_FREE_str p l'.
Proof. destruct p; simpl; [apply release_perm | done]. Qed.

Lemma perm_insert (a : resource) l1 l2 : l1 ++ a :: l2 ≡ₚ a :: l1 ++ l2.
Proof. by rewrite Permutation_middle. Qed.

Lemma release_app_cons r l1 l2 : release r (l1 ++ r :: l2) ≡ₚ l1 ++ l2.
Proof.
  rewrite (release_perm _ _ _ (perm_insert r l1 l2)). by rewrite release_head.
Qed.

(** Closes [a :: l1 ++ .. ++ ln ≡ₚ l1 ++ .. ++ a :: .. ++ ln] for the
    string [v] a parameter has just duplicated. *)
Ltac heap_insert v :=
  rewrite ?app_assoc; rewrite (perm_insert (RStr v)); rewrite ?app_assoc;
  reflexivity.

Section QlaProperties.
Context `{Host} `{Regex}.
Import Qla.

(** C7.  In an active session (stream open, user and address known), a
    request whose SQL text is extracted, matches [match] (or there is
    none) and does not match [exclude] (or there is none) adds to the end
    of the session's file exactly the line
    [<stamp>,<user>@<remote>,<trim (squeeze_whitespace sql)>] ended by
    one line feed (character 10), leaves the other files alone, and
    passes downstream the request with the bytes and hints it came
    with. *)
Theorem qla_logs_one_line_and_forwards (i : QLA_INSTANCE) (s : QLA_SESSION)
    (q : GWBUF) (now : Z) (fs : gmap string string) (ptr stream u r : string) :
  active s <> 0 -> fp s = Some stream ->
  user s = Some u -> remote s = Some r ->
  modutil_get_SQL (contiguous q) = Some ptr ->
  (match_ i = None \/ exists c, re i = Some c /\ regexec c ptr = true) ->
  (nomatch i = None \/ exists c, nore i = Some c /\ regexec c ptr = false) ->
  exists fs',
    routeQuery i s q now fs = Some (fs', contiguous q) /\
    fs' !! stream =
      Some (default "" (fs !! stream) +:+
            strftime_FT now +:+ "," +:+ u +:+ "@" +:+ r +:+ "," +:+
            trim (squeeze_whitespace ptr) +:+ String "010" "") /\
    (forall f, f <> stream -> fs' !! f = fs !! f) /\
    gwbuf_content (contiguous q) = gwbuf_content q /\
    hint (contiguous q) = hint q.
Proof.
  intros Ha Hfp Hu Hr Hsql Hm Hn.
  eexists. split; [|split; [|split]].
  - unfold routeQuery.
    destruct (Z.eqb_spec (active s) 0) as [?|_]; [done|]. simpl.
    rewrite Hsql, Hfp, Hu, Hr. unfold regexec_field.
    destruct Hm as [Hm|(c & Hm & Hc)], Hn as [Hn|(c' & Hn & Hc')].
    + by rewrite Hm, Hn.
    + rewrite Hm. simpl. destruct (nomatch i); [|done].
      rewrite Hn. simpl. by rewrite Hc'.
    + destruct (match_ i); simpl; rewrite ?Hm; simpl; rewrite ?Hc, Hn; done.
    + destruct (match_ i); simpl; rewrite ?Hm; simpl; rewrite ?Hc;
        (destruct (nomatch i); [|done]); rewrite Hn; simpl; by rewrite Hc'.
  - unfold fprintf, log_line. by rewrite lookup_insert_eq.
  - intros f Hf. unfold fprintf. by rewrite lookup_insert_ne.
  - destruct (contiguous_content q) as (? & ? & _). done.
Qed.

(** Whatever the logging does, what goes downstream is the request. *)
Lemma qla_routeQuery_forwards i s q now fs fs' q' :
  routeQuery i s q now fs = Some (fs', q') ->
  q' = (if active s =? 0 then q else contiguous q).
Proof.
  unfold routeQuery, regexec_field. intros Hr.
  destruct (active s =? 0); simpl in *; [by simplify_eq|].
  destruct (modutil_get_SQL (contiguous q)); [|by simplify_eq].
  destruct (match_ i), (re i), (nomatch i), (nore i), (fp s), (user s),
    (remote s); simpl in *;
    repeat (case_match; simpl in *; simplify_eq); congruence.
Qed.

Lemma qla_inactive_routeQuery i s q now fs :
  active s = 0 -> routeQuery i s q now fs = Some (fs, q).
Proof. unfold routeQuery. by intros ->. Qed.

(** The name of a new session's file is made from the counter as it was
    before the increment. *)
Lemma qla_newSession_file_index i remote_ user_ can_open fs i' s fs' :
  newSession i remote_ user_ can_open fs = Some (i', Some s, fs') ->
  exists base, filebase i = Some base /\
    filename s = file_name base (sessions i) /\
    sessions i' = wrap32 (sessions i + 1).
Proof.
  unfold newSession. intros Hn.
  destruct (filebase i) as [base|]; [|done]. simpl in Hn.
  exists base. repeat case_match; simplify_eq; done.
Qed.

Lemma qla_inactive_newSession i remote_ user_ can_open fs i' s fs' :
  newSession i remote_ user_ can_open fs = Some (i', Some s, fs') ->
  active s = 0 -> fs' = fs /\ fp s = None.
Proof.
  unfold newSession. intros Hn Ha.
  destruct (filebase i) as [base|]; [|done]. simpl in Hn.
  repeat case_match; simplify_eq; simpl in *; done.
Qed.

Lemma qla_set_parameter_error st p :
  (set_parameter st p).2 = st.2 || negb (recognized p).
Proof.
  destruct st as [[[i lv] log] e]. unfold set_parameter, recognized.
  repeat (destruct (streq _ _); [simpl; by rewrite ?orb_false_r|]).
  simpl. destruct (filter_standard_parameter _); simpl;
    by rewrite ?orb_false_r, ?orb_true_r.
Qed.

Lemma qla_parameters_error params st :
  (fold_left set_parameter params st).2 =
    st.2 || negb (forallb recognized params).
Proof.
  revert st. induction params as [|p params IH]; intros st; simpl.
  - by rewrite orb_false_r.
  - rewrite IH, qla_set_parameter_error.
    destruct (st.2), (recognized p); done.
Qed.

Lemma qla_compile_match cflags st :
  (compile_match cflags st).2 = false ->
  st.2 = false /\
  filebase (compile_match cflags st).1.1.1 = filebase st.1.1.1 /\
  (forall m, match_ (compile_match cflags st).1.1.1 = Some m ->
             is_Some (re (compile_match cflags st).1.1.1)).
Proof.
  destruct st as [[[i lv] log] e]. unfold compile_match.
  destruct (match_ i) as [m|] eqn:Hm; simpl.
  - destruct (regcomp m cflags); simpl; [|done].
    intros ->. split; [done|]. split; [done|]. intros _ _. by eexists.
  - intros ->. split; [done|]. split; [done|]. intros m. by rewrite Hm.
Qed.

Lemma qla_compile_nomatch cflags st :
  (compile_nomatch cflags st).2 = false ->
  st.2 = false /\
  filebase (compile_nomatch cflags st).1.1.1 = filebase st.1.1.1 /\
  match_ (compile_nomatch cflags st).1.1.1 = match_ st.1.1.1 /\
  re (compile_nomatch cflags st).1.1.1 = re st.1.1.1 /\
  (forall m, nomatch (compile_nomatch cflags st).1.1.1 = Some m ->
             is_Some (nore (compile_nomatch cflags st).1.1.1)).
Proof.
  destruct st as [[[i lv] log] e]. unfold compile_nomatch.
  destruct (nomatch i) as [m|] eqn:Hm; simpl.
  - destruct (regcomp m cflags); simpl; [|done].
    intros ->. repeat (split; [done|]). intros _ _. by eexists.
  - intros ->. repeat (split; [done|]). intros m. by rewrite Hm.
Qed.

(** A logger instance is returned only when every parameter and option is
    known, [filebase] is there and both patterns compiled: any of the
    failures of the configuration gives [NULL]. *)
Lemma qla_createInstance_checked options params i :
  instance (createInstance options params) = Some i ->
  forallb recognized params = true /\
  forallb supported_option options = true /\
  is_Some (filebase i) /\ compiled i = true.
Proof.
  unfold createInstance.
  pose proof (qla_parameters_error params
    ({| sessions := 0; filebase := None; source := None; userName := None;
        match_ := None; re := None; nomatch := None; nore := None |},
     [RInstance], [], false)) as Hp.
  destruct (fold_left _ _ _) as [[[i1 lv1] log1] e1]. simpl in Hp.
  pose proof (option_flags_error "qlafilter: Unsupported option '" options
                true REG_ICASE) as Ho.
  destruct (option_flags _ _ _ _) as [[cf log2] e2]. simpl in Ho.
  set (checked := match filebase i1 with
                  | Some _ => ([], false)
                  | None => (["qlafilter: No 'filebase' parameter defined."],
                             true)
                  end).
  assert (checked.2 = false -> is_Some (filebase i1)) as Hbase.
  { unfold checked. destruct (filebase i1); [by eexists | done]. }
  destruct checked as [log3 e3]. simpl in Hbase.
  set (st := (set_sessions i1 0, lv1, log1 ++ log2 ++ log3, e1 || e2 || e3)).
  pose proof (qla_compile_nomatch cf (compile_match cf st)) as Hn.
  pose proof (qla_compile_match cf st) as Hm.
  destruct (compile_nomatch cf (compile_match cf st))
    as [[[i2 lv2] log4] error].
  destruct error; [done|]. cbn [fst snd] in Hn. intros [= <-].
  destruct (Hn eq_refl) as (He & Hfb & Hmatch & Hre & Hnore).
  destruct (Hm He) as (He' & Hfb' & Hmre).
  simpl in He'. apply orb_false_elim in He' as [[-> ->]%orb_false_elim ->].
  split; [by destruct (forallb recognized params)|].
  split; [by destruct (forallb supported_option options)|].
  split; [rewrite Hfb, Hfb'; by apply Hbase|].
  unfold compiled. rewrite Hmatch, Hre.
  apply andb_true_intro. split.
  - destruct (match_ (compile_match cf st).1.1.1) as [m|] eqn:E; [|done].
    by destruct (Hmre m eq_refl) as [c ->].
  - destruct (nomatch i2) as [m|] eqn:E; [|done].
    by destruct (Hnore m eq_refl) as [c ->].
Qed.

Lemma qla_cleanup_perm i l l' : l ≡ₚ l' -> cleanup i l ≡ₚ cleanup i l'.
Proof.
  intros Hl. unfold cleanup.
  apply release_perm. do 3 apply MXS_FREE_str_perm.
  destruct (nomatch i), (match_ i);
    repeat first [apply release_perm | apply MXS_FREE_str_perm]; done.
Qed.

Lemma qla_cleanup_owned i :
  (is_Some (match_ i) -> is_Some (re i)) ->
  (is_Some (nomatch i) -> is_Some (nore i)) ->
  cleanup i (owned i) = [].
Proof.
  intros Hm Hn. unfold cleanup, owned.
  destruct (match_ i) as [m|];
    [destruct Hm as [c ->]; [by eexists|] |];
    (destruct (nomatch i) as [n|];
     [destruct Hn as [c' ->]; [by eexists|] |]);
    destruct (filebase i), (source i), (userName i);
    cbn [strs regs app MXS_FREE_str]; by rewrite !release_head.
Qed.

Lemma qla_set_parameter_owned seen st p :
  name p ∉ seen -> unset seen st.1.1.1 -> st.1.1.2 ≡ₚ owned st.1.1.1 ->
  unset (name p :: seen) (set_parameter st p).1.1.1 /\
  (set_parameter st p).1.1.2 ≡ₚ owned (set_parameter st p).1.1.1.
Proof.
  destruct st as [[[i lv] log] e]. simpl.
  intros Hp (Hre & Hnore & Hm & Hn & Hs & Hu & Hf) Hlv.
  unfold set_parameter, streq.
  assert (forall f, f <> name p -> f ∉ seen -> f ∉ name p :: seen) as Hkeep.
  { intros f Hne Hf' [->|?]%elem_of_cons; done. }
  assert (forall f, f ∉ name p :: seen -> f ∉ seen) as Hweak.
  { intros f Hf' ?. apply Hf'. by right. }
  destruct (String.eqb_spec (name p) "match") as [E|E1].
  { rewrite E in Hp. specialize (Hm Hp). simpl. unfold unset, owned. simpl.
    rewrite Hlv. unfold owned. rewrite Hm, Hre. simpl.
    split; [|done]. repeat split; auto. intros Hx. exfalso. apply Hx.
    rewrite E. by left. }
  destruct (String.eqb_spec (name p) "exclude") as [E|E2].
  { rewrite E in Hp. specialize (Hn Hp). simpl. unfold unset, owned. simpl.
    rewrite Hlv. unfold owned. rewrite Hn, Hnore. simpl.
    split; [|by heap_insert (value p)].
    repeat split; auto. intros Hx. exfalso. apply Hx. rewrite E. by left. }
  destruct (String.eqb_spec (name p) "source") as [E|E3].
  { rewrite E in Hp. specialize (Hs Hp). simpl. unfold unset, owned. simpl.
    rewrite Hlv. unfold owned. rewrite Hs. simpl.
    split; [|by heap_insert (value p)].
    repeat split; auto. intros Hx. exfalso. apply Hx. rewrite E. by left. }
  destruct (String.eqb_spec (name p) "user") as [E|E4].
  { rewrite E in Hp. specialize (Hu Hp). simpl. unfold unset, owned. simpl.
    rewrite Hlv. unfold owned. rewrite Hu. simpl.
    split; [|by heap_insert (value p)].
    repeat split; auto. intros Hx. exfalso. apply Hx. rewrite E. by left. }
  destruct (String.eqb_spec (name p) "filebase") as [E|E5].
  { rewrite E in Hp. specialize (Hf Hp). simpl. unfold unset, owned. simpl.
    rewrite Hlv. unfold owned. rewrite Hf. simpl.
    split; [|by heap_insert (value p)].
    repeat split; auto. intros Hx. exfalso. apply Hx. rewrite E. by left. }
  destruct (negb _); simpl; (split; [|done]); repeat split; auto.
Qed.

Lemma qla_parameters_owned params seen st :
  NoDup (name <$> params) -> (forall p, p ∈ params -> name p ∉ seen) ->
  unset seen st.1.1.1 -> st.1.1.2 ≡ₚ owned st.1.1.1 ->
  re (fold_left set_parameter params st).1.1.1 = None /\
  nore (fold_left set_parameter params st).1.1.1 = None /\
  (fold_left set_parameter params st).1.1.2
    ≡ₚ owned (fold_left set_parameter params st).1.1.1.
Proof.
  revert seen st. induction params as [|p params IH];
    intros seen st Hnd Hseen Hunset Hlv; simpl.
  - destruct Hunset as (? & ? & _). done.
  - rewrite fmap_cons in Hnd. apply NoDup_cons in Hnd as [Hp Hnd].
    destruct (qla_set_parameter_owned seen st p) as [Hunset' Hlv'];
      [apply Hseen; by left | done | done |].
    apply (IH (name p :: seen)); try done.
    intros q Hq [E|Hq']%elem_of_cons.
    + apply Hp. rewrite <- E. by apply list_elem_of_fmap_2.
    + eapply Hseen; [by right | done].
Qed.

Lemma qla_compile_match_owned cflags st :
  re st.1.1.1 = None -> st.1.1.2 ≡ₚ owned st.1.1.1 ->
  (compile_match cflags st).1.1.2 ≡ₚ owned (compile_match cflags st).1.1.1 /\
  nore (compile_match cflags st).1.1.1 = nore st.1.1.1 /\
  (is_Some (match_ (compile_match cflags st).1.1.1) ->
   is_Some (re (compile_match cflags st).1.1.1)).
Proof.
  destruct st as [[[i lv] log] e]. simpl. intros Hre Hlv.
  unfold compile_match. destruct (match_ i) as [m|] eqn:Hm.
  - destruct (regcomp m cflags) as [c|]; simpl.
    + split; [|split; [done | by eexists]].
      rewrite Hlv. unfold owned. simpl. rewrite Hm, Hre. simpl.
      apply Permutation_swap.
    + split; [|split; [done | by intros [? ?]]].
      rewrite (release_perm _ _ _ Hlv). unfold owned. simpl.
      rewrite Hm, Hre. cbn [strs regs app]. by rewrite release_head.
  - simpl. split; [done|]. split; [done|]. rewrite Hm. by intros [? ?].
Qed.

Lemma qla_compile_nomatch_owned cflags st :
  nore st.1.1.1 = None -> st.1.1.2 ≡ₚ owned st.1.1.1 ->
  (compile_nomatch cflags st).1.1.2
    ≡ₚ owned (compile_nomatch cflags st).1.1.1 /\
  match_ (compile_nomatch cflags st).1.1.1 = match_ st.1.1.1 /\
  re (compile_nomatch cflags st).1.1.1 = re st.1.1.1 /\
  (is_Some (nomatch (compile_nomatch cflags st).1.1.1) ->
   is_Some (nore (compile_nomatch cflags st).1.1.1)).
Proof.
  destruct st as [[[i lv] log] e]. simpl. intros Hnore Hlv.
  unfold compile_nomatch. destruct (nomatch i) as [m|] eqn:Hm.
  - destruct (regcomp m cflags) as [c|]; simpl.
    + split; [|split; [done | split; [done | by eexists]]].
      rewrite Hlv. unfold owned. simpl. rewrite Hm, Hnore.
      cbn [strs regs app].
      rewrite !(app_assoc (strs (match_ i))).
      rewrite (perm_insert (RStr m)),
        (perm_insert (RStr m) _ (RRegex m :: _)),
        (perm_insert (RRegex m)).
      apply Permutation_swap.
    + split; [|split; [done | split; [done | by intros [? ?]]]].
      rewrite (release_perm _ _ _ Hlv). unfold owned. simpl.
      rewrite Hm, Hnore. cbn [strs regs app].
      rewrite !(app_assoc (strs (match_ i))).
      rewrite (release_perm _ _ _ (perm_insert (RStr m) _ _)).
      by rewrite release_head.
  - simpl. split; [done|]. split; [done|]. split; [done|].
    rewrite Hm. by intros [? ?].
Qed.

(** When the logger's constructor fails on parameters that are each given
    once, every string it duplicated, every pattern it compiled and the
    instance block have been released. *)
Lemma qla_createInstance_releases options params :
  NoDup (name <$> params) ->
  instance (createInstance options params) = None ->
  live (createInstance options params) = [].
Proof.
  intros Hnd. unfold createInstance.
  set (st0 := ({| sessions := 0; filebase := None; source := None;
                  userName := None; match_ := None; re := None;
                  nomatch := None; nore := None |},
               [RInstance], @nil string, false)).
  destruct (qla_parameters_owned params [] st0) as (Hre & Hnore & Hlv);
    [done | intros ? _; apply not_elem_of_nil | by repeat split | done |].
  destruct (fold_left set_parameter params st0) as [[[i1 lv1] log1] e1].
  simpl in Hre, Hnore, Hlv.
  destruct (option_flags _ _ _ _) as [[cf log2] e2].
  destruct (match filebase i1 with Some _ => _ | None => _ end)
    as [log3 e3].
  set (st := (set_sessions i1 0, lv1, log1 ++ log2 ++ log3, e1 || e2 || e3)).
  destruct (qla_compile_match_owned cf st) as (Hlv2 & Hnore2 & Hm2);
    [done | done |].
  destruct (qla_compile_nomatch_owned cf (compile_match cf st))
    as (Hlv3 & Hmatch3 & Hre3 & Hn3); [by rewrite Hnore2 | done |].
  destruct (compile_nomatch cf (compile_match cf st))
    as [[[i2 lv2] log4] error].
  cbn [fst snd] in *. destruct error; [|done]. intros _. simpl.
  apply Permutation_nil_r.
  rewrite (qla_cleanup_perm _ _ _ Hlv3).
  rewrite qla_cleanup_owned; [done | by rewrite Hmatch3, Hre3 | done].
Qed.

End QlaProperties.

(** C7 on the demo host. *)
Lemma qla_logs_one_line_and_forwards_witness :
  exists fs',
    Qla.routeQuery (H := Demo.host) Demo.qla_instance Demo.qla_session
      (Demo.packet "SELECT a  FROM t") 0 ∅
      = Some (fs', contiguous (Demo.packet "SELECT a  FROM t")) /\
    fs' !! "/tmp/qla.0" =
      Some (default "" ((∅ : gmap string string) !! "/tmp/qla.0") +:+
            strftime_FT (Host := Demo.host) 0 +:+ "," +:+ "alice" +:+ "@" +:+
            "10.0.0.1" +:+ "," +:+
            trim (Host := Demo.host)
              (squeeze_whitespace (Host := Demo.host) "SELECT a  FROM t") +:+
            String "010" "") /\
    (forall f, f <> "/tmp/qla.0" ->
               fs' !! f = (∅ : gmap string string) !! f) /\
    gwbuf_content (contiguous (Demo.packet "SELECT a  FROM t")) =
      gwbuf_content (Demo.packet "SELECT a  FROM t") /\
    hint (contiguous (Demo.packet "SELECT a  FROM t")) =
      hint (Demo.packet "SELECT a  FROM t").
Proof.
  apply (qla_logs_one_line_and_forwards (H := Demo.host) (H0 := Demo.regex)
           Demo.qla_instance Demo.qla_session
           (Demo.packet "SELECT a  FROM t") 0 ∅ "SELECT a  FROM t").
  - simpl. lia.
  - reflexivity.
  - reflexivity.
  - reflexivity.
  - reflexivity.
  - right. eexists. split; reflexivity.
  - right. eexists. split; reflexivity.
Defined.

(** ** The top-N tracker *)

Section TopnProperties.
Context `{Host} `{Regex}.
Import Topn.

Lemma wrap64_small (z : Z) : - 2 ^ 63 <= z < 2 ^ 63 -> wrap64 z = z.
Proof.
  intros Hz. unfold wrap64.
  rewrite Z.mod_small by lia. lia.
Qed.

Lemma dur_ge_trans a b c : dur_ge a b -> dur_ge b c -> dur_ge a c.
Proof. unfold dur_ge. lia. Qed.

Lemma no_shorter_trans a b c :
  no_shorter a b -> no_shorter b c -> no_shorter a c.
Proof. apply dur_ge_trans. Qed.

(** On differences of readings the [int] returned by [cmp_topn] has the
    sign of the comparison of the durations. *)
Lemma cmp_topn_sign a b :
  small (duration a) -> small (duration b) ->
  (cmp_topn a b <= 0 -> no_shorter a b) /\
  (0 < cmp_topn a b -> no_shorter b a).
Proof.
  unfold small, cmp_topn, no_shorter, dur_ge.
  intros [Ha Ha'] [Hb Hb'].
  assert (2 ^ 30 = 1073741824) as E30 by done.
  destruct (Z.eqb_spec (tv_sec (duration b)) (tv_sec (duration a))) as [E|E].
  - rewrite wrap64_small, wrap32_small by lia. lia.
  - rewrite wrap64_small, wrap32_small by lia. lia.
Qed.

Lemma sorted_insert_perm cmp x l : sorted_insert cmp x l ≡ₚ x :: l.
Proof.
  induction l as [|y l IH]; simpl; [done|].
  destruct (cmp x y <=? 0); [done|].
  rewrite IH. apply Permutation_swap.
Qed.

Lemma qsort_perm cmp l : qsort cmp l ≡ₚ l.
Proof.
  induction l as [|x l IH]; simpl; [done|].
  fold (qsort cmp l). by rewrite sorted_insert_perm, IH.
Qed.

Lemma sorted_insert_sorted x l :
  small (duration x) -> Forall (fun e => small (duration e)) l ->
  StronglySorted no_shorter l ->
  StronglySorted no_shorter (sorted_insert cmp_topn x l).
Proof.
  intros Hx Hl Hs. induction l as [|y l IH]; simpl.
  - repeat constructor.
  - apply Forall_cons in Hl as [Hy Hl].
    apply StronglySorted_inv in Hs as [Hs Hall].
    destruct (cmp_topn_sign x y Hx Hy) as [Hle Hgt].
    destruct (Z.leb_spec (cmp_topn x y) 0) as [Hc|Hc].
    + constructor; [by constructor|].
      constructor; [by apply Hle|].
      eapply Forall_impl; [exact Hall|].
      intros z Hz. eapply no_shorter_trans; [by apply Hle | done].
    + constructor; [by apply IH|].
      rewrite sorted_insert_perm. constructor; [by apply Hgt | done].
Qed.

Lemma qsort_sorted l :
  Forall (fun e => small (duration e)) l ->
  StronglySorted no_shorter (qsort cmp_topn l).
Proof.
  induction l as [|x l IH]; intros Hl; simpl; [constructor|].
  apply Forall_cons in Hl as [Hx Hl]. fold (qsort cmp_topn l).
  apply sorted_insert_sorted; [done | | by apply IH].
  by rewrite qsort_perm.
Qed.

Lemma timersub_small base a b :
  0 <= base < 2 ^ 62 -> in_window base a -> in_window base b ->
  small (timersub a b).
Proof.
  unfold in_window, small, timersub. intros Hb [Ha Ha'] [Hb1 Hb1'].
  assert (2 ^ 30 = 1073741824) as E30 by done.
  assert (2 ^ 62 = 4611686018427387904) as E62 by done.
  rewrite (wrap64_small (tv_sec a - tv_sec b)) by lia.
  rewrite (wrap64_small (tv_usec a - tv_usec b)) by lia.
  destruct (Z.ltb_spec (tv_usec a - tv_usec b) 0); simpl.
  - rewrite !wrap64_small by lia. lia.
  - lia.
Qed.

Lemma Forall_occupied (P : TOPNQ -> Prop) l :
  Forall P l -> Forall P (occupied l).
Proof.
  unfold occupied. induction 1 as [|x l Hx Hl IH]; [constructor|].
  rewrite filter_cons. destruct (decide (is_Some (sql x))); [|done].
  by constructor.
Qed.

Lemma StronglySorted_occupied l :
  StronglySorted no_shorter l -> StronglySorted no_shorter (occupied l).
Proof.
  unfold occupied. induction 1 as [|x l Hs IH Hall]; [constructor|].
  rewrite filter_cons. destruct (decide (is_Some (sql x))); [|done].
  constructor; [done|]. by apply Forall_occupied.
Qed.

Lemma StronglySorted_replicate n (x : TOPNQ) :
  no_shorter x x -> StronglySorted no_shorter (replicate n x).
Proof.
  intros Hx. induction n as [|n IH]; simpl; constructor; [done|].
  by apply Forall_replicate.
Qed.

Lemma ranked_qsort i base s total_ l :
  length l = Z.to_nat (topN i) -> Forall (fun e => small (duration e)) l ->
  ranked i base (set_ranking s total_ (qsort cmp_topn l)).
Proof.
  intros Hlen Hl. unfold ranked. simpl.
  split; [by rewrite qsort_perm|].
  split; [by rewrite qsort_perm|].
  split; [by apply qsort_sorted|].
  by intros [? ?].
Qed.

Lemma topn_routeQuery_total i s q now :
  compiled i = true -> is_Some (routeQuery i s q now).
Proof.
  unfold compiled, routeQuery, regexec_field. intros Hc.
  apply andb_prop in Hc as [Hm Hn].
  destruct (negb (active s =? 0)); [|done].
  destruct (modutil_get_SQL (contiguous q)) as [ptr|]; [|done].
  destruct (match_ i), (re i), (exclude i), (exre i); simpl in *;
    try discriminate; repeat (case_match; simpl); done.
Qed.

(** A request either leaves the session as it is or records the pending
    statement with the current time; the ranking is not touched. *)
Lemma topn_routeQuery_cases i s q now s' q' :
  routeQuery i s q now = Some (s', q') ->
  q' = (if active s =? 0 then q else contiguous q) /\
  (s' = s \/
   active s <> 0 /\
   exists ptr, modutil_get_SQL (contiguous q) = Some ptr /\
               s' = record_pending s ptr now).
Proof.
  unfold routeQuery, regexec_field. intros Hr.
  destruct (Z.eqb_spec (active s) 0) as [Ha|Ha]; simpl in *;
    [by simplify_eq; auto|].
  destruct (modutil_get_SQL (contiguous q)) as [ptr|]; [|by simplify_eq; auto].
  destruct (match_ i), (re i), (exclude i), (exre i); simpl in *;
    repeat (case_match; simpl in *; simplify_eq);
    (split; [congruence|]); first [by left; congruence | right];
    (split; [done|]); exists ptr; split; congruence.
Qed.

Lemma topn_routeQuery_ranked i base s q now s' q' :
  in_window base now -> ranked i base s ->
  routeQuery i s q now = Some (s', q') -> ranked i base s'.
Proof.
  intros Hnow Hs Hr.
  apply topn_routeQuery_cases in Hr as (_ & [->|(_ & ptr & _ & ->)]); [done|].
  destruct Hs as (Hlen & Hsm & Hso & _). unfold ranked. simpl.
  split; [done|]. split; [done|]. split; [done|]. by intros _.
Qed.

Lemma first_free_lt l k : first_free l = Some k -> (k < length l)%nat.
Proof.
  revert k. induction l as [|e l IH]; intros k Hk; simpl in *; [done|].
  destruct (sql e).
  - destruct (first_free l) as [j|]; simplify_eq/=.
    specialize (IH j eq_refl). lia.
  - simplify_eq. lia.
Qed.

(** A full ranking has no free slot, and conversely. *)
Lemma first_free_None l :
  first_free l = None <-> Forall (fun e => is_Some (sql e)) l.
Proof.
  induction l as [|e l IH]; simpl; [done|].
  rewrite Forall_cons. destruct (sql e) as [t|]; simpl.
  - destruct (first_free l); simpl.
    + split; [done|]. intros [_ Hl]. by apply IH in Hl.
    + split; [|done]. intros _. split; [by eexists | by apply IH].
  - split; [done|]. by intros [[? ?] _].
Qed.

Lemma topn_clientReply_ranked i base s reply now :
  1 <= topN i -> 0 <= base < 2 ^ 62 ->
  in_window base now -> ranked i base s ->
  exists s', clientReply i s reply now = Some (s', reply) /\ ranked i base s'.
Proof.
  intros HN Hbase Hnow Hs. unfold clientReply.
  destruct (current s) as [cur|] eqn:Hcur; [|by exists s].
  destruct Hs as (Hlen & Hsm & Hso & Hst).
  assert (small (timersub now (start s))) as Hd.
  { eapply timersub_small; [done | done |]. apply Hst. by rewrite Hcur. }
  destruct (first_free (top s)) as [k|] eqn:Hfree.
  - eexists. split; [done|].
    apply ranked_qsort; [by rewrite length_insert|].
    by apply Forall_insert.
  - destruct (Z.ltb_spec (topN i - 1) 0) as [?|_]; [lia|].
    destruct (lookup_lt_is_Some_2 (top s) (Z.to_nat (topN i - 1)))
      as [last Hlast]; [lia|].
    rewrite Hlast. simpl. destruct (longer _ last).
    + eexists. split; [done|].
      apply ranked_qsort; [by rewrite length_insert|].
      by apply Forall_insert.
    + eexists. split; [done|]. unfold ranked. simpl.
      split; [done|]. split; [done|]. split; [done|]. by intros [? ?].
Qed.

Lemma topn_run_ranked i base s events :
  1 <= topN i -> compiled i = true -> 0 <= base < 2 ^ 62 ->
  Forall (fun e => in_window base (clock e)) events ->
  ranked i base s ->
  exists s' outs, run i s events = Some (s', outs) /\ ranked i base s'.
Proof.
  intros HN Hc Hbase Hev. revert s.
  induction Hev as [|e events He Hev IH]; intros s Hs.
  - by exists s, [].
  - assert (exists s1 out, step i s e = Some (s1, out) /\ ranked i base s1)
      as (s1 & out & Hstep & Hs1).
    { destruct e as [q t|r t]; simpl in *.
      - destruct (topn_routeQuery_total i s q t Hc) as [[s1 q1] Hr].
        exists s1, q1. split; [done|]. by eapply topn_routeQuery_ranked.
      - destruct (topn_clientReply_ranked i base s r t) as (s1 & Hr & Hs1);
          try done.
        by exists s1, r. }
    destruct (IH s1 Hs1) as (s' & outs & Hrun & Hs').
    exists s', (out :: outs). simpl. rewrite Hstep. simpl. rewrite Hrun.
    done.
Qed.

Lemma topn_newSession_ranked i remote user_ now i' s base :
  newSession i remote user_ now = Some (i', s) ->
  topN i' = topN i /\ compiled i' = compiled i /\ ranked i' base s /\
  current s = None /\ n_statements s = 0 /\ total s = zero_time.
Proof.
  unfold newSession. intros Hn.
  destruct (filebase i) as [b|]; [|done]. simpl in Hn.
  destruct (wrap32 (topN i + 1) <? 0); [done|].
  injection Hn as <- <-. simpl.
  assert (small zero_time) as Hz by (unfold small; simpl; lia).
  split; [done|]. split; [done|]. split; [|done].
  unfold ranked. simpl.
  split; [by rewrite length_replicate|].
  split; [by apply Forall_replicate|].
  split; [|by intros [? ?]].
  apply StronglySorted_replicate. unfold no_shorter, dur_ge. simpl. lia.
Qed.

(** C4.  For a tracker with [topN >= 1] and a session whose clock readings
    stay in one span of 2^30 seconds, after any sequence of requests and
    replies the session is defined, the ranking array still has its
    [topN] slots, so at most [topN] of them hold a statement, and the
    occupied entries are in descending order of duration.  As the
    sequence is arbitrary this holds between any two calls, in particular
    right after an insertion or a replacement by [clientReply]. *)
Theorem topn_ranking_bounded_and_sorted (i i' : TOPN_INSTANCE)
    (remote user_ : option string) (now : timeval) (s0 : TOPN_SESSION)
    (base : Z) (events : list event) :
  1 <= topN i -> compiled i = true -> 0 <= base < 2 ^ 62 ->
  newSession i remote user_ now = Some (i', s0) ->
  Forall (fun e => in_window base (clock e)) events ->
  exists s outs,
    run i' s0 events = Some (s, outs) /\
    length (top s) = Z.to_nat (topN i) /\
    (length (occupied (top s)) <= Z.to_nat (topN i))%nat /\
    StronglySorted no_shorter (occupied (top s)).
Proof.
  intros HN Hc Hbase Hnew Hev.
  destruct (topn_newSession_ranked _ _ _ _ _ _ base Hnew)
    as (HN' & Hc' & Hs0 & _).
  destruct (topn_run_ranked i' base s0 events) as (s & outs & Hrun & Hs);
    try done; [lia | congruence |].
  destruct Hs as (Hlen & _ & Hso & _).
  exists s, outs. split; [done|]. rewrite <- HN', <- Hlen.
  split; [done|]. split; [apply length_filter|].
  by apply StronglySorted_occupied.
Qed.

Lemma topn_set_parameter_error st p :
  (set_parameter st p).2 = st.2 || negb (recognized p).
Proof.
  destruct st as [[[i lv] log] e]. unfold set_parameter, recognized.
  repeat (destruct (streq _ _); [simpl; by rewrite ?orb_false_r|]).
  simpl. destruct (filter_standard_parameter _); simpl;
    by rewrite ?orb_false_r, ?orb_true_r.
Qed.

Lemma topn_parameters_error params st :
  (fold_left set_parameter params st).2 =
    st.2 || negb (forallb recognized params).
Proof.
  revert st. induction params as [|p params IH]; intros st; simpl.
  - by rewrite orb_false_r.
  - rewrite IH, topn_set_parameter_error.
    destruct (st.2), (recognized p); done.
Qed.

Lemma topn_compile_match cflags st :
  (compile_match cflags st).2 = false ->
  st.2 = false /\
  filebase (compile_match cflags st).1.1.1 = filebase st.1.1.1 /\
  (forall m, match_ (compile_match cflags st).1.1.1 = Some m ->
             is_Some (re (compile_match cflags st).1.1.1)).
Proof.
  destruct st as [[[i lv] log] e]. unfold compile_match.
  destruct (match_ i) as [m|] eqn:Hm; simpl.
  - destruct (regcomp m cflags); simpl; [|done].
    intros ->. split; [done|]. split; [done|]. intros _ _. by eexists.
  - intros ->. split; [done|]. split; [done|]. intros m. by rewrite Hm.
Qed.

Lemma topn_compile_exclude cflags st :
  (compile_exclude cflags st).2 = false ->
  st.2 = false /\
  filebase (compile_exclude cflags st).1.1.1 = filebase st.1.1.1 /\
  match_ (compile_exclude cflags st).1.1.1 = match_ st.1.1.1 /\
  re (compile_exclude cflags st).1.1.1 = re st.1.1.1 /\
  (forall m, exclude (compile_exclude cflags st).1.1.1 = Some m ->
             is_Some (exre (compile_exclude cflags st).1.1.1)).
Proof.
  destruct st as [[[i lv] log] e]. unfold compile_exclude.
  destruct (exclude i) as [m|] eqn:Hm; simpl.
  - destruct (regcomp m cflags); simpl; [|done].
    intros ->. repeat (split; [done|]). intros _ _. by eexists.
  - intros ->. repeat (split; [done|]). intros m. by rewrite Hm.
Qed.

(** A tracker instance is returned only when every parameter and option is
    known, [filebase] is there and both patterns compiled: any of the
    failures of the configuration gives [NULL]. *)
Lemma topn_createInstance_checked options params i :
  instance (createInstance options params) = Some i ->
  forallb recognized params = true /\
  forallb supported_option options = true /\
  is_Some (filebase i) /\ compiled i = true.
Proof.
  unfold createInstance.
  pose proof (topn_parameters_error params
    ({| sessions := 0; topN := 10; filebase := None; source := None;
        user := None; match_ := None; re := None; exclude := None;
        exre := None |},
     [RInstance], [], false)) as Hp.
  destruct (fold_left _ _ _) as [[[i1 lv1] log1] e1]. simpl in Hp.
  pose proof (option_flags_error "topfilter: Unsupported option '" options
                true REG_ICASE) as Ho.
  destruct (option_flags _ _ _ _) as [[cf log2] e2]. simpl in Ho.
  set (checked := match filebase i1 with
                  | Some _ => ([], false)
                  | None => (["topfilter: No 'filebase' parameter defined."],
                             true)
                  end).
  assert (checked.2 = false -> is_Some (filebase i1)) as Hbase.
  { unfold checked. destruct (filebase i1); [by eexists | done]. }
  destruct checked as [log3 e3]. simpl in Hbase.
  set (st := (set_sessions i1 0, lv1, log1 ++ log2 ++ log3, e1 || e2 || e3)).
  pose proof (topn_compile_exclude cf (compile_match cf st)) as Hn.
  pose proof (topn_compile_match cf st) as Hm.
  destruct (compile_exclude cf (compile_match cf st))
    as [[[i2 lv2] log4] error].
  destruct error; [done|]. cbn [fst snd] in Hn. intros [= <-].
  destruct (Hn eq_refl) as (He & Hfb & Hmatch & Hre & Hexre).
  destruct (Hm He) as (He' & Hfb' & Hmre).
  simpl in He'. apply orb_false_elim in He' as [[-> ->]%orb_false_elim ->].
  split; [by destruct (forallb recognized params)|].
  split; [by destruct (forallb supported_option options)|].
  split; [rewrite Hfb, Hfb'; by apply Hbase|].
  unfold compiled. rewrite Hmatch, Hre.
  apply andb_true_intro. split.
  - destruct (match_ (compile_match cf st).1.1.1) as [m|] eqn:E; [|done].
    by destruct (Hmre m eq_refl) as [c ->].
  - destruct (exclude i2) as [m|] eqn:E; [|done].
    by destruct (Hexre m eq_refl) as [c ->].
Qed.

Lemma topn_cleanup_perm i l l' : l ≡ₚ l' -> cleanup i l ≡ₚ cleanup i l'.
Proof.
  intros Hl. unfold cleanup.
  apply release_perm. do 3 apply MXS_FREE_str_perm.
  destruct (exclude i), (match_ i);
    repeat first [apply release_perm | apply MXS_FREE_str_perm]; done.
Qed.

Lemma topn_cleanup_owned i :
  (is_Some (match_ i) -> is_Some (re i)) ->
  (is_Some (exclude i) -> is_Some (exre i)) ->
  cleanup i (owned i) = [].
Proof.
  intros Hm Hn. unfold cleanup, owned.
  destruct (match_ i) as [m|];
    [destruct Hm as [c ->]; [by eexists|] |];
    (destruct (exclude i) as [n|];
     [destruct Hn as [c' ->]; [by eexists|] |]);
    destruct (filebase i), (source i), (user i);
    cbn [strs regs app MXS_FREE_str]; by rewrite !release_head.
Qed.

Lemma topn_set_parameter_owned seen st p :
  name p ∉ seen -> unset seen st.1.1.1 -> st.1.1.2 ≡ₚ owned st.1.1.1 ->
  unset (name p :: seen) (set_parameter st p).1.1.1 /\
  (set_parameter st p).1.1.2 ≡ₚ owned (set_parameter st p).1.1.1.
Proof.
  destruct st as [[[i lv] log] e]. simpl.
  intros Hp (Hre & Hexre & Hm & Hn & Hs & Hu & Hf) Hlv.
  unfold set_parameter, streq.
  assert (forall f, f <> name p -> f ∉ seen -> f ∉ name p :: seen) as Hkeep.
  { intros f Hne Hf' [->|?]%elem_of_cons; done. }
  assert (forall f, f ∉ name p :: seen -> f ∉ seen) as Hweak.
  { intros f Hf' ?. apply Hf'. by right. }
  destruct (String.eqb_spec (name p) "count") as [E|E0].
  { simpl. split; [|done]. repeat split; auto. }
  destruct (String.eqb_spec (name p) "filebase") as [E|E1].
  { rewrite E in Hp. specialize (Hf Hp). simpl. unfold unset, owned. simpl.
    rewrite Hlv. unfold owned. rewrite Hf. simpl.
    split; [|by heap_insert (value p)].
    repeat split; auto. intros Hx. exfalso. apply Hx. rewrite E. by left. }
  destruct (String.eqb_spec (name p) "match") as [E|E2].
  { rewrite E in Hp. specialize (Hm Hp). simpl. unfold unset, owned. simpl.
    rewrite Hlv. unfold owned. rewrite Hm, Hre. simpl.
    split; [|by heap_insert (value p)].
    repeat split; auto. intros Hx. exfalso. apply Hx. rewrite E. by left. }
  destruct (String.eqb_spec (name p) "exclude") as [E|E3].
  { rewrite E in Hp. specialize (Hn Hp). simpl. unfold unset, owned. simpl.
    rewrite Hlv. unfold owned. rewrite Hn, Hexre. simpl.
    split; [|done].
    repeat split; auto. intros Hx. exfalso. apply Hx. rewrite E. by left. }
  destruct (String.eqb_spec (name p) "source") as [E|E4].
  { rewrite E in Hp. specialize (Hs Hp). simpl. unfold unset, owned. simpl.
    rewrite Hlv. unfold owned. rewrite Hs. simpl.
    split; [|by heap_insert (value p)].
    repeat split; auto. intros Hx. exfalso. apply Hx. rewrite E. by left. }
  destruct (String.eqb_spec (name p) "user") as [E|E5].
  { rewrite E in Hp. specialize (Hu Hp). simpl. unfold unset, owned. simpl.
    rewrite Hlv. unfold owned. rewrite Hu. simpl.
    split; [|by heap_insert (value p)].
    repeat split; auto. intros Hx. exfalso. apply Hx. rewrite E. by left. }
  destruct (negb _); simpl; (split; [|done]); repeat split; auto.
Qed.

Lemma topn_parameters_owned params seen st :
  NoDup (name <$> params) -> (forall p, p ∈ params -> name p ∉ seen) ->
  unset seen st.1.1.1 -> st.1.1.2 ≡ₚ owned st.1.1.1 ->
  re (fold_left set_parameter params st).1.1.1 = None /\
  exre (fold_left set_parameter params st).1.1.1 = None /\
  (fold_left set_parameter params st).1.1.2
    ≡ₚ owned (fold_left set_parameter params st).1.1.1.
Proof.
  revert seen st. induction params as [|p params IH];
    intros seen st Hnd Hseen Hunset Hlv; simpl.
  - destruct Hunset as (? & ? & _). done.
  - rewrite fmap_cons in Hnd. apply NoDup_cons in Hnd as [Hp Hnd].
    destruct (topn_set_parameter_owned seen st p) as [Hunset' Hlv'];
      [apply Hseen; by left | done | done |].
    apply (IH (name p :: seen)); try done.
    intros q Hq [E|Hq']%elem_of_cons.
    + apply Hp. rewrite <- E. by apply list_elem_of_fmap_2.
    + eapply Hseen; [by right | done].
Qed.

Lemma release_strs_absent m (a b c d e : option string) :
  release (RRegex m)
    (strs a ++ strs b ++ strs c ++ strs d ++ strs e ++ [RInstance])
  = strs a ++ strs b ++ strs c ++ strs d ++ strs e ++ [RInstance].
Proof. by destruct a, b, c, d, e. Qed.

Lemma topn_compile_match_owned cflags st :
  re st.1.1.1 = None -> exre st.1.1.1 = None ->
  st.1.1.2 ≡ₚ owned st.1.1.1 ->
  (compile_match cflags st).1.1.2 ≡ₚ owned (compile_match cflags st).1.1.1 /\
  exre (compile_match cflags st).1.1.1 = None /\
  (is_Some (match_ (compile_match cflags st).1.1.1) ->
   is_Some (re (compile_match cflags st).1.1.1)) /\
  (is_Some (re (compile_match cflags st).1.1.1) ->
   exists m, match_ (compile_match cflags st).1.1.1 = Some m /\
             is_Some (regcomp m cflags)).
Proof.
  destruct st as [[[i lv] log] e]. simpl. intros Hre Hexre Hlv.
  unfold compile_match. destruct (match_ i) as [m|] eqn:Hm.
  - destruct (regcomp m cflags) as [c|] eqn:Hc; simpl.
    + split; [|split; [done | split; [by eexists|]]].
      * rewrite Hlv. unfold owned. simpl. rewrite Hm, Hre, Hexre.
        destruct (exclude i); cbn [strs regs app];
          [apply Permutation_swap | done].
      * intros _. exists m. by rewrite Hc.
    + split; [|split; [done | split; rewrite ?Hre; by intros [? ?]]].
      rewrite (release_perm _ _ _ (release_perm _ _ _ Hlv)).
      pose proof (release_strs_absent m
        (exclude i) (Some m) (filebase i) (source i) (user i)) as Habs.
      unfold owned. simpl. rewrite Hm, Hre, Hexre.
      revert Habs. destruct (exclude i) as [n|]; cbn [strs regs app];
        intros Habs; rewrite Habs.
      * apply (release_app_cons (RStr m) [RStr n]).
      * by rewrite release_head.
  - simpl. split; [done|]. split; [done|]. rewrite Hm, Hre.
    split; by intros [? ?].
Qed.

Lemma topn_compile_exclude_owned cflags st :
  exre st.1.1.1 = None -> st.1.1.2 ≡ₚ owned st.1.1.1 ->
  (is_Some (re st.1.1.1) ->
   exists m, match_ st.1.1.1 = Some m /\ is_Some (regcomp m cflags)) ->
  (compile_exclude cflags st).1.1.2
    ≡ₚ owned (compile_exclude cflags st).1.1.1 /\
  match_ (compile_exclude cflags st).1.1.1 = match_ st.1.1.1 /\
  re (compile_exclude cflags st).1.1.1 = re st.1.1.1 /\
  (is_Some (exclude (compile_exclude cflags st).1.1.1) ->
   is_Some (exre (compile_exclude cflags st).1.1.1)).
Proof.
  destruct st as [[[i lv] log] e]. simpl. intros Hexre Hlv Hcomp.
  unfold compile_exclude. destruct (exclude i) as [m|] eqn:Hm.
  - destruct (regcomp m cflags) as [c|] eqn:Hc; simpl.
    + split; [|split; [done | split; [done | by eexists]]].
      rewrite Hlv. unfold owned. simpl. by rewrite Hm, Hexre.
    + split; [|split; [done | split; [done | by intros [? ?]]]].
      rewrite (release_perm _ _ _ (release_perm _ _ _ Hlv)).
      unfold owned. simpl. rewrite Hm, Hexre. cbn [strs regs app].
      assert (release (RRegex m)
                (RStr m :: regs (match_ i) (re i) ++ strs (match_ i) ++
                 strs (filebase i) ++ strs (source i) ++ strs (user i) ++
                 [RInstance])
              = RStr m :: regs (match_ i) (re i) ++ strs (match_ i) ++
                 strs (filebase i) ++ strs (source i) ++ strs (user i) ++
                 [RInstance]) as ->.
      { pose proof (release_strs_absent m
          None (match_ i) (filebase i) (source i) (user i)) as Habs.
        cbn [strs app] in Habs.
        change (release (RRegex m) (RStr m :: ?l))
          with (RStr m :: release (RRegex m) l). f_equal.
        destruct (match_ i) as [m'|] eqn:Hm', (re i) as [c'|] eqn:Hre;
          cbn [regs app]; try done.
        destruct Hcomp as (m'' & [= <-] & Hok); [by eexists|].
        cbn [strs app] in *.
        change (release (RRegex m) (RRegex m' :: ?l))
          with (if String.eqb m m' then l
                else RRegex m' :: release (RRegex m) l).
        destruct (String.eqb_spec m m') as [->|_].
        - rewrite Hc in Hok. by destruct Hok.
        - by rewrite Habs. }
      by rewrite release_head.
  - simpl. split; [done|]. split; [done|]. split; [done|].
    rewrite Hm. by intros [? ?].
Qed.

(** When the tracker's constructor fails on parameters that are each given
    once, every string it duplicated, every pattern it compiled and the
    instance block have been released. *)
Lemma topn_createInstance_releases options params :
  NoDup (name <$> params) ->
  instance (createInstance options params) = None ->
  live (createInstance options params) = [].
Proof.
  intros Hnd. unfold createInstance.
  set (st0 := ({| sessions := 0; topN := 10; filebase := None;
                  source := None; user := None; match_ := None;
                  re := None; exclude := None; exre := None |},
               [RInstance], @nil string, false)).
  destruct (topn_parameters_owned params [] st0) as (Hre & Hexre & Hlv);
    [done | intros ? _; apply not_elem_of_nil | by repeat split | done |].
  destruct (fold_left set_parameter params st0) as [[[i1 lv1] log1] e1].
  simpl in Hre, Hexre, Hlv.
  destruct (option_flags _ _ _ _) as [[cf log2] e2].
  destruct (match filebase i1 with Some _ => _ | None => _ end)
    as [log3 e3].
  set (st := (set_sessions i1 0, lv1, log1 ++ log2 ++ log3, e1 || e2 || e3)).
  destruct (topn_compile_match_owned cf st)
    as (Hlv2 & Hexre2 & Hm2 & Hok2); [done | done | done |].
  destruct (topn_compile_exclude_owned cf (compile_match cf st))
    as (Hlv3 & Hmatch3 & Hre3 & Hn3); [done | done | done |].
  destruct (compile_exclude cf (compile_match cf st))
    as [[[i2 lv2] log4] error].
  cbn [fst snd] in *. destruct error; [|done]. intros _. simpl.
  apply Permutation_nil_r.
  rewrite (topn_cleanup_perm _ _ _ Hlv3).
  rewrite topn_cleanup_owned; [done | by rewrite Hmatch3, Hre3 | done].
Qed.

(** C6.  When every slot of the ranking holds a statement and the
    measured duration is not longer than any kept duration (so not longer
    than the smallest one), [clientReply] leaves the ranking as it is,
    drops the pending text and passes the reply upstream. *)
Theorem topn_short_reply_keeps_ranking (i : TOPN_INSTANCE) (s : TOPN_SESSION)
    (reply : GWBUF) (now : timeval) (cur : string) :
  1 <= topN i -> length (top s) = Z.to_nat (topN i) ->
  Forall (fun e => is_Some (sql e)) (top s) ->
  current s = Some cur ->
  Forall (fun e => dur_ge (duration e) (timersub now (start s))) (top s) ->
  exists s',
    clientReply i s reply now = Some (s', reply) /\
    top s' = top s /\ current s' = None.
Proof.
  intros HN Hlen Hfull Hcur Hmin. unfold clientReply. rewrite Hcur.
  apply first_free_None in Hfull. rewrite Hfull.
  destruct (Z.ltb_spec (topN i - 1) 0) as [?|_]; [lia|].
  destruct (lookup_lt_is_Some_2 (top s) (Z.to_nat (topN i - 1)))
    as [last Hlast]; [lia|].
  rewrite Hlast. simpl.
  assert (longer (timersub now (start s)) last = false) as ->.
  { rewrite Forall_lookup in Hmin. specialize (Hmin _ _ Hlast).
    unfold longer, dur_ge in *.
    destruct (Z.ltb_spec (tv_sec (duration last))
                (tv_sec (timersub now (start s)))); [lia|].
    destruct (Z.eqb_spec (tv_sec (timersub now (start s)))
                (tv_sec (duration last))); [|done].
    destruct (Z.ltb_spec (tv_usec (duration last))
                (tv_usec (timersub now (start s)))); [lia|done]. }
  by eexists.
Qed.

Lemma topn_clientReply_cases i s reply now s' r' :
  clientReply i s reply now = Some (s', r') ->
  r' = reply /\
  (current s = None /\ s' = s \/
   is_Some (current s) /\ current s' = None /\
   n_statements s' = n_statements s /\ active s' = active s).
Proof.
  unfold clientReply. intros Hr.
  destruct (current s) as [cur|]; [|by simplify_eq; auto].
  repeat (case_match; simpl in *; simplify_option_eq);
    (split; [done|]); right; by repeat split.
Qed.

Lemma topn_step_idle i s e s' out :
  idle s -> n_statements s + 1 < 2 ^ 31 ->
  step i s e = Some (s', out) ->
  idle s' /\ n_statements s' <= n_statements s + 1.
Proof.
  intros [Hn Hz] Hb Hstep. destruct e as [q t|r t]; simpl in Hstep.
  - apply topn_routeQuery_cases in Hstep as (_ & [->|(_ & ptr & _ & ->)]).
    + split; [done | lia].
    + unfold idle. simpl. rewrite wrap32_small by lia.
      split; [|lia]. split; [lia|]. intros ?. lia.
  - apply topn_clientReply_cases in Hstep
      as (_ & [[_ ->]|([cur Hcur] & Hc' & Hn' & _)]).
    + split; [done | lia].
    + unfold idle. rewrite Hn'. split; [|lia]. split; [done|].
      intros Hn0. destruct (Hz Hn0) as [_ Hnone]. congruence.
Qed.

Lemma topn_run_idle i s events s' outs :
  idle s -> n_statements s + Z.of_nat (length events) < 2 ^ 31 ->
  run i s events = Some (s', outs) -> idle s'.
Proof.
  revert s outs. induction events as [|e events IH]; intros s outs Hs Hb Hrun.
  - simpl in Hrun. by simplify_eq.
  - simpl in Hrun, Hb.
    destruct (step i s e) as [[s1 out]|] eqn:Hstep; [|done]. simpl in Hrun.
    destruct (run i s1 events) as [[s2 outs']|] eqn:Hrest; [|done].
    simpl in Hrun. simplify_eq.
    assert (0 <= n_statements s) by apply Hs.
    destruct (topn_step_idle i s e s1 out Hs) as [Hs1 Hle]; [lia | done |].
    eapply IH; [exact Hs1 | lia | exact Hrest].
Qed.

(** C10, as amended.  A session that ends having recorded no statement,
    [n_statements = 0] (fewer than 2^31 events, so the counter has not
    wrapped), still gets its report when the file opens: the divisor of
    the average is [1000 * 1], the report says a total of 1 statement,
    and the average printed is 0 / 1000. *)
Theorem topn_report_of_idle_session (i i' : TOPN_INSTANCE)
    (remote user_ : option string) (t0 now : timeval)
    (s0 s : TOPN_SESSION) (events : list event) (outs : list GWBUF)
    (fs : gmap string (list report_line)) :
  newSession i remote user_ t0 = Some (i', s0) ->
  run i' s0 events = Some (s, outs) ->
  Z.of_nat (length events) < 2 ^ 31 ->
  n_statements s = 0 ->
  exists s' before connection,
    closeSession i' s now true fs =
      (s', <[filename s :=
               before ++ [TotalStatements 1; TotalTime 0 0;
                          AverageTime 0 1000; connection]]> fs).
Proof.
  intros Hnew Hrun Hlen Hn.
  destruct (topn_newSession_ranked _ _ _ _ _ _ 0 Hnew)
    as (_ & _ & _ & Hc0 & Hn0 & Ht0).
  assert (idle s) as [_ Hidle].
  { apply (topn_run_idle i' s0 events s outs); [|rewrite Hn0; lia | done].
    unfold idle. rewrite Hn0. split; [lia | done]. }
  destruct (Hidle Hn) as [Htot _].
  unfold closeSession.
  cbn [n_statements total connect disconnect clientHost userName top
       filename].
  rewrite Hn, Htot.
  change (millis zero_time) with 0.
  change (wrap32 (tv_sec zero_time)) with 0.
  change (wrap32 (tv_usec zero_time) `quot` 1000) with 0.
  change (if negb (0 =? 0) then 0 else 1) with 1.
  change (wrap32 (1000 * 1)) with 1000.
  eexists _, _, _. rewrite !app_assoc. reflexivity.
Qed.

(** The tracker names the file after the counter has moved. *)
Lemma topn_newSession_file_index i remote user_ now i' s :
  newSession i remote user_ now = Some (i', s) ->
  exists base, filebase i = Some base /\
    filename s = file_name base (wrap32 (sessions i + 1)) /\
    sessions i' = wrap32 (sessions i + 1).
Proof.
  unfold newSession. intros Hn.
  destruct (filebase i) as [base|]; [|done]. simpl in Hn.
  destruct (wrap32 (topN i + 1) <? 0); [done|].
  injection Hn as <- <-. by exists base.
Qed.

(** An inactive session that has nothing pending stays as it is and passes
    every message on, in order. *)
Lemma topn_inactive_run i s events :
  active s = 0 -> current s = None ->
  run i s events = Some (s, message <$> events).
Proof.
  intros Ha Hc. induction events as [|e events IH]; [done|].
  simpl. destruct e as [q t|r t]; simpl.
  - unfold routeQuery. rewrite Ha. simpl. by rewrite IH.
  - unfold clientReply. rewrite Hc. simpl. by rewrite IH.
Qed.

End TopnProperties.

(** C4 on the demo host: two slots and four statements that take 3, 9, 5
    and 1 seconds.  The first two fill the ranking, the third replaces
    the shortest entry, the fourth is not kept: the ranking ends with
    both slots occupied, 9 seconds before 5. *)
Lemma topn_ranking_bounded_and_sorted_witness :
  exists s outs,
    Topn.run (H := Demo.host) Demo.topn_attached
      (Demo.topn_session "10.0.0.1" 1)
      (Demo.statements 101 [(3, 0); (9, 0); (5, 0); (1, 0)])
      = Some (s, outs) /\
    length (Topn.top s) = Z.to_nat (Topn.topN Demo.topn_instance) /\
    (length (Topn.occupied (Topn.top s))
       <= Z.to_nat (Topn.topN Demo.topn_instance))%nat /\
    StronglySorted Topn.no_shorter (Topn.occupied (Topn.top s)) /\
    Topn.occupied (Topn.top s) =
      [{| Topn.duration := Demo.at_time 9 0; Topn.sql := Some "SELECT 1" |};
       {| Topn.duration := Demo.at_time 5 0; Topn.sql := Some "SELECT 1" |}] /\
    Topn.n_statements s = 4.
Proof.
  destruct (topn_ranking_bounded_and_sorted (H := Demo.host)
              Demo.topn_instance Demo.topn_attached (Some "10.0.0.1")
              (Some "alice") (Demo.at_time 100 0)
              (Demo.topn_session "10.0.0.1" 1) 0
              (Demo.statements 101 [(3, 0); (9, 0); (5, 0); (1, 0)]))
    as (s & outs & Hrun & Hlen & Hocc & Hsorted).
  - simpl. lia.
  - reflexivity.
  - lia.
  - reflexivity.
  - repeat constructor; simpl; lia.
  - exists s, outs. split; [exact Hrun|]. split; [exact Hlen|].
    split; [exact Hocc|]. split; [exact Hsorted|].
    vm_compute in Hrun. injection Hrun as <- _. split; reflexivity.
Defined.

(** C6 on the demo host: a reply after 2 s against kept durations 5 s and
    3 s. *)
Lemma topn_short_reply_keeps_ranking_witness :
  exists s',
    Topn.clientReply Demo.topn_attached Demo.topn_full_session
      (Demo.packet "OK") (Demo.at_time 102 0) = Some (s', Demo.packet "OK") /\
    Topn.top s' = Topn.top Demo.topn_full_session /\
    Topn.current s' = None.
Proof.
  apply (topn_short_reply_keeps_ranking Demo.topn_attached
           Demo.topn_full_session (Demo.packet "OK") (Demo.at_time 102 0)
           "SELECT c FROM t").
  - simpl. lia.
  - reflexivity.
  - repeat constructor; by eexists.
  - reflexivity.
  - repeat constructor; unfold Topn.dur_ge; simpl; lia.
Defined.

(** C10 on the demo host: a session that only saw a reply. *)
Lemma topn_report_of_idle_session_witness :
  exists s' before connection,
    Topn.closeSession Demo.topn_attached (Demo.topn_session "10.0.0.1" 1)
      (Demo.at_time 200 0) true ∅ =
      (s', <[Topn.filename (Demo.topn_session "10.0.0.1" 1) :=
               before ++ [Topn.TotalStatements 1; Topn.TotalTime 0 0;
                          Topn.AverageTime 0 1000; connection]]> ∅).
Proof.
  apply (topn_report_of_idle_session (H := Demo.host) Demo.topn_instance
           Demo.topn_attached (Some "10.0.0.1") (Some "alice")
           (Demo.at_time 100 0) (Demo.at_time 200 0)
           (Demo.topn_session "10.0.0.1" 1) (Demo.topn_session "10.0.0.1" 1)
           [Topn.Reply (Demo.packet "OK") (Demo.at_time 150 0)]
           [Demo.packet "OK"]).
  - reflexivity.
  - reflexivity.
  - simpl. lia.
  - reflexivity.
Defined.

(** C10 as stated fails for a session whose statements were recorded and
    never answered: the counter moves when a request is recorded, not
    when its reply completes it, so with three requests and no reply no
    statement has completed, nothing is ranked and the total time is
    zero, yet the report says 3 statements and divides by 3000. *)
Lemma topn_unanswered_requests_are_counted :
  Topn.newSession Demo.topn_instance (Some "10.0.0.1") (Some "alice")
    (Demo.at_time 100 0)
    = Some (Demo.topn_attached, Demo.topn_session "10.0.0.1" 1) /\
  exists s,
    Topn.run (H := Demo.host) Demo.topn_attached
      (Demo.topn_session "10.0.0.1" 1)
      [Topn.Request (Demo.packet "SELECT a FROM t") (Demo.at_time 101 0);
       Topn.Request (Demo.packet "SELECT b FROM t") (Demo.at_time 102 0);
       Topn.Request (Demo.packet "SELECT c FROM t") (Demo.at_time 103 0)]
      = Some (s, [Demo.packet "SELECT a FROM t";
                  Demo.packet "SELECT b FROM t";
                  Demo.packet "SELECT c FROM t"]) /\
    Topn.occupied (Topn.top s) = [] /\
    Topn.total s = Topn.zero_time /\
    Topn.n_statements s = 3 /\
    (Topn.closeSession Demo.topn_attached s (Demo.at_time 200 0) true ∅).2
      !! "/tmp/top.1"
      = Some [Topn.Header 2; Topn.SessionStarted 100;
              Topn.ConnectionFrom "10.0.0.1"; Topn.Username "alice";
              Topn.TotalStatements 3; Topn.TotalTime 0 0;
              Topn.AverageTime 0 3000; Topn.ConnectionTime 100 0].
Proof.
  split; [reflexivity|].
  eexists. split; [reflexivity|].
  split; [reflexivity|]. split; [reflexivity|]. split; [reflexivity|].
  unfold Topn.closeSession. cbn [snd]. by rewrite lookup_insert_eq.
Qed.

(** C2.  The first session of a top-N instance with filebase [/tmp/top]
    gets the file [/tmp/top.1], not [/tmp/top.0]: the name is printed a
    second time after the counter has been incremented.  The first session
    of a logger instance gets [/tmp/qla.0]. *)
Example topn_first_session_file_is_1 :
  exists i1 s1 i2 s2 qi qs fs,
    Topn.newSession Demo.topn_instance (Some "10.0.0.1") (Some "alice")
      (Demo.at_time 100 0) = Some (i1, s1) /\
    Topn.filename s1 = "/tmp/top.1" /\
    Topn.newSession i1 (Some "10.0.0.1") (Some "alice")
      (Demo.at_time 100 0) = Some (i2, s2) /\
    Topn.filename s2 = "/tmp/top.2" /\
    Qla.newSession Demo.qla_instance (Some "10.0.0.1") (Some "alice") true ∅
      = Some (qi, Some qs, fs) /\
    Qla.filename qs = "/tmp/qla.0".
Proof. eexists _, _, _, _, _, _, _. repeat split; reflexivity. Qed.

(** ** Sessions that did not match the source or user filter *)

Section InactiveSessions.
Context `{Host} `{Regex}.

(** A logger session and a tracker session that [newSession] made
    inactive: the logger opened no file and has no stream, writes nothing
    on any request and has nothing to close; the tracker never records a
    pending statement nor changes its ranking, neither on requests and
    replies nor at close; and every request and reply is passed on as it
    came, in order. *)
Theorem inactive_session_only_forwards
    (qi qi' : Qla.QLA_INSTANCE) (qs : Qla.QLA_SESSION)
    (remote user_ : option string) (can_open : bool)
    (fs fs' : gmap string string)
    (ti ti' : Topn.TOPN_INSTANCE) (ts : Topn.TOPN_SESSION)
    (tremote tuser : option string) (t0 : Topn.timeval) :
  Qla.newSession qi remote user_ can_open fs = Some (qi', Some qs, fs') ->
  Qla.active qs = 0 ->
  Topn.newSession ti tremote tuser t0 = Some (ti', ts) ->
  Topn.active ts = 0 ->
  (fs' = fs /\ Qla.fp qs = None /\ Qla.closeSession qs = None /\
   forall q now fs1, Qla.routeQuery qi' qs q now fs1 = Some (fs1, q)) /\
  (forall events,
     Topn.run ti' ts events = Some (ts, Topn.message <$> events)) /\
  (forall now opens tfs,
     Topn.top (Topn.closeSession ti' ts now opens tfs).1 = Topn.top ts /\
     Topn.current (Topn.closeSession ti' ts now opens tfs).1 = None).
Proof.
  intros Hq Hqa Ht Hta.
  destruct (qla_inactive_newSession _ _ _ _ _ _ _ _ Hq Hqa) as [-> Hfp].
  destruct (topn_newSession_ranked _ _ _ _ _ _ 0 Ht)
    as (_ & _ & _ & Hcur & _).
  split; [|split].
  - split; [done|]. split; [done|].
    split; [unfold Qla.closeSession; by rewrite Hqa|].
    intros q now fs1. by apply qla_inactive_routeQuery.
  - intros events. by apply topn_inactive_run.
  - intros now opens tfs. unfold Topn.closeSession.
    destruct opens; simpl; by rewrite Hcur.
Qed.

End InactiveSessions.

(** On the demo host: a client at 10.0.0.9 against filters that want
    10.0.0.1. *)
Lemma inactive_session_only_forwards_witness :
  ((∅ : gmap string string) = ∅ /\
   Qla.fp {| Qla.filename := "/tmp/qla.0"; Qla.fp := None; Qla.active := 0;
             Qla.user := Some "alice"; Qla.remote := Some "10.0.0.9" |}
     = None /\
   Qla.closeSession
     {| Qla.filename := "/tmp/qla.0"; Qla.fp := None; Qla.active := 0;
        Qla.user := Some "alice"; Qla.remote := Some "10.0.0.9" |} = None /\
   forall q now fs1,
     Qla.routeQuery (H := Demo.host)
       (Qla.set_sessions Demo.qla_instance 1)
       {| Qla.filename := "/tmp/qla.0"; Qla.fp := None; Qla.active := 0;
          Qla.user := Some "alice"; Qla.remote := Some "10.0.0.9" |}
       q now fs1 = Some (fs1, q)) /\
  (forall events,
     Topn.run (H := Demo.host) Demo.topn_attached
       (Demo.topn_session "10.0.0.9" 0) events
     = Some (Demo.topn_session "10.0.0.9" 0, Topn.message <$> events)) /\
  (forall now opens tfs,
     Topn.top (Topn.closeSession Demo.topn_attached
                 (Demo.topn_session "10.0.0.9" 0) now opens tfs).1
       = Topn.top (Demo.topn_session "10.0.0.9" 0) /\
     Topn.current (Topn.closeSession Demo.topn_attached
                     (Demo.topn_session "10.0.0.9" 0) now opens tfs).1
       = None).
Proof.
  apply (inactive_session_only_forwards (H := Demo.host) (H0 := Demo.regex)
           Demo.qla_instance (Qla.set_sessions Demo.qla_instance 1) _
           (Some "10.0.0.9") (Some "alice") true ∅ ∅
           Demo.topn_instance Demo.topn_attached
           (Demo.topn_session "10.0.0.9" 0)
           (Some "10.0.0.9") (Some "alice") (Demo.at_time 100 0)).
  - reflexivity.
  - reflexivity.
  - reflexivity.
  - reflexivity.
Defined.

Section FilteredSessions.
Context `{Host} `{Regex}.

(** The logger makes the session of a client that its source or user
    filter turns away inactive: the session is returned, no file is
    opened for it, no request writes anything, and nothing is closed. *)
Lemma qla_filtered_session_does_nothing (qi qi' : Qla.QLA_INSTANCE)
    (remote user_ : option string) (can_open : bool)
    (fs fs' : gmap string string) (sess : option Qla.QLA_SESSION)
    (src r u v : string) :
  (Qla.source qi = Some src /\ remote = Some r /\ r <> src) \/
  (Qla.userName qi = Some u /\ user_ = Some v /\ v <> u) ->
  Qla.newSession qi remote user_ can_open fs = Some (qi', sess, fs') ->
  exists qs,
    sess = Some qs /\ Qla.active qs = 0 /\ Qla.fp qs = None /\ fs' = fs /\
    Qla.closeSession qs = None /\
    forall q now fs1, Qla.routeQuery qi' qs q now fs1 = Some (fs1, q).
Proof.
  intros Hf Hn. unfold Qla.newSession in Hn.
  destruct (Qla.filebase qi) as [base|]; [|done]. simpl in Hn.
  assert (match Qla.source qi, remote with
          | Some src, Some r => negb (streq r src)
          | _, _ => false
          end ||
          match Qla.userName qi, user_ with
          | Some u, Some v => negb (streq v u)
          | _, _ => false
          end = true) as Hb.
  { destruct Hf as [(-> & -> & Hne)|(-> & -> & Hne)].
    - unfold streq. by apply String.eqb_neq in Hne as ->.
    - unfold streq. apply String.eqb_neq in Hne as ->.
      by rewrite orb_true_r. }
  rewrite Hb in Hn. simpl in Hn. injection Hn as <- <- <-.
  eexists. split; [reflexivity|]. simpl. repeat (split; [done|]).
  intros q now fs1. by apply qla_inactive_routeQuery.
Qed.

Lemma topn_report_of_free_slots (n : nat) :
  omap (fun e => Topn.Entry (Topn.millis (Topn.duration e)) <$> Topn.sql e)
       (replicate n {| Topn.duration := Topn.zero_time; Topn.sql := None |})
    = [].
Proof. induction n as [|n IH]; [done|]. exact IH. Qed.

(** C8.  The tracker makes the session of a client that its source or
    user filter turns away inactive, and such a session records nothing
    and ranks nothing on requests and replies, which it passes on in
    order; but [closeSession], which does not look at [active], still
    creates the session's file and writes the whole end-of-session
    report into it. *)
Theorem topn_inactive_session_writes_report (i i' : Topn.TOPN_INSTANCE)
    (remote user_ : option string) (t0 : Topn.timeval)
    (s0 : Topn.TOPN_SESSION) (src r u v : string) :
  (Topn.source i = Some src /\ remote = Some r /\ r <> src) \/
  (Topn.user i = Some u /\ user_ = Some v /\ v <> u) ->
  Topn.newSession i remote user_ t0 = Some (i', s0) ->
  Topn.active s0 = 0 /\
  (forall events,
     Topn.run i' s0 events = Some (s0, Topn.message <$> events)) /\
  forall now fs,
    (Topn.closeSession i' s0 now true fs).2 =
      <[Topn.filename s0 :=
          [Topn.Header (Topn.topN i);
           Topn.SessionStarted (Topn.tv_sec t0)] ++
          match remote with
          | Some h => [Topn.ConnectionFrom h]
          | None => []
          end ++
          match user_ with Some n => [Topn.Username n] | None => [] end ++
          [Topn.TotalStatements 1; Topn.TotalTime 0 0;
           Topn.AverageTime 0 1000;
           Topn.ConnectionTime
             (wrap32 (Topn.tv_sec (Topn.timersub now t0)))
             (Z.quot (wrap32 (Topn.tv_usec (Topn.timersub now t0)))
                1000)]]> fs.
Proof.
  intros Hf Hn. unfold Topn.newSession in Hn.
  destruct (Topn.filebase i) as [base|]; [|done]. simpl in Hn.
  destruct (wrap32 (Topn.topN i + 1) <? 0); [done|].
  injection Hn as <- <-.
  assert (Topn.active
            {| Topn.active :=
                 match Topn.user i, user_ with
                 | Some u, Some v =>
                     if negb (streq v u) then 0
                     else match Topn.source i, remote with
                          | Some src, Some r =>
                              if negb (streq r src) then 0 else 1
                          | _, _ => 1
                          end
                 | _, _ =>
                     match Topn.source i, remote with
                     | Some src, Some r => if negb (streq r src) then 0 else 1
                     | _, _ => 1
                     end
                 end;
               Topn.clientHost := remote; Topn.userName := user_;
               Topn.filename :=
                 Topn.file_name base (wrap32 (Topn.sessions i + 1));
               Topn.start := Topn.zero_time; Topn.current := None;
               Topn.top :=
                 replicate (Z.to_nat (Topn.topN i))
                   {| Topn.duration := Topn.zero_time; Topn.sql := None |};
               Topn.n_statements := 0; Topn.total := Topn.zero_time;
               Topn.connect := t0; Topn.disconnect := Topn.zero_time |}
          = 0) as Ha.
  { cbn [Topn.active].
    destruct Hf as [(-> & -> & Hne)|(-> & -> & Hne)];
      apply String.eqb_neq in Hne; unfold streq; rewrite Hne; simpl.
    - destruct (Topn.user i), user_; try done. by destruct (negb _).
    - done. }
  split; [exact Ha|]. split.
  - intros events. by apply topn_inactive_run.
  - intros now fs. unfold Topn.closeSession.
    cbn [Topn.active Topn.clientHost Topn.userName Topn.filename Topn.start
         Topn.current Topn.top Topn.n_statements Topn.total Topn.connect
         Topn.disconnect Topn.topN Topn.set_sessions snd].
    by rewrite topn_report_of_free_slots.
Qed.

End FilteredSessions.

(** C8 on the demo host: a client at 10.0.0.9 against a tracker that
    wants 10.0.0.1.  Whatever the session is sent, the file [/tmp/top.1]
    is there after [closeSession], with the report of a session that ran
    one statement in no time. *)
Lemma topn_inactive_session_writes_report_witness :
  Topn.active (Demo.topn_session "10.0.0.9" 0) = 0 /\
  (forall events,
     Topn.run (H := Demo.host) Demo.topn_attached
       (Demo.topn_session "10.0.0.9" 0) events
     = Some (Demo.topn_session "10.0.0.9" 0, Topn.message <$> events)) /\
  forall now fs,
    (Topn.closeSession Demo.topn_attached (Demo.topn_session "10.0.0.9" 0)
       now true fs).2 =
      <["/tmp/top.1" :=
          [Topn.Header 2; Topn.SessionStarted 100;
           Topn.ConnectionFrom "10.0.0.9"; Topn.Username "alice";
           Topn.TotalStatements 1; Topn.TotalTime 0 0;
           Topn.AverageTime 0 1000;
           Topn.ConnectionTime
             (wrap32 (Topn.tv_sec (Topn.timersub now (Demo.at_time 100 0))))
             (Z.quot
                (wrap32
                   (Topn.tv_usec (Topn.timersub now (Demo.at_time 100 0))))
                1000)]]> fs.
Proof.
  apply (topn_inactive_session_writes_report (H := Demo.host)
           (H0 := Demo.regex) Demo.topn_instance Demo.topn_attached
           (Some "10.0.0.9") (Some "alice") (Demo.at_time 100 0)
           (Demo.topn_session "10.0.0.9" 0) "10.0.0.1" "10.0.0.9" "" "").
  - left. split; [reflexivity|]. split; [reflexivity|]. discriminate.
  - reflexivity.
Defined.

(** The same client and the same address filter on the logger: the
    session is inactive as well, and no file is ever made for it. *)
Example qla_filtered_session_has_no_file :
  Qla.newSession Demo.qla_instance (Some "10.0.0.9") (Some "alice") true ∅
    = Some (Qla.set_sessions Demo.qla_instance 1,
            Some {| Qla.filename := "/tmp/qla.0"; Qla.fp := None;
                    Qla.active := 0; Qla.user := Some "alice";
                    Qla.remote := Some "10.0.0.9" |},
            ∅) /\
  Qla.closeSession
    {| Qla.filename := "/tmp/qla.0"; Qla.fp := None; Qla.active := 0;
       Qla.user := Some "alice"; Qla.remote := Some "10.0.0.9" |} = None.
Proof. split; reflexivity. Qed.

(** The logger and the tracker constructors on a pattern that does not
    compile, without [filebase], and on an unknown parameter: each returns
    [NULL] and leaves nothing allocated. *)
Example qla_topn_createInstance_fail_clean :
  let bad := [Demo.param "filebase" "/tmp/f"; Demo.param "match" "["] in
  let nofile := [Demo.param "match" "FROM"] in
  let unknown := [Demo.param "filebase" "/tmp/f"; Demo.param "bogus" "1"] in
  Forall (fun params =>
            let q := Qla.createInstance (H := Demo.host) (H0 := Demo.regex)
                       [] params in
            let t := Topn.createInstance (H := Demo.host) (H0 := Demo.regex)
                       [] params in
            instance q = None /\ live q = [] /\
            instance t = None /\ live t = [])
         [bad; nofile; unknown].
Proof. repeat constructor. Qed.

(** The condition on the names in [qla_createInstance_releases] and
    [topn_createInstance_releases] is needed: a parameter given twice
    overwrites the field, and the first copy stays allocated when the
    constructor fails. *)
Example qla_repeated_parameter_leaks :
  let b := Qla.createInstance (H := Demo.host) (H0 := Demo.regex) []
             [Demo.param "filebase" "/tmp/f"; Demo.param "match" "FROM";
              Demo.param "match" "["] in
  instance b = None /\ live b = [RStr "FROM"].
Proof. split; reflexivity. Qed.

(** ** The scenarios of the specification, run on the demo host *)

(** Twelve statements with latencies 5, 1, 9, 2, 8, 3, 7, 4, 6, 0.5, 10
    and 0.1 seconds against ten slots: the ranking ends as 10, 9, ..., 1. *)
Example topn_twelve_statements :
  match Topn.newSession Demo.topn_ten None None (Demo.at_time 0 0) with
  | Some (i, s0) =>
      match Topn.run (H := Demo.host) i s0
              (Demo.statements 1000
                 [(5, 0); (1, 0); (9, 0); (2, 0); (8, 0); (3, 0); (7, 0);
                  (4, 0); (6, 0); (0, 500000); (10, 0); (0, 100000)]) with
      | Some (s, _) =>
          map (fun e => Topn.tv_sec (Topn.duration e)) (Topn.top s)
            = [10; 9; 8; 7; 6; 5; 4; 3; 2; 1] /\
          Topn.n_statements s = 12
      | None => False
      end
  | None => False
  end.
Proof. vm_compute. split; reflexivity. Qed.

(** INSERT, SELECT, SELECT, SELECT with count=1 and time=0: the first
    select alone carries the route-to-master hint. *)
Example ccr_count_one_time_zero :
  match instance (Ccr.createInstance (H := Demo.host) (H0 := Demo.regex) []
                    [Demo.param "count" "1"; Demo.param "time" "0"]) with
  | Some i =>
      match Ccr.run (H := Demo.host) i (Ccr.newSession i)
              [(Demo.packet "INSERT INTO t VALUES (1)", 100);
               (Demo.packet "SELECT a FROM t", 100);
               (Demo.packet "SELECT b FROM t", 100);
               (Demo.packet "SELECT c FROM t", 100)] with
      | Some (_, _, out) =>
          map hint out =
            [[]; [{| hint_type := HINT_ROUTE_TO_MASTER; hint_data := None |}];
             []; []]
      | None => False
      end
  | None => False
  end.
Proof. vm_compute. reflexivity. Qed.

(** A write, a pause of 61 seconds, then a read, with the default count 0
    and time 60: the read carries no hint. *)
Example ccr_read_after_the_window :
  match instance (Ccr.createInstance (H := Demo.host) (H0 := Demo.regex)
                    [] []) with
  | Some i =>
      match Ccr.run (H := Demo.host) i (Ccr.newSession i)
              [(Demo.packet "UPDATE t SET a = 1", 100);
               (Demo.packet "SELECT a FROM t", 161)] with
      | Some (_, _, out) => map hint out = [[]; []]
      | None => False
      end
  | None => False
  end.
Proof. vm_compute. reflexivity. Qed.

(* ===================================================================== *)
(** * Further properties of the filters *)

(** ** topfilter.c: what the ranking holds *)

Section TopnSelection.
Context `{Host} `{Regex}.
Import Topn.

Lemma top_selection_perm n k k' dropped history :
  k ≡ₚ k' -> top_selection n k dropped history ->
  top_selection n k' dropped history.
Proof.
  intros Hk (Hh & Hle & Hn). split; [by rewrite <- Hk|]. split.
  - eapply Forall_impl; [exact Hle|]. intros d Hd. by rewrite <- Hk.
  - intros Hd. rewrite <- Hk. by apply Hn.
Qed.

Lemma first_free_lookup l k :
  first_free l = Some k -> exists x, l !! k = Some x /\ sql x = None.
Proof.
  revert k. induction l as [|e l IH]; intros k Hk; simpl in *; [done|].
  destruct (sql e) eqn:He.
  - destruct (first_free l) as [j|]; simplify_eq/=. by apply IH.
  - simplify_eq. by exists e.
Qed.

Lemma occupied_full l :
  Forall (fun e => is_Some (sql e)) l -> occupied l = l.
Proof.
  unfold occupied. induction 1 as [|x l Hx Hl IH]; [done|].
  by rewrite filter_cons_True, IH.
Qed.

Lemma occupied_lt l x k :
  l !! k = Some x -> sql x = None ->
  (length (occupied l) < length l)%nat.
Proof.
  intros Hl Hx. unfold occupied.
  eapply length_filter_lt; [by eapply list_elem_of_lookup_2|].
  rewrite Hx. by intros [? ?].
Qed.

(** Filling a free slot adds the entry to the occupied ones. *)
Lemma occupied_insert_free l k x e :
  l !! k = Some x -> sql x = None -> is_Some (sql e) ->
  occupied (<[k := e]> l) ≡ₚ e :: occupied l.
Proof.
  intros Hl Hx He.
  rewrite insert_take_drop by (by eapply lookup_lt_Some).
  rewrite <- (take_drop_middle l k x Hl) at 3.
  unfold occupied. rewrite !filter_app.
  rewrite (filter_cons_True _ e) by done.
  rewrite (filter_cons_False _ x) by (rewrite Hx; by intros [? ?]).
  by rewrite Permutation_middle.
Qed.

Lemma last_is_shortest l z :
  StronglySorted no_shorter (l ++ [z]) -> Forall (fun x => no_shorter x z) l.
Proof.
  induction l as [|x l IH]; simpl; intros Hs; [constructor|].
  apply StronglySorted_inv in Hs as [Hs Hall].
  apply Forall_app in Hall as [_ Hz]. apply Forall_inv in Hz.
  constructor; [exact Hz | by apply IH].
Qed.

Lemma not_longer_dur_ge d last :
  longer d last = false -> dur_ge (duration last) d.
Proof.
  unfold longer, dur_ge. intros Hl.
  apply orb_false_elim in Hl as [Hsec Hrest].
  apply Z.ltb_ge in Hsec.
  destruct (Z.eqb_spec (tv_sec d) (tv_sec (duration last))) as [E|E];
    simpl in Hrest; [apply Z.ltb_ge in Hrest|]; lia.
Qed.

Lemma longer_dur_ge d last :
  longer d last = true -> dur_ge d (duration last).
Proof.
  unfold longer, dur_ge. intros Hl.
  apply orb_prop in Hl as [Hsec%Z.ltb_lt|[E%Z.eqb_eq Hu%Z.ltb_lt]%andb_prop];
    lia.
Qed.

Lemma dur_ge_refl d : dur_ge d d.
Proof. unfold dur_ge. lia. Qed.

Lemma kept_qsort s total_ l :
  kept (set_ranking s total_ (qsort cmp_topn l)) ≡ₚ duration <$> occupied l.
Proof. unfold kept, occupied. simpl. by rewrite qsort_perm. Qed.

(** One reply: the session stays in order and the ranking still holds the
    longest durations, the new one counted. *)
Lemma topn_clientReply_selection i base s reply now dropped history :
  1 <= topN i -> 0 <= base < 2 ^ 62 ->
  in_window base now -> ranked i base s ->
  top_selection (Z.to_nat (topN i)) (kept s) dropped history ->
  exists s' dropped',
    clientReply i s reply now = Some (s', reply) /\ ranked i base s' /\
    top_selection (Z.to_nat (topN i)) (kept s') dropped'
      (history ++ match current s with
                  | Some _ => [timersub now (start s)]
                  | None => []
                  end).
Proof.
  intros HN Hbase Hnow Hs Hsel.
  destruct (topn_clientReply_ranked i base s reply now) as (s' & Hr & Hs');
    try done.
  exists s'. destruct Hs as (Hlen & _ & Hso & _). pose proof Hr as Hr0.
  unfold clientReply in Hr. destruct (current s) as [cur|] eqn:Hcur.
  2: { injection Hr as <-. exists dropped. by rewrite app_nil_r. }
  set (d := timersub now (start s)) in *.
  set (e := {| duration := d; sql := Some cur |}) in *.
  destruct Hsel as (Hh & Hle & Hfull).
  destruct (first_free (top s)) as [k|] eqn:Hfree.
  - injection Hr as <-.
    destruct (first_free_lookup _ _ Hfree) as (x & Hx & Hnone).
    assert (dropped = []) as ->.
    { destruct dropped as [|d0 dropped]; [done|].
      pose proof (occupied_lt _ _ _ Hx Hnone) as Hlt.
      unfold kept in Hfull. rewrite length_fmap in Hfull.
      rewrite Hfull in Hlt by done. lia. }
    exists []. split; [done|]. split; [done|].
    eapply top_selection_perm.
    { symmetry. rewrite kept_qsort.
      rewrite (occupied_insert_free _ _ x e) by (done || by eexists).
      reflexivity. }
    split; [|split; [constructor | done]].
    rewrite Hh. simpl. fold (kept s). solve_Permutation.
  - destruct (Z.ltb_spec (topN i - 1) 0) as [?|_]; [lia|].
    destruct (top s !! Z.to_nat (topN i - 1)) as [last|] eqn:Hlast;
      [|done].
    simpl in Hr. apply first_free_None in Hfree.
    assert (top s = take (Z.to_nat (topN i - 1)) (top s) ++ [last]) as Htop.
    { rewrite <- (take_drop_middle _ _ _ Hlast) at 1.
      by rewrite (drop_ge (top s)) by lia. }
    set (l1 := take (Z.to_nat (topN i - 1)) (top s)) in *.
    assert (kept s = (duration <$> l1) ++ [duration last]) as Hkept.
    { unfold kept. rewrite (occupied_full _ Hfree), Htop.
      by rewrite fmap_app. }
    assert (Forall (fun k => dur_ge k (duration last)) (kept s)) as Hmin.
    { rewrite Hkept. apply Forall_app. split.
      - apply Forall_fmap. rewrite Htop in Hso.
        by apply last_is_shortest in Hso.
      - constructor; [apply dur_ge_refl | constructor]. }
    destruct (longer d last) eqn:Hlonger; injection Hr as <-.
    + exists (duration last :: dropped). split; [done|]. split; [done|].
      assert (<[Z.to_nat (topN i - 1) := e]> (top s) = l1 ++ [e]) as Hins.
      { rewrite insert_take_drop by (by eapply lookup_lt_Some).
        by rewrite (drop_ge (top s)) by lia. }
      assert (Forall (fun x => is_Some (sql x)) (l1 ++ [e])) as Hfree'.
      { rewrite Htop in Hfree. apply Forall_app in Hfree as [Hl1 _].
        apply Forall_app. split; [done|].
        constructor; [by eexists | constructor]. }
      eapply top_selection_perm.
      { symmetry. rewrite kept_qsort, Hins, (occupied_full _ Hfree').
        rewrite fmap_app. reflexivity. }
      apply longer_dur_ge in Hlonger.
      rewrite Hkept in Hh, Hle, Hmin. apply Forall_app in Hmin as [Hmin1 _].
      split; [|split].
      * rewrite Hh. simpl. solve_Permutation.
      * constructor.
        -- apply Forall_app. split; [done|].
           constructor; [done | constructor].
        -- eapply Forall_impl; [exact Hle|]. intros x Hx. simpl in Hx.
           apply Forall_app in Hx as [Hx1 Hx2].
           apply Forall_inv in Hx2.
           apply Forall_app. split; [done|].
           constructor; [|constructor].
           eapply dur_ge_trans; [exact Hlonger | exact Hx2].
      * intros _. rewrite length_app, length_fmap. simpl.
        unfold l1. rewrite length_take. lia.
    + exists (d :: dropped). split; [done|]. split; [done|].
      apply not_longer_dur_ge in Hlonger.
      change (kept (set_ranking s (timeradd (total s) d) (top s)))
        with (kept s).
      split; [|split].
      * rewrite Hh. solve_Permutation.
      * constructor; [|done].
        eapply Forall_impl; [exact Hmin|]. intros x Hx. simpl in Hx.
        eapply dur_ge_trans; [exact Hx | exact Hlonger].
      * intros _. unfold kept.
        by rewrite length_fmap, (occupied_full _ Hfree).
Qed.

Lemma occupied_replicate_free n d :
  occupied (replicate n {| duration := d; sql := None |}) = [].
Proof.
  unfold occupied. induction n as [|n IH]; [done|]. simpl.
  rewrite filter_cons_False by (by intros [? ?]). exact IH.
Qed.

Lemma topn_routeQuery_top i s q now s' q' :
  routeQuery i s q now = Some (s', q') ->
  top s' = top s /\ total s' = total s /\ active s' = active s.
Proof.
  intros Hr.
  by apply topn_routeQuery_cases in Hr as (_ & [->|(_ & ptr & _ & ->)]).
Qed.

Lemma topn_run_selection i base s events dropped history :
  1 <= topN i -> compiled i = true -> 0 <= base < 2 ^ 62 ->
  Forall (fun e => in_window base (clock e)) events ->
  ranked i base s ->
  top_selection (Z.to_nat (topN i)) (kept s) dropped history ->
  exists s' outs dropped',
    run i s events = Some (s', outs) /\ ranked i base s' /\
    top_selection (Z.to_nat (topN i)) (kept s') dropped'
      (history ++ measured i s events).
Proof.
  intros HN Hc Hbase Hev. revert s dropped history.
  induction Hev as [|e events He Hev IH]; intros s dropped history Hs Hsel.
  - exists s, [], dropped. simpl. by rewrite app_nil_r.
  - destruct e as [q t|r t]; simpl in He.
    + destruct (topn_routeQuery_total i s q t Hc) as [[s1 q1] Hr].
      pose proof (topn_routeQuery_ranked _ _ _ _ _ _ _ He Hs Hr) as Hs1.
      destruct (topn_routeQuery_top _ _ _ _ _ _ Hr) as (Htop & _).
      destruct (IH s1 dropped history Hs1) as (s' & outs & d' & Hrun & ? & ?).
      { unfold kept. by rewrite Htop. }
      exists s', (q1 :: outs), d'. simpl. rewrite Hr. simpl. rewrite Hrun.
      done.
    + destruct (topn_clientReply_selection i base s r t dropped history)
        as (s1 & d1 & Hr & Hs1 & Hsel1); try done.
      destruct (IH s1 d1 _ Hs1 Hsel1) as (s' & outs & d' & Hrun & ? & Hsel').
      exists s', (r :: outs), d'. simpl. rewrite Hr. simpl. rewrite Hrun.
      split; [done|]. split; [done|].
      destruct (current s); [|by rewrite app_nil_r in Hsel'].
      by rewrite <- app_assoc in Hsel'.
Qed.

(** X1.  The ranking holds the longest durations measured in the session:
    the measured durations split into the kept ones and the dropped ones,
    no dropped duration is longer than a kept one, and a duration is
    dropped only when all [topN] slots are taken. *)
Theorem topn_keeps_the_longest (i i' : TOPN_INSTANCE)
    (remote user_ : option string) (now : timeval) (s0 : TOPN_SESSION)
    (base : Z) (events : list event) :
  1 <= topN i -> compiled i = true -> 0 <= base < 2 ^ 62 ->
  newSession i remote user_ now = Some (i', s0) ->
  Forall (fun e => in_window base (clock e)) events ->
  exists s outs dropped,
    run i' s0 events = Some (s, outs) /\
    measured i' s0 events ≡ₚ kept s ++ dropped /\
    Forall (fun d => Forall (fun k => dur_ge k d) (kept s)) dropped /\
    (dropped <> [] -> length (kept s) = Z.to_nat (topN i)).
Proof.
  intros HN Hc Hbase Hnew Hev.
  destruct (topn_newSession_ranked _ _ _ _ _ _ base Hnew)
    as (HN' & Hc' & Hs0 & _).
  assert (kept s0 = []) as Hk0.
  { unfold newSession in Hnew.
    destruct (filebase i); [|done]. simpl in Hnew.
    destruct (wrap32 (topN i + 1) <? 0); [done|].
    injection Hnew as _ <-. unfold kept. simpl.
    by rewrite occupied_replicate_free. }
  destruct (topn_run_selection i' base s0 events [] [])
    as (s & outs & dropped & Hrun & _ & Hsel); try done;
    [lia | congruence | |].
  { rewrite Hk0. split; [done|]. split; [constructor | done]. }
  exists s, outs, dropped. rewrite <- HN'. by split.
Qed.

End TopnSelection.

(** X1 on the demo host: two slots, three statements that take 1, 3 and
    2 seconds. *)
Lemma topn_keeps_the_longest_witness :
  exists s outs dropped,
    Topn.run (H := Demo.host) Demo.topn_attached
      (Demo.topn_session "10.0.0.1" 1)
      (Demo.statements 1000 [(1, 0); (3, 0); (2, 0)]) = Some (s, outs) /\
    Topn.measured (H := Demo.host) Demo.topn_attached
      (Demo.topn_session "10.0.0.1" 1)
      (Demo.statements 1000 [(1, 0); (3, 0); (2, 0)])
      ≡ₚ Topn.kept s ++ dropped /\
    Forall (fun d => Forall (fun k => Topn.dur_ge k d) (Topn.kept s)) dropped
    /\ (dropped <> [] ->
        length (Topn.kept s) = Z.to_nat (Topn.topN Demo.topn_instance)).
Proof.
  apply (topn_keeps_the_longest (H := Demo.host) Demo.topn_instance
           Demo.topn_attached (Some "10.0.0.1") (Some "alice")
           (Demo.at_time 100 0) (Demo.topn_session "10.0.0.1" 1) 0).
  - simpl. lia.
  - reflexivity.
  - lia.
  - reflexivity.
  - repeat constructor; simpl; lia.
Defined.

(** ** topfilter.c: the totals and the report *)

Section TopnAccounting.
Context `{Host} `{Regex}.
Import Topn.

(** On readings of one window [timersub] is the difference in
    microseconds. *)
Lemma micro_timersub base a b :
  0 <= base < 2 ^ 62 -> in_window base a -> in_window base b ->
  micro (timersub a b) = micro a - micro b.
Proof.
  unfold in_window, micro, timersub. intros Hb [Ha Ha'] [Hb1 Hb1'].
  assert (2 ^ 30 = 1073741824) as E30 by done.
  assert (2 ^ 62 = 4611686018427387904) as E62 by done.
  rewrite (wrap64_small (tv_sec a - tv_sec b)) by lia.
  rewrite (wrap64_small (tv_usec a - tv_usec b)) by lia.
  destruct (Z.ltb_spec (tv_usec a - tv_usec b) 0); simpl.
  - rewrite !wrap64_small by lia. lia.
  - lia.
Qed.

(** [timeradd] of a normalised total and a difference of readings is the
    sum in microseconds, normalised again. *)
Lemma micro_timeradd a b bound :
  0 <= tv_usec a < 1000000 -> - bound <= tv_sec a <= bound ->
  0 <= bound <= 2 ^ 62 -> small b ->
  micro (timeradd a b) = micro a + micro b /\
  0 <= tv_usec (timeradd a b) < 1000000 /\
  - (bound + 2 ^ 30 + 1) <= tv_sec (timeradd a b) <= bound + 2 ^ 30 + 1.
Proof.
  unfold small, micro, timeradd. intros Ha Hs Hb [Hb1 Hb2].
  assert (2 ^ 30 = 1073741824) as E30 by done.
  assert (2 ^ 62 = 4611686018427387904) as E62 by done.
  rewrite (wrap64_small (tv_sec a + tv_sec b)) by lia.
  rewrite (wrap64_small (tv_usec a + tv_usec b)) by lia.
  destruct (Z.leb_spec 1000000 (tv_usec a + tv_usec b)); simpl.
  - rewrite !wrap64_small by lia. lia.
  - lia.
Qed.

Lemma topn_clientReply_total i s reply now s' r' :
  clientReply i s reply now = Some (s', r') ->
  total s' = match current s with
             | Some _ => timeradd (total s) (timersub now (start s))
             | None => total s
             end.
Proof.
  unfold clientReply. intros Hr.
  destruct (current s) as [cur|]; [|by simplify_eq].
  repeat (case_match; simpl in *; simplify_option_eq); done.
Qed.

Lemma topn_run_total_time i base s events c :
  1 <= topN i -> compiled i = true -> 0 <= base < 2 ^ 62 ->
  Forall (fun e => in_window base (clock e)) events ->
  ranked i base s ->
  0 <= c -> c + Z.of_nat (length events) <= 2 ^ 31 ->
  0 <= tv_usec (total s) < 1000000 ->
  - ((2 ^ 30 + 1) * c) <= tv_sec (total s) <= (2 ^ 30 + 1) * c ->
  exists s' outs,
    run i s events = Some (s', outs) /\
    micro (total s') =
      micro (total s) + foldr Z.add 0 (micro <$> measured i s events) /\
    0 <= tv_usec (total s') < 1000000.
Proof.
  intros HN Hc Hbase Hev. revert s c.
  induction Hev as [|e events He Hev IH]; intros s c Hs Hc0 Hlen Hu Hb.
  - exists s, []. simpl. split; [done|]. split; [lia | done].
  - simpl in Hlen. destruct e as [q t|r t]; simpl in He.
    + destruct (topn_routeQuery_total i s q t Hc) as [[s1 q1] Hr].
      pose proof (topn_routeQuery_ranked _ _ _ _ _ _ _ He Hs Hr) as Hs1.
      destruct (topn_routeQuery_top _ _ _ _ _ _ Hr) as (_ & Htot & _).
      destruct (IH s1 (c + 1)) as (s' & outs & Hrun & Hsum & Hu');
        try done; rewrite ?Htot; try lia.
      exists s', (q1 :: outs). simpl. rewrite Hr. simpl. rewrite Hrun.
      split; [done|]. by rewrite Htot in Hsum.
    + destruct (topn_clientReply_ranked i base s r t) as (s1 & Hr & Hs1);
        try done.
      pose proof (topn_clientReply_total _ _ _ _ _ _ Hr) as Htot.
      assert (2 ^ 30 = 1073741824) as E30 by done.
      assert (2 ^ 31 = 2147483648) as E31 by done.
      assert (2 ^ 62 = 4611686018427387904) as E62 by done.
      destruct (current s) as [cur|] eqn:Hcur.
      * assert (small (timersub t (start s))) as Hd.
        { eapply timersub_small; [done | done |].
          destruct Hs as (_ & _ & _ & Hst). apply Hst. by rewrite Hcur. }
        destruct (micro_timeradd (total s) (timersub t (start s))
                    ((2 ^ 30 + 1) * c)) as (Hm & Hu1 & Hb1);
          [done | done | nia | done |].
        rewrite <- Htot in Hm, Hu1, Hb1.
        destruct (IH s1 (c + 1)) as (s' & outs & Hrun & Hsum & Hu');
          try done; try lia.
        exists s', (r :: outs). simpl. rewrite Hr. simpl. rewrite Hrun.
        split; [done|]. split; [|done].
        rewrite Hcur, fmap_cons. cbn [foldr]. lia.
      * rewrite <- Htot in Hu, Hb.
        destruct (IH s1 (c + 1)) as (s' & outs & Hrun & Hsum & Hu');
          try done; try lia.
        exists s', (r :: outs). simpl. rewrite Hr. simpl. rewrite Hrun.
        split; [done|]. split; [|done]. rewrite Hcur. by rewrite <- Htot.
Qed.

(** X2.  The total execution time of a session is the sum of the durations
    it measured, in microseconds, and its microsecond field stays below a
    second. *)
Theorem topn_total_is_sum (i i' : TOPN_INSTANCE)
    (remote user_ : option string) (now : timeval) (s0 : TOPN_SESSION)
    (base : Z) (events : list event) :
  1 <= topN i -> compiled i = true -> 0 <= base < 2 ^ 62 ->
  newSession i remote user_ now = Some (i', s0) ->
  Forall (fun e => in_window base (clock e)) events ->
  Z.of_nat (length events) <= 2 ^ 31 ->
  exists s outs,
    run i' s0 events = Some (s, outs) /\
    micro (total s) = foldr Z.add 0 (micro <$> measured i' s0 events) /\
    0 <= tv_usec (total s) < 1000000.
Proof.
  intros HN Hc Hbase Hnew Hev Hlen.
  destruct (topn_newSession_ranked _ _ _ _ _ _ base Hnew)
    as (HN' & Hc' & Hs0 & _ & _ & Ht0).
  destruct (topn_run_total_time i' base s0 events 0)
    as (s & outs & Hrun & Hsum & Hu); try done;
    rewrite ?Ht0; simpl; try lia; try congruence.
  exists s, outs. split; [done|]. split; [|done].
  rewrite Hsum, Ht0. done.
Qed.

End TopnAccounting.

(** X2 on the demo host. *)
Lemma topn_total_is_sum_witness :
  exists s outs,
    Topn.run (H := Demo.host) Demo.topn_attached
      (Demo.topn_session "10.0.0.1" 1)
      (Demo.statements 1000 [(1, 0); (3, 0); (2, 0)]) = Some (s, outs) /\
    Topn.micro (Topn.total s) =
      foldr Z.add 0
        (Topn.micro <$>
           Topn.measured (H := Demo.host) Demo.topn_attached
             (Demo.topn_session "10.0.0.1" 1)
             (Demo.statements 1000 [(1, 0); (3, 0); (2, 0)])) /\
    0 <= Topn.tv_usec (Topn.total s) < 1000000.
Proof.
  apply (topn_total_is_sum (H := Demo.host) Demo.topn_instance
           Demo.topn_attached (Some "10.0.0.1") (Some "alice")
           (Demo.at_time 100 0) (Demo.topn_session "10.0.0.1" 1) 0).
  - simpl. lia.
  - reflexivity.
  - lia.
  - reflexivity.
  - repeat constructor; simpl; lia.
  - simpl. lia.
Defined.

(** ** topfilter.c: the statement counter, forwarding and the report *)

Section TopnCounting.
Context `{Host} `{Regex}.
Import Topn.

Lemma topn_routeQuery_counts i s q now :
  compiled i = true ->
  exists s1,
    routeQuery i s q now = Some (s1, forwarded (active s) (Request q now)) /\
    top s1 = top s /\ active s1 = active s /\
    n_statements s1 =
      if negb (active s =? 0) && recorded i (Request q now)
      then wrap32 (n_statements s + 1) else n_statements s.
Proof.
  unfold compiled, routeQuery, recorded, forwarded, regexec_field.
  intros [Hm Hn]%andb_prop.
  destruct (active s =? 0); simpl; [by exists s|].
  destruct (modutil_get_SQL (contiguous q)) as [ptr|]; [|by exists s].
  destruct (match_ i), (re i), (exclude i), (exre i); simpl in *;
    try discriminate;
    repeat (destruct (regexec _ ptr); simpl);
    first [by exists s | by eexists].
Qed.

Lemma topn_clientReply_counts i s reply now :
  1 <= topN i -> length (top s) = Z.to_nat (topN i) ->
  exists s1,
    clientReply i s reply now = Some (s1, reply) /\
    length (top s1) = Z.to_nat (topN i) /\ active s1 = active s /\
    n_statements s1 = n_statements s.
Proof.
  intros HN Hlen. unfold clientReply.
  destruct (current s) as [cur|]; [|by exists s].
  destruct (first_free (top s)) as [k|].
  - eexists. split; [done|]. simpl.
    by rewrite qsort_perm, length_insert.
  - destruct (Z.ltb_spec (topN i - 1) 0) as [?|_]; [lia|].
    destruct (lookup_lt_is_Some_2 (top s) (Z.to_nat (topN i - 1)))
      as [last ->]; [lia|].
    simpl. destruct (longer _ last); eexists; (split; [done|]); simpl;
      by rewrite ?qsort_perm, ?length_insert.
Qed.

Lemma topn_run_counts i s events :
  1 <= topN i -> compiled i = true ->
  length (top s) = Z.to_nat (topN i) ->
  0 <= n_statements s ->
  n_statements s + Z.of_nat (length events) < 2 ^ 31 ->
  exists s',
    run i s events = Some (s', forwarded (active s) <$> events) /\
    n_statements s' =
      n_statements s +
      (if active s =? 0 then 0 else count_recorded i events).
Proof.
  intros HN Hc. revert s.
  induction events as [|e events IH]; intros s Hlen Hn Hb.
  - exists s. split; [done|]. unfold count_recorded. simpl.
    destruct (active s =? 0); lia.
  - simpl in Hb.
    assert (exists s1,
              step i s e = Some (s1, forwarded (active s) e) /\
              length (top s1) = Z.to_nat (topN i) /\
              active s1 = active s /\
              n_statements s1 =
                if negb (active s =? 0) && recorded i e
                then n_statements s + 1 else n_statements s)
      as (s1 & Hstep & Hlen1 & Ha1 & Hn1).
    { destruct e as [q t|r t]; simpl.
      - destruct (topn_routeQuery_counts i s q t Hc)
          as (s1 & Hr & Htop & Ha & Hcount).
        exists s1. rewrite Htop. repeat (split; [done|]).
        rewrite Hcount. rewrite wrap32_small by lia. done.
      - destruct (topn_clientReply_counts i s r t HN Hlen)
          as (s1 & Hr & Hlen1 & Ha & Hcount).
        exists s1. repeat (split; [done|]).
        by rewrite andb_false_r. }
    destruct (IH s1) as (s' & Hrun & Hn'); [done | | |].
    { rewrite Hn1. destruct (_ && _); lia. }
    { rewrite Hn1. destruct (_ && _); lia. }
    exists s'. simpl. rewrite Hstep. simpl. rewrite Hrun, Ha1.
    split; [done|]. rewrite Hn', Hn1, Ha1.
    unfold count_recorded. simpl.
    destruct (active s =? 0); simpl; [lia|].
    destruct (recorded i e) eqn:He.
    + rewrite filter_cons_True by done. simpl. lia.
    + rewrite filter_cons_False by (by rewrite He). lia.
Qed.

(** X3.  A session hands on every request and reply, in arrival order, and
    its statement counter is the number of requests it recorded as
    pending, whether or not a reply came for them; an inactive session
    counts nothing. *)
Theorem topn_counts_and_forwards (i i' : TOPN_INSTANCE)
    (remote user_ : option string) (now : timeval) (s0 : TOPN_SESSION)
    (events : list event) :
  1 <= topN i -> compiled i = true ->
  newSession i remote user_ now = Some (i', s0) ->
  Z.of_nat (length events) < 2 ^ 31 ->
  exists s,
    run i' s0 events = Some (s, forwarded (active s0) <$> events) /\
    n_statements s =
      if active s0 =? 0 then 0 else count_recorded i' events.
Proof.
  intros HN Hc Hnew Hlen.
  destruct (topn_newSession_ranked _ _ _ _ _ _ 0 Hnew)
    as (HN' & Hc' & (Hlen0 & _) & _ & Hn0 & _).
  destruct (topn_run_counts i' s0 events) as (s & Hrun & Hn);
    rewrite ?Hn0; try done; try lia; try congruence.
  exists s. split; [done|]. rewrite Hn, Hn0. done.
Qed.

Lemma entries_of_ranking l :
  entries (omap (fun e => Entry (millis (duration e)) <$> sql e) l)
    = entry_of <$> occupied l.
Proof.
  induction l as [|e l IH]; [done|].
  unfold occupied. rewrite filter_cons. fold (occupied l).
  destruct (decide (is_Some (sql e))) as [[t Ht]|Hn].
  - rewrite fmap_cons, <- IH. unfold entry_of, entries. cbn [omap list_omap].
    by rewrite Ht.
  - rewrite <- IH. unfold entries. cbn [omap list_omap].
    destruct (sql e) as [t|]; [|done]. exfalso. apply Hn. by eexists.
Qed.

Lemma millis_mono a b :
  small a -> small b -> dur_ge a b -> millis b <= millis a.
Proof.
  unfold small, dur_ge, millis. intros [Ha Ha'] [Hb Hb'] Hge.
  assert (2 ^ 30 = 1073741824) as E30 by done.
  rewrite !(wrap64_small (_ * 1000)) by lia.
  assert (0 <= tv_usec a `quot` 1000 <= 999) as Hqa.
  { rewrite Z.quot_div_nonneg by lia. split.
    - apply Z.div_pos; lia.
    - apply Z.lt_succ_r. apply Z.div_lt_upper_bound; lia. }
  assert (0 <= tv_usec b `quot` 1000 <= 999) as Hqb.
  { rewrite Z.quot_div_nonneg by lia. split.
    - apply Z.div_pos; lia.
    - apply Z.lt_succ_r. apply Z.div_lt_upper_bound; lia. }
  rewrite !wrap64_small by lia.
  destruct Hge as [Hlt|[Heq Hle]]; [lia|].
  rewrite Heq. apply Z.add_le_mono_l.
  rewrite !Z.quot_div_nonneg by lia. apply Z.div_le_mono; lia.
Qed.

Lemma entries_sorted l :
  Forall (fun e => small (duration e)) l -> StronglySorted no_shorter l ->
  StronglySorted (fun a b : Z * string => b.1 <= a.1) (entry_of <$> l).
Proof.
  induction l as [|x l IH]; intros Hsm Hso; [constructor|].
  apply Forall_cons in Hsm as [Hsx Hsl].
  apply StronglySorted_inv in Hso as [Hso Hall].
  rewrite fmap_cons. constructor; [by apply IH|].
  apply Forall_fmap. rewrite Forall_forall in Hall, Hsl.
  apply Forall_forall. intros y Hy. simpl.
  apply millis_mono; [done | by apply Hsl | by apply Hall].
Qed.

(** X4.  The report written at the end of a session lists the occupied
    entries of the ranking, at most [topN] of them, in the order of the
    array, and the times printed never increase down the list. *)
Theorem topn_report_longest_first (i i' : TOPN_INSTANCE)
    (remote user_ : option string) (now closing : timeval)
    (s0 : TOPN_SESSION) (base : Z) (events : list event)
    (fs : gmap string (list report_line)) :
  1 <= topN i -> compiled i = true -> 0 <= base < 2 ^ 62 ->
  newSession i remote user_ now = Some (i', s0) ->
  Forall (fun e => in_window base (clock e)) events ->
  exists s outs report,
    run i' s0 events = Some (s, outs) /\
    (closeSession i' s closing true fs).2 !! filename s = Some report /\
    entries report = entry_of <$> occupied (top s) /\
    (length (entries report) <= Z.to_nat (topN i))%nat /\
    StronglySorted (fun a b => b.1 <= a.1) (entries report).
Proof.
  intros HN Hc Hbase Hnew Hev.
  destruct (topn_newSession_ranked _ _ _ _ _ _ base Hnew)
    as (HN' & Hc' & Hs0 & _).
  destruct (topn_run_ranked i' base s0 events) as (s & outs & Hrun & Hs);
    try done; [lia | congruence |].
  destruct Hs as (Hlen & Hsm & Hso & _).
  exists s, outs. eexists. split; [done|].
  split; [unfold closeSession; cbn [snd filename];
          by rewrite lookup_insert_eq|].
  assert (forall a b c d,
            entries (a ++ omap (fun e => Entry (millis (duration e)) <$> sql e)
                            (top s) ++ b ++ c ++ d ++
                     [TotalStatements
                        (if negb (n_statements s =? 0)
                         then n_statements s else 1);
                      TotalTime (wrap32 (tv_sec (total s)))
                        (wrap32 (tv_usec (total s)) `quot` 1000);
                      AverageTime (millis (total s))
                        (wrap32 (1000 *
                           (if negb (n_statements s =? 0)
                            then n_statements s else 1)));
                      ConnectionTime
                        (wrap32 (tv_sec (timersub closing (connect s))))
                        (wrap32 (tv_usec (timersub closing (connect s)))
                         `quot` 1000)])
            = entries a ++ (entry_of <$> occupied (top s)) ++ entries b ++
              entries c ++ entries d) as Hentries.
  { intros a b c d. unfold entries at 1. rewrite !omap_app.
    fold (entries a) (entries b) (entries c) (entries d).
    fold (entries (omap (fun e => Entry (millis (duration e)) <$> sql e)
                     (top s))).
    rewrite entries_of_ranking. simpl. by rewrite app_nil_r. }
  cbn [n_statements total connect disconnect clientHost userName top].
  rewrite Hentries.
  assert (entries [Header (topN i')] = []) as -> by done.
  assert (entries [SessionStarted (tv_sec (connect s))] = []) as -> by done.
  assert (entries match clientHost s with
                  | Some h => [ConnectionFrom h]
                  | None => []
                  end = []) as -> by (by destruct (clientHost s)).
  assert (entries match userName s with
                  | Some u => [Username u]
                  | None => []
                  end = []) as -> by (by destruct (userName s)).
  simpl. rewrite !app_nil_r. split; [done|]. split.
  - rewrite length_fmap, <- HN', <- Hlen. apply length_filter.
  - apply entries_sorted; [by apply Forall_occupied|].
    by apply StronglySorted_occupied.
Qed.

End TopnCounting.

(** X3 on the demo host. *)
Lemma topn_counts_and_forwards_witness :
  exists s,
    Topn.run (H := Demo.host) Demo.topn_attached
      (Demo.topn_session "10.0.0.1" 1)
      (Demo.statements 1000 [(1, 0); (3, 0)])
      = Some (s, Topn.forwarded
                   (Topn.active (Demo.topn_session "10.0.0.1" 1))
                   <$> Demo.statements 1000 [(1, 0); (3, 0)]) /\
    Topn.n_statements s =
      if Topn.active (Demo.topn_session "10.0.0.1" 1) =? 0 then 0
      else Topn.count_recorded (H := Demo.host) Demo.topn_attached
             (Demo.statements 1000 [(1, 0); (3, 0)]).
Proof.
  apply (topn_counts_and_forwards (H := Demo.host) Demo.topn_instance
           Demo.topn_attached (Some "10.0.0.1") (Some "alice")
           (Demo.at_time 100 0)).
  - simpl. lia.
  - reflexivity.
  - reflexivity.
  - simpl. lia.
Defined.

(** X4 on the demo host. *)
Lemma topn_report_longest_first_witness :
  exists s outs report,
    Topn.run (H := Demo.host) Demo.topn_attached
      (Demo.topn_session "10.0.0.1" 1)
      (Demo.statements 1000 [(1, 0); (3, 0); (2, 0)]) = Some (s, outs) /\
    (Topn.closeSession Demo.topn_attached s (Demo.at_time 2000 0) true ∅).2
      !! Topn.filename s = Some report /\
    Topn.entries report = Topn.entry_of <$> Topn.occupied (Topn.top s) /\
    (length (Topn.entries report)
       <= Z.to_nat (Topn.topN Demo.topn_instance))%nat /\
    StronglySorted (fun a b : Z * string => b.1 <= a.1)
      (Topn.entries report).
Proof.
  apply (topn_report_longest_first (H := Demo.host) Demo.topn_instance
           Demo.topn_attached (Some "10.0.0.1") (Some "alice")
           (Demo.at_time 100 0) (Demo.at_time 2000 0)
           (Demo.topn_session "10.0.0.1" 1) 0).
  - simpl. lia.
  - reflexivity.
  - lia.
  - reflexivity.
  - repeat constructor; simpl; lia.
Defined.

(** ** File names of successive sessions *)

Section FileNames.
Context `{Host} `{Regex}.

Lemma file_name_inj base m n :
  Topn.file_name base m = Topn.file_name base n -> m = n.
Proof.
  unfold Topn.file_name. intros E.
  apply (inj (String.app base)) in E.
  apply (inj (String.app ".")) in E.
  by apply (inj pretty) in E.
Qed.

Lemma topn_attach_names (i i' : Topn.TOPN_INSTANCE) clients ss :
  0 <= Topn.sessions i ->
  Topn.sessions i + Z.of_nat (length clients) < 2 ^ 31 ->
  Topn.attach i clients = Some (i', ss) ->
  length ss = length clients /\
  Topn.sessions i' = Topn.sessions i + Z.of_nat (length clients) /\
  Topn.filebase i' = Topn.filebase i /\
  forall k s, ss !! k = Some s ->
    exists base,
      Topn.filebase i = Some base /\
      Topn.filename s =
        Topn.file_name base (Topn.sessions i + Z.of_nat k + 1).
Proof.
  revert i i' ss. induction clients as [|[[r u] t] clients IH];
    intros i i' ss Hn Hb Ha; simpl in *.
  - simplify_eq. repeat split; try lia. intros k s Hk. done.
  - destruct (Topn.newSession i r u t) as [[i1 s1]|] eqn:Hnew; [|done].
    simpl in Ha.
    destruct (Topn.attach i1 clients) as [[i2 ss2]|] eqn:Hrest; [|done].
    simpl in Ha. injection Ha as <- <-.
    destruct (topn_newSession_file_index _ _ _ _ _ _ Hnew)
      as (base & Hbase & Hname & Hcount).
    rewrite wrap32_small in Hname, Hcount by lia.
    assert (Topn.filebase i1 = Topn.filebase i) as Hfb.
    { unfold Topn.newSession in Hnew. rewrite Hbase in Hnew. simpl in Hnew.
      destruct (wrap32 (Topn.topN i + 1) <? 0); [done|].
      by injection Hnew as <- _. }
    destruct (IH i1 i2 ss2) as (Hlen & Hs & Hfb2 & Hnames);
      [lia | lia | done |].
    split; [simpl; by rewrite Hlen|]. split; [lia|].
    split; [congruence|].
    intros [|k] s Hk; simpl in Hk.
    + simplify_eq. exists base. split; [done|]. rewrite Hname.
      f_equal. lia.
    + destruct (Hnames k s Hk) as (base' & Hb' & Hn').
      exists base'. split; [congruence|]. rewrite Hn'. f_equal. lia.
Qed.

(** X5.  Sessions attached one after the other to a tracker get file
    names that differ from one another: the k-th one (from 0) is named
    after the counter plus k plus 1. *)
Theorem topn_file_names_distinct (i i' : Topn.TOPN_INSTANCE)
    (clients : list (option string * option string * Topn.timeval))
    (ss : list Topn.TOPN_SESSION) :
  0 <= Topn.sessions i ->
  Topn.sessions i + Z.of_nat (length clients) < 2 ^ 31 ->
  Topn.attach i clients = Some (i', ss) ->
  NoDup (Topn.filename <$> ss) /\
  forall k s, ss !! k = Some s ->
    exists base,
      Topn.filebase i = Some base /\
      Topn.filename s =
        Topn.file_name base (Topn.sessions i + Z.of_nat k + 1).
Proof.
  intros Hn Hb Ha.
  destruct (topn_attach_names i i' clients ss Hn Hb Ha)
    as (_ & _ & _ & Hnames).
  split; [|done].
  apply NoDup_alt. intros j k name Hj Hk.
  apply list_lookup_fmap_Some in Hj as (sj & -> & Hj).
  apply list_lookup_fmap_Some in Hk as (sk & Hname & Hk).
  destruct (Hnames j sj Hj) as (base & Hbase & Hnj).
  destruct (Hnames k sk Hk) as (base' & Hbase' & Hnk).
  assert (base' = base) as -> by congruence.
  rewrite Hnj, Hnk in Hname. apply file_name_inj in Hname. lia.
Qed.

Lemma qla_newSession_counter (i i' : Qla.QLA_INSTANCE) r u can_open fs s
    fs' :
  Qla.newSession i r u can_open fs = Some (i', s, fs') ->
  Qla.sessions i' = wrap32 (Qla.sessions i + 1) /\
  Qla.filebase i' = Qla.filebase i.
Proof.
  unfold Qla.newSession. intros Hn.
  destruct (Qla.filebase i) as [base|] eqn:Hbase; [|done]. simpl in Hn.
  destruct (negb _), can_open; injection Hn as <- _ _; by split.
Qed.

Lemma qla_attach_names (i i' : Qla.QLA_INSTANCE) clients fs ss fs' :
  0 <= Qla.sessions i ->
  Qla.sessions i + Z.of_nat (length clients) < 2 ^ 31 ->
  Qla.attach i clients fs = Some (i', ss, fs') ->
  length ss = length clients /\
  Qla.sessions i' = Qla.sessions i + Z.of_nat (length clients) /\
  forall k s, ss !! k = Some (Some s) ->
    exists base,
      Qla.filebase i = Some base /\
      Qla.filename s = Qla.file_name base (Qla.sessions i + Z.of_nat k).
Proof.
  revert i i' fs ss fs'. induction clients as [|[[r u] o] clients IH];
    intros i i' fs ss fs' Hn Hb Ha; simpl in *.
  - simplify_eq. repeat split; try lia. intros k s Hk. done.
  - destruct (Qla.newSession i r u o fs) as [[[i1 s1] fs1]|] eqn:Hnew;
      [|done].
    simpl in Ha.
    destruct (Qla.attach i1 clients fs1) as [[[i2 ss2] fs2]|] eqn:Hrest;
      [|done].
    simpl in Ha. injection Ha as <- <- <-.
    destruct (qla_newSession_counter _ _ _ _ _ _ _ _ Hnew) as [Hcount Hfb].
    rewrite wrap32_small in Hcount by lia.
    destruct (IH i1 i2 fs1 ss2 fs2) as (Hlen & Hs & Hnames);
      [lia | lia | done |].
    split; [simpl; by rewrite Hlen|]. split; [lia|].
    intros [|k] s Hk; simpl in Hk.
    + simplify_eq.
      destruct (qla_newSession_file_index _ _ _ _ _ _ _ _ Hnew)
        as (base & Hbase & Hname & _).
      exists base. split; [done|]. rewrite Hname. f_equal. lia.
    + destruct (Hnames k s Hk) as (base' & Hb' & Hn').
      exists base'. split; [congruence|]. rewrite Hn'. f_equal. lia.
Qed.

(** X6.  Sessions attached one after the other to a logger get file names
    that differ from one another: the k-th call (from 0) names its file
    after the counter plus k, and a call whose file cannot be opened
    still uses up its number. *)
Theorem qla_file_names_distinct (i i' : Qla.QLA_INSTANCE)
    (clients : list (option string * option string * bool))
    (fs fs' : gmap string string) (ss : list (option Qla.QLA_SESSION)) :
  0 <= Qla.sessions i ->
  Qla.sessions i + Z.of_nat (length clients) < 2 ^ 31 ->
  Qla.attach i clients fs = Some (i', ss, fs') ->
  Qla.sessions i' = Qla.sessions i + Z.of_nat (length clients) /\
  (forall j k sj sk,
     ss !! j = Some (Some sj) -> ss !! k = Some (Some sk) ->
     Qla.filename sj = Qla.filename sk -> j = k) /\
  forall k s, ss !! k = Some (Some s) ->
    exists base,
      Qla.filebase i = Some base /\
      Qla.filename s = Qla.file_name base (Qla.sessions i + Z.of_nat k).
Proof.
  intros Hn Hb Ha.
  destruct (qla_attach_names i i' clients fs ss fs' Hn Hb Ha)
    as (_ & Hcount & Hnames).
  split; [done|]. split; [|done].
  intros j k sj sk Hj Hk Hname.
  destruct (Hnames j sj Hj) as (base & Hbase & Hnj).
  destruct (Hnames k sk Hk) as (base' & Hbase' & Hnk).
  assert (base' = base) as -> by congruence.
  rewrite Hnj, Hnk in Hname. apply file_name_inj in Hname. lia.
Qed.

End FileNames.

(** X5 on the demo host: three clients on a fresh tracker. *)
Lemma topn_file_names_distinct_witness :
  NoDup (Topn.filename <$>
           [Demo.topn_session "10.0.0.1" 1;
            Topn.set_ranking
              {| Topn.active := 0; Topn.clientHost := Some "10.0.0.9";
                 Topn.userName := None; Topn.filename := "/tmp/top.2";
                 Topn.start := Topn.zero_time; Topn.current := None;
                 Topn.top := []; Topn.n_statements := 0;
                 Topn.total := Topn.zero_time;
                 Topn.connect := Demo.at_time 101 0;
                 Topn.disconnect := Topn.zero_time |}
              Topn.zero_time (Topn.top (Demo.topn_session "" 0))]) /\
  forall k s,
    [Demo.topn_session "10.0.0.1" 1;
     Topn.set_ranking
       {| Topn.active := 0; Topn.clientHost := Some "10.0.0.9";
          Topn.userName := None; Topn.filename := "/tmp/top.2";
          Topn.start := Topn.zero_time; Topn.current := None;
          Topn.top := []; Topn.n_statements := 0;
          Topn.total := Topn.zero_time;
          Topn.connect := Demo.at_time 101 0;
          Topn.disconnect := Topn.zero_time |}
       Topn.zero_time (Topn.top (Demo.topn_session "" 0))] !! k = Some s ->
    exists base,
      Topn.filebase Demo.topn_instance = Some base /\
      Topn.filename s =
        Topn.file_name base
          (Topn.sessions Demo.topn_instance + Z.of_nat k + 1).
Proof.
  apply (topn_file_names_distinct (H0 := Demo.regex) Demo.topn_instance
           (Topn.set_sessions Demo.topn_instance 2)
           [(Some "10.0.0.1", Some "alice", Demo.at_time 100 0);
            (Some "10.0.0.9", None, Demo.at_time 101 0)]).
  - simpl. lia.
  - simpl. lia.
  - reflexivity.
Defined.

(** X6 on the demo host: a client whose file opens, one whose file does
    not, and one that does not match the source filter. *)
Lemma qla_file_names_distinct_witness :
  exists i' ss fs',
    Qla.attach Demo.qla_instance
      [(Some "10.0.0.1", Some "alice", true);
       (Some "10.0.0.1", Some "bob", false);
       (Some "10.0.0.9", Some "carol", true)] ∅ = Some (i', ss, fs') /\
    Qla.sessions i' = Qla.sessions Demo.qla_instance + Z.of_nat 3 /\
    (forall j k sj sk,
       ss !! j = Some (Some sj) -> ss !! k = Some (Some sk) ->
       Qla.filename sj = Qla.filename sk -> j = k) /\
    forall k s, ss !! k = Some (Some s) ->
      exists base,
        Qla.filebase Demo.qla_instance = Some base /\
        Qla.filename s =
          Qla.file_name base (Qla.sessions Demo.qla_instance + Z.of_nat k).
Proof.
  destruct (Qla.attach (H0 := Demo.regex) Demo.qla_instance
              [(Some "10.0.0.1", Some "alice", true);
               (Some "10.0.0.1", Some "bob", false);
               (Some "10.0.0.9", Some "carol", true)] ∅)
    as [[[i' ss] fs']|] eqn:Ha; [|by vm_compute in Ha].
  exists i', ss, fs'. split; [done|].
  apply (qla_file_names_distinct (H0 := Demo.regex) Demo.qla_instance i'
           [(Some "10.0.0.1", Some "alice", true);
            (Some "10.0.0.1", Some "bob", false);
            (Some "10.0.0.9", Some "carol", true)] ∅ fs' ss).
  - simpl. lia.
  - simpl. lia.
  - exact Ha.
Defined.

(* --------------------------------------------------------------------- *)
(** *** The logger's file over a whole session *)

Lemma string_app_assoc (a b c : string) : (a +:+ b) +:+ c = a +:+ (b +:+ c).
Proof.
  induction a as [|x a IH]; [done|].
  change (String x ((a +:+ b) +:+ c) = String x (a +:+ (b +:+ c))).
  by f_equal.
Qed.

Section QlaTranscript.
Context `{Host} `{Regex}.

Lemma qla_routeQuery_logged (i : Qla.QLA_INSTANCE) (s : Qla.QLA_SESSION)
    (q : GWBUF) (now : Z) (fs : gmap string string) (stream u r : string) :
  Qla.active s <> 0 ->
  Qla.fp s = Some stream -> Qla.user s = Some u -> Qla.remote s = Some r ->
  Qla.compiled i = true ->
  Qla.routeQuery i s q now fs =
    Some (if Qla.logged i q
          then Qla.fprintf stream
                 (Qla.log_line (strftime_FT now) u r
                    (trim (squeeze_whitespace
                       (default "" (modutil_get_SQL (contiguous q)))))) fs
          else fs,
          contiguous q).
Proof.
  intros Ha Hfp Hu Hr Hc.
  unfold Qla.routeQuery, Qla.logged, Qla.regexec_field, Qla.compiled in *.
  destruct (Z.eqb_spec (Qla.active s) 0) as [?|_]; [done|]. simpl.
  destruct (modutil_get_SQL (contiguous q)) as [ptr|]; [|done].
  rewrite Hfp, Hu, Hr. simpl.
  destruct (Qla.match_ i), (Qla.re i) as [c|], (Qla.nomatch i),
    (Qla.nore i) as [c'|]; simpl in *; try done;
    try (destruct (regexec c ptr); simpl; try done);
    try (destruct (regexec c' ptr); simpl; done).
Qed.

(** X7.  Over a whole active session of a checked logger, the session's
    file grows by the lines of the logged requests, in arrival order, and
    by nothing else; no other file changes; and every request, logged or
    not, goes downstream in arrival order. *)
Theorem qla_file_is_the_transcript (i : Qla.QLA_INSTANCE)
    (s : Qla.QLA_SESSION) (requests : list (GWBUF * Z))
    (fs : gmap string string) (stream u r text : string) :
  Qla.active s <> 0 ->
  Qla.fp s = Some stream -> Qla.user s = Some u -> Qla.remote s = Some r ->
  Qla.compiled i = true ->
  fs !! stream = Some text ->
  exists fs',
    Qla.run i s requests fs = Some (fs', contiguous <$> requests.*1) /\
    fs' !! stream = Some (text +:+ Qla.transcript i u r requests) /\
    forall f, f <> stream -> fs' !! f = fs !! f.
Proof.
  intros Ha Hfp Hu Hr Hc. revert fs text.
  induction requests as [|[q now] requests IH]; intros fs text Hf; simpl.
  - exists fs. by rewrite append_empty_r.
  - rewrite (qla_routeQuery_logged i s q now fs stream u r) by done.
    simpl. destruct (Qla.logged i q) eqn:Hl.
    + destruct (IH (Qla.fprintf stream
                      (Qla.log_line (strftime_FT now) u r
                         (trim (squeeze_whitespace
                            (default "" (modutil_get_SQL (contiguous q))))))
                      fs)
                  (text +:+
                     Qla.log_line (strftime_FT now) u r
                       (trim (squeeze_whitespace
                          (default "" (modutil_get_SQL (contiguous q)))))))
        as (fs' & Hrun & Hs & Ho).
      { unfold Qla.fprintf. by rewrite lookup_insert_eq, Hf. }
      exists fs'. rewrite Hrun. simpl. split; [done|]. split.
      * by rewrite Hs, string_app_assoc.
      * intros f Hne. rewrite (Ho f Hne). unfold Qla.fprintf.
        by rewrite lookup_insert_ne.
    + destruct (IH fs text Hf) as (fs' & Hrun & Hs & Ho).
      exists fs'. rewrite Hrun. simpl. done.
Qed.

End QlaTranscript.

(** X7 on the demo host: a logged statement and one that is not SQL. *)
Lemma qla_file_is_the_transcript_witness :
  exists fs',
    Qla.run (H := Demo.host) Demo.qla_instance Demo.qla_session
      [(Demo.packet "SELECT 1 FROM t", 5); (Demo.packet "", 6)]
      {[ "/tmp/qla.0" := "" ]} =
      Some (fs',
            contiguous <$>
              [(Demo.packet "SELECT 1 FROM t", 5); (Demo.packet "", 6)].*1) /\
    fs' !! "/tmp/qla.0" =
      Some ("" +:+
            Qla.transcript (H := Demo.host) Demo.qla_instance "alice"
              "10.0.0.1"
              [(Demo.packet "SELECT 1 FROM t", 5); (Demo.packet "", 6)]) /\
    forall f, f <> "/tmp/qla.0" ->
      fs' !! f = ({[ "/tmp/qla.0" := "" ]} : gmap string string) !! f.
Proof.
  apply (qla_file_is_the_transcript (H := Demo.host) (H0 := Demo.regex)
           Demo.qla_instance Demo.qla_session
           [(Demo.packet "SELECT 1 FROM t", 5); (Demo.packet "", 6)]
           {[ "/tmp/qla.0" := "" ]} "/tmp/qla.0" "alice" "10.0.0.1" "").
  - vm_compute. discriminate.
  - reflexivity.
  - reflexivity.
  - reflexivity.
  - reflexivity.
  - reflexivity.
Defined.

(* --------------------------------------------------------------------- *)
(** *** The hysteresis filter over a whole session *)

Section CcrSessions.
Context `{Host} `{Regex}.

(** The four things one [routeQuery] call can do. *)
Lemma ccr_routeQuery_step (i i1 : Ccr.CCR_INSTANCE) (s s1 : Ccr.CCR_SESSION)
    (q out : GWBUF) (now : Z) :
  Ccr.routeQuery i s q now = Some (i1, s1, out) ->
  Ccr.same_config i i1 /\
  gwbuf_content out = gwbuf_content q /\
  (modutil_is_SQL q = false -> out = q) /\
  ((Ccr.stats i1 = Ccr.stats i /\ s1 = s /\ hint out = hint q) \/
   (Ccr.stats i1 = Ccr.stats (Ccr.bump_modified i) /\
    Ccr.hints_left s1 = Ccr.count i /\ hint out = hint q) \/
   (Ccr.stats i1 = Ccr.stats (Ccr.bump_add_count i) /\
    0 < Ccr.hints_left s /\
    Ccr.hints_left s1 = Ccr.hints_left s - 1 /\
    hint out = hint_create_route (hint q) HINT_ROUTE_TO_MASTER None) \/
   (Ccr.stats i1 = Ccr.stats (Ccr.bump_add_time i) /\ s1 = s /\
    hint out = hint_create_route (hint q) HINT_ROUTE_TO_MASTER None)).
Proof.
  unfold Ccr.routeQuery. intros Hr.
  destruct (contiguous_content q) as (Hcontent & Hhint & _).
  destruct (modutil_is_SQL q).
  - destruct (negb _).
    + split; [by apply ccr_modification_rule_cases in Hr as (? & _)|].
      unfold Ccr.modification_rule in Hr.
      repeat (case_match; simplify_option_eq);
        (split; [done|]); (split; [done|]); rewrite Hhint; auto.
    + injection Hr as Hr.
      split; [by apply ccr_read_rule_cases in Hr as (? & _)|].
      unfold Ccr.read_rule in Hr.
      destruct (Z.ltb_spec 0 (Ccr.hints_left s)).
      * injection Hr as <- <- <-. simpl.
        split; [done|]. split; [done|]. rewrite Hhint.
        right. right. left. done.
      * destruct (_ <? _); injection Hr as <- <- <-; simpl;
          (split; [done|]); (split; [done|]); rewrite Hhint; auto.
        right. right. right. done.
  - injection Hr as <- <- <-.
    split; [apply same_config_refl|]. split; [done|]. split; [done|].
    left. done.
Qed.

(** X8.  Whatever the requests and the clock, a session of a filter whose
    patterns compiled passes every request downstream, in arrival order,
    with the bytes it came with; the hints are those it came with, or
    those with one route-to-master hint in front; a request that is not
    SQL is passed on as it is. *)
Theorem ccr_forwards_every_request (i : Ccr.CCR_INSTANCE)
    (s : Ccr.CCR_SESSION) (requests : list (GWBUF * Z)) :
  Ccr.compiled i = true ->
  exists i' s' outs,
    Ccr.run i s requests = Some (i', s', outs) /\
    Forall2
      (fun (r : GWBUF * Z) out =>
         gwbuf_content out = gwbuf_content r.1 /\
         (hint out = hint r.1 \/
          hint out = hint_create_route (hint r.1) HINT_ROUTE_TO_MASTER None) /\
         (modutil_is_SQL r.1 = false -> out = r.1))
      requests outs.
Proof.
  revert i s. induction requests as [|[q now] rest IH]; intros i s Hc.
  - exists i, s, []. split; [done|]. constructor.
  - destruct (ccr_routeQuery_total i s q now Hc) as [[[i1 s1] q1] Hr].
    destruct (ccr_routeQuery_step _ _ _ _ _ _ _ Hr)
      as (Hcfg & Hcontent & Hsql & Hcases).
    destruct (IH i1 s1) as (i' & s' & outs & Hrun & Hall).
    { by rewrite (same_config_compiled _ _ Hcfg). }
    exists i', s', (q1 :: outs). simpl. rewrite Hr. simpl. rewrite Hrun.
    split; [done|]. constructor; [|done]. simpl.
    split; [done|]. split; [|done].
    destruct Hcases as [(_ & _ & ->)|[(_ & _ & ->)|[(_ & _ & _ & ->)|
      (_ & _ & ->)]]]; auto.
Qed.

(** X9.  While no total overflows, the two hint totals of the statistics
    count the hints the filter added: over any sequence of requests the
    buffers sent downstream carry as many hints more than the requests as
    the by-count and by-time totals went up; and in a filter whose count
    is not negative, the by-count total goes up by no more than the hints
    left at the start plus count times the number of data modifications
    recorded. *)
Theorem ccr_statistics_count_the_hints (i : Ccr.CCR_INSTANCE)
    (s : Ccr.CCR_SESSION) (requests : list (GWBUF * Z)) :
  Ccr.compiled i = true ->
  0 <= Ccr.n_add_count (Ccr.stats i) ->
  0 <= Ccr.n_add_time (Ccr.stats i) ->
  0 <= Ccr.n_modified (Ccr.stats i) ->
  Ccr.n_add_count (Ccr.stats i) + Z.of_nat (length requests) < 2 ^ 31 ->
  Ccr.n_add_time (Ccr.stats i) + Z.of_nat (length requests) < 2 ^ 31 ->
  Ccr.n_modified (Ccr.stats i) + Z.of_nat (length requests) < 2 ^ 31 ->
  exists i' s' outs,
    Ccr.run i s requests = Some (i', s', outs) /\
    Ccr.same_config i i' /\
    0 <= Ccr.n_add_count (Ccr.stats i') - Ccr.n_add_count (Ccr.stats i)
      <= Z.of_nat (length requests) /\
    0 <= Ccr.n_add_time (Ccr.stats i') - Ccr.n_add_time (Ccr.stats i)
      <= Z.of_nat (length requests) /\
    0 <= Ccr.n_modified (Ccr.stats i') - Ccr.n_modified (Ccr.stats i)
      <= Z.of_nat (length requests) /\
    Ccr.hints_carried outs - Ccr.hints_carried requests.*1 =
      (Ccr.n_add_count (Ccr.stats i') - Ccr.n_add_count (Ccr.stats i)) +
      (Ccr.n_add_time (Ccr.stats i') - Ccr.n_add_time (Ccr.stats i)) /\
    (0 <= Ccr.count i -> 0 <= Ccr.hints_left s ->
     0 <= Ccr.hints_left s' /\
     Ccr.n_add_count (Ccr.stats i') - Ccr.n_add_count (Ccr.stats i)
       + Ccr.hints_left s' <=
     Ccr.hints_left s +
       Ccr.count i *
         (Ccr.n_modified (Ccr.stats i') - Ccr.n_modified (Ccr.stats i))).
Proof.
  revert i s. induction requests as [|[q now] rest IH];
    intros i s Hc Ha Ht Hm Hab Htb Hmb.
  - exists i, s, []. simpl. split; [done|].
    split; [apply same_config_refl|]. repeat (split; [lia|]).
    intros. lia.
  - simpl length in *.
    destruct (ccr_routeQuery_total i s q now Hc) as [[[i1 s1] q1] Hr].
    destruct (ccr_routeQuery_step _ _ _ _ _ _ _ Hr)
      as (Hcfg & _ & _ & Hcases).
    assert (Ccr.count i1 = Ccr.count i) as Hcount
      by (by destruct Hcfg as (_ & _ & _ & -> & _)).
    assert (exists a t m,
              Ccr.n_add_count (Ccr.stats i1)
                = Ccr.n_add_count (Ccr.stats i) + a /\
              Ccr.n_add_time (Ccr.stats i1)
                = Ccr.n_add_time (Ccr.stats i) + t /\
              Ccr.n_modified (Ccr.stats i1)
                = Ccr.n_modified (Ccr.stats i) + m /\
              Z.of_nat (length (hint q1))
                = Z.of_nat (length (hint q)) + a + t /\
              ((a = 0 /\ t = 0 /\ m = 0 /\
                Ccr.hints_left s1 = Ccr.hints_left s) \/
               (a = 0 /\ t = 0 /\ m = 1 /\
                Ccr.hints_left s1 = Ccr.count i) \/
               (a = 1 /\ t = 0 /\ m = 0 /\ 0 < Ccr.hints_left s /\
                Ccr.hints_left s1 = Ccr.hints_left s - 1) \/
               (a = 0 /\ t = 1 /\ m = 0 /\
                Ccr.hints_left s1 = Ccr.hints_left s)))
      as (a & t & m & Ha1 & Ht1 & Hm1 & Hh1 & Hstep).
    { destruct Hcases as [(-> & -> & ->)|[(-> & Hl & ->)|
        [(-> & Hpos & Hl & ->)|(-> & -> & ->)]]].
      - exists 0, 0, 0. repeat (split; [lia|]). left. done.
      - exists 0, 0, 1. simpl. rewrite wrap32_small by lia.
        repeat (split; [lia|]). right. left. done.
      - exists 1, 0, 0. simpl. rewrite wrap32_small by lia.
        repeat (split; [lia|]). right. right. left. done.
      - exists 0, 1, 0. simpl. rewrite wrap32_small by lia.
        repeat (split; [lia|]). right. right. right. done. }
    destruct (IH i1 s1)
      as (i' & s' & outs & Hrun & Hcfg' & Ha' & Ht' & Hm' & Hh' & Hb');
      [by rewrite (same_config_compiled _ _ Hcfg) | lia..|].
    exists i', s', (q1 :: outs). simpl. rewrite Hr. simpl. rewrite Hrun.
    split; [done|]. split; [by eapply same_config_trans|].
    change (list_fmap (GWBUF * Z)%type GWBUF fst rest) with (rest.*1).
    rewrite Hcount in Hb'.
    destruct Hstep as [(-> & -> & -> & Hl)|[(-> & -> & -> & Hl)|
      [(-> & -> & -> & Hpos & Hl)|(-> & -> & -> & Hl)]]];
      (split; [lia|]); (split; [lia|]); (split; [lia|]); (split; [lia|]);
      intros Hcn Hs; specialize (Hb' ltac:(lia) ltac:(lia));
      destruct Hb' as [Hs' Hb']; (split; [done|]); rewrite Hm1 in Hb'; lia.
Qed.

End CcrSessions.

(** X8 on the demo host: a write, a read and a packet that is not SQL. *)
Lemma ccr_forwards_every_request_witness :
  exists i' s' outs,
    Ccr.run (H := Demo.host) Demo.ccr_instance
      (Ccr.newSession Demo.ccr_instance)
      [(Demo.packet "INSERT INTO t VALUES (1)", 10);
       (Demo.packet "SELECT a FROM t", 11); (Demo.packet "", 12)] =
      Some (i', s', outs) /\
    Forall2
      (fun (r : GWBUF * Z) out =>
         gwbuf_content out = gwbuf_content r.1 /\
         (hint out = hint r.1 \/
          hint out = hint_create_route (hint r.1) HINT_ROUTE_TO_MASTER None) /\
         (modutil_is_SQL (Host := Demo.host) r.1 = false -> out = r.1))
      [(Demo.packet "INSERT INTO t VALUES (1)", 10);
       (Demo.packet "SELECT a FROM t", 11); (Demo.packet "", 12)] outs.
Proof.
  apply (ccr_forwards_every_request (H := Demo.host) (H0 := Demo.regex)
           Demo.ccr_instance (Ccr.newSession Demo.ccr_instance)
           [(Demo.packet "INSERT INTO t VALUES (1)", 10);
            (Demo.packet "SELECT a FROM t", 11); (Demo.packet "", 12)]).
  reflexivity.
Defined.

(** X9 on the demo host: a write followed by four reads, the last of them
    after the time window. *)
Lemma ccr_statistics_count_the_hints_witness :
  exists i' s' outs,
    Ccr.run (H := Demo.host) Demo.ccr_instance
      (Ccr.newSession Demo.ccr_instance)
      [(Demo.packet "INSERT INTO t VALUES (1)", 10);
       (Demo.packet "SELECT a FROM t", 11);
       (Demo.packet "SELECT b FROM t", 12);
       (Demo.packet "SELECT c FROM t", 13);
       (Demo.packet "SELECT d FROM t", 100)] = Some (i', s', outs) /\
    Ccr.same_config Demo.ccr_instance i' /\
    0 <= Ccr.n_add_count (Ccr.stats i') - 0 <= 5 /\
    0 <= Ccr.n_add_time (Ccr.stats i') - 0 <= 5 /\
    0 <= Ccr.n_modified (Ccr.stats i') - 0 <= 5 /\
    Ccr.hints_carried outs - 0 =
      (Ccr.n_add_count (Ccr.stats i') - 0) +
      (Ccr.n_add_time (Ccr.stats i') - 0) /\
    (0 <= 2 -> 0 <= 0 ->
     0 <= Ccr.hints_left s' /\
     Ccr.n_add_count (Ccr.stats i') - 0 + Ccr.hints_left s' <=
     0 + 2 * (Ccr.n_modified (Ccr.stats i') - 0)).
Proof.
  apply (ccr_statistics_count_the_hints (H := Demo.host) (H0 := Demo.regex)
           Demo.ccr_instance (Ccr.newSession Demo.ccr_instance)
           [(Demo.packet "INSERT INTO t VALUES (1)", 10);
            (Demo.packet "SELECT a FROM t", 11);
            (Demo.packet "SELECT b FROM t", 12);
            (Demo.packet "SELECT c FROM t", 13);
            (Demo.packet "SELECT d FROM t", 100)]).
  - reflexivity.
  - simpl. lia.
  - simpl. lia.
  - simpl. lia.
  - simpl. lia.
  - simpl. lia.
  - simpl. lia.
Defined.

(* --------------------------------------------------------------------- *)
(** *** The constructors of the logger and of the tracker *)

Section Constructors.
Context `{Host} `{Regex}.

(** X10.  The logger's constructor is all or nothing on parameters that
    are each given once: either it returns an instance, and then every
    parameter and option was known, [filebase] is set and every pattern
    given has its compiled form; or it returns [NULL], and then nothing it
    allocated is left. *)
Theorem qla_createInstance_all_or_nothing (options : list string)
    (params : list FILTER_PARAMETER) :
  NoDup (name <$> params) ->
  match instance (Qla.createInstance options params) with
  | Some i =>
      forallb Qla.recognized params = true /\
      forallb supported_option options = true /\
      is_Some (Qla.filebase i) /\ Qla.compiled i = true
  | None => live (Qla.createInstance options params) = []
  end.
Proof.
  intros Hnd.
  destruct (instance (Qla.createInstance options params)) as [i|] eqn:Hi.
  - by apply qla_createInstance_checked.
  - by apply qla_createInstance_releases.
Qed.

(** X11.  The tracker's constructor is all or nothing in the same way. *)
Theorem topn_createInstance_all_or_nothing (options : list string)
    (params : list FILTER_PARAMETER) :
  NoDup (name <$> params) ->
  match instance (Topn.createInstance options params) with
  | Some i =>
      forallb Topn.recognized params = true /\
      forallb supported_option options = true /\
      is_Some (Topn.filebase i) /\ Topn.compiled i = true
  | None => live (Topn.createInstance options params) = []
  end.
Proof.
  intros Hnd.
  destruct (instance (Topn.createInstance options params)) as [i|] eqn:Hi.
  - by apply topn_createInstance_checked.
  - by apply topn_createInstance_releases.
Qed.

End Constructors.

(** X10 on the demo host: a pattern that does not compile. *)
Lemma qla_createInstance_all_or_nothing_witness :
  live (Qla.createInstance (H := Demo.host) (H0 := Demo.regex) ["case"]
          [Demo.param "filebase" "/tmp/f"; Demo.param "source" "10.0.0.1";
           Demo.param "exclude" "["]) = [].
Proof.
  apply (qla_createInstance_all_or_nothing (H := Demo.host)
           (H0 := Demo.regex) ["case"]
           [Demo.param "filebase" "/tmp/f"; Demo.param "source" "10.0.0.1";
            Demo.param "exclude" "["]).
  apply (bool_decide_unpack _). reflexivity.
Defined.

(** X11 on the demo host: a good configuration. *)
Lemma topn_createInstance_all_or_nothing_witness :
  forallb (Topn.recognized (H := Demo.host))
    [Demo.param "filebase" "/tmp/f"; Demo.param "count" "3";
     Demo.param "match" "FROM"] = true /\
  forallb supported_option ["ignorecase"] = true /\
  is_Some (Topn.filebase
             {| Topn.sessions := 0; Topn.topN := 3;
                Topn.filebase := Some "/tmp/f"; Topn.source := None;
                Topn.user := None; Topn.match_ := Some "FROM";
                Topn.re := regcomp (Regex := Demo.regex) "FROM" REG_ICASE;
                Topn.exclude := None; Topn.exre := None |}) /\
  Topn.compiled
    {| Topn.sessions := 0; Topn.topN := 3;
       Topn.filebase := Some "/tmp/f"; Topn.source := None;
       Topn.user := None; Topn.match_ := Some "FROM";
       Topn.re := regcomp (Regex := Demo.regex) "FROM" REG_ICASE;
       Topn.exclude := None; Topn.exre := None |} = true.
Proof.
  apply (topn_createInstance_all_or_nothing (H := Demo.host)
           (H0 := Demo.regex) ["ignorecase"]
           [Demo.param "filebase" "/tmp/f"; Demo.param "count" "3";
            Demo.param "match" "FROM"]).
  apply (bool_decide_unpack _). reflexivity.
Defined.

(* --------------------------------------------------------------------- *)
(** *** The statement counter *)

Section TestfilterCounting.
Context `{Host}.

Lemma testfilter_run_counts (s : Testfilter.TEST_SESSION)
    (requests : list GWBUF) :
  0 <= Testfilter.count s ->
  Testfilter.count s + Z.of_nat (length requests) < 2 ^ 31 ->
  (Testfilter.run s requests).2 = requests /\
  Testfilter.count (Testfilter.run s requests).1 =
    Testfilter.count s +
    Z.of_nat (length (List.filter modutil_is_SQL requests)).
Proof.
  revert s. induction requests as [|q rest IH]; intros s Hs Hb.
  - simpl. split; [done | lia].
  - simpl length in Hb. cbn [Testfilter.run Testfilter.routeQuery].
    cbn [List.filter].
    destruct (modutil_is_SQL q).
    + destruct (IH {| Testfilter.count :=
                        wrap32 (Testfilter.count s + 1) |})
        as [Hout Hcount].
      { simpl. rewrite wrap32_small by lia. lia. }
      { simpl. rewrite wrap32_small by lia. lia. }
      destruct (Testfilter.run _ rest) as [s' outs]. simpl in *.
      split; [by f_equal|]. rewrite Hcount, wrap32_small by lia. lia.
    + destruct (IH s) as [Hout Hcount]; [lia | lia |].
      destruct (Testfilter.run s rest) as [s' outs]. simpl in *.
      split; [by f_equal | done].
Qed.

Lemma testfilter_attach_counts (i : Testfilter.TEST_INSTANCE) (n : nat) :
  0 <= Testfilter.sessions i ->
  Testfilter.sessions i + Z.of_nat n < 2 ^ 31 ->
  Testfilter.sessions (Testfilter.attach i n) =
    Testfilter.sessions i + Z.of_nat n.
Proof.
  revert i. induction n as [|n IH]; intros i Hi Hb; simpl.
  - lia.
  - rewrite IH; simpl; rewrite wrap32_small by lia; lia.
Qed.

(** X12.  What [diagnostic] of the statement counter prints is right
    while the counters do not overflow: for the instance, the number of
    sessions attached since it was created; for a session, the number of
    its requests that were SQL.  Every request goes downstream as it
    came, in arrival order. *)
Theorem testfilter_diagnostic_counts (options : list string)
    (params : list FILTER_PARAMETER) (n : nat) (requests : list GWBUF) :
  Z.of_nat n < 2 ^ 31 ->
  Z.of_nat (length requests) < 2 ^ 31 ->
  let i := Testfilter.attach (Testfilter.createInstance options params) n in
  let r := Testfilter.run (Testfilter.newSession i).2 requests in
  Testfilter.diagnostic i None = Testfilter.SessionsCreated (Z.of_nat n) /\
  Testfilter.diagnostic (Testfilter.newSession i).1 (Some r.1) =
    Testfilter.QueriesRouted
      (Z.of_nat (length (List.filter modutil_is_SQL requests))) /\
  r.2 = requests.
Proof.
  intros Hn Hr i r. split; [|split].
  - unfold Testfilter.diagnostic, i. f_equal.
    rewrite testfilter_attach_counts; simpl; lia.
  - unfold Testfilter.diagnostic, r. f_equal.
    destruct (testfilter_run_counts (Testfilter.newSession i).2 requests)
      as [_ ->]; simpl; lia.
  - unfold r.
    destruct (testfilter_run_counts (Testfilter.newSession i).2 requests)
      as [-> _]; simpl; [lia | lia | done].
Qed.

End TestfilterCounting.

(** X12 on the demo host: two sessions, then three requests of which two
    are SQL. *)
Lemma testfilter_diagnostic_counts_witness :
  let i := Testfilter.attach (Testfilter.createInstance [] []) 2 in
  let r := Testfilter.run (H := Demo.host) (Testfilter.newSession i).2
             [Demo.packet "SELECT 1"; Demo.packet "";
              Demo.packet "INSERT INTO t VALUES (1)"] in
  Testfilter.diagnostic i None = Testfilter.SessionsCreated (Z.of_nat 2) /\
  Testfilter.diagnostic (Testfilter.newSession i).1 (Some r.1) =
    Testfilter.QueriesRouted
      (Z.of_nat (length
         (List.filter (modutil_is_SQL (Host := Demo.host))
            [Demo.packet "SELECT 1"; Demo.packet "";
             Demo.packet "INSERT INTO t VALUES (1)"]))) /\
  r.2 = [Demo.packet "SELECT 1"; Demo.packet "";
         Demo.packet "INSERT INTO t VALUES (1)"].
Proof.
  apply (testfilter_diagnostic_counts (H := Demo.host) [] [] 2
           [Demo.packet "SELECT 1"; Demo.packet "";
            Demo.packet "INSERT INTO t VALUES (1)"]).
  - simpl. lia.
  - simpl. lia.
Defined.

(* --------------------------------------------------------------------- *)
(** *** The debug command line router *)

Lemma debugcli_filter_absent (c : nat) (chain : list nat) :
  c ∉ chain -> filter (fun x => x <> c) chain = chain.
Proof.
  induction chain as [|x chain IH]; intros Hc; [done|].
  apply not_elem_of_cons in Hc as [Hx Hc].
  rewrite filter_cons_True by done. by rewrite IH.
Qed.

Lemma debugcli_unlink_filter (c ptr : nat) (rest : list nat) :
  NoDup (ptr :: rest) -> ptr <> c ->
  Debugcli.unlink c (ptr :: rest) = ptr :: filter (fun x => x <> c) rest.
Proof.
  revert ptr. induction rest as [|next after IH]; intros ptr Hnd Hp.
  - done.
  - apply NoDup_cons in Hnd as [_ Hnd].
    change (Debugcli.unlink c (ptr :: next :: after))
      with (if (next =? c)%nat then ptr :: after
            else ptr :: Debugcli.unlink c (next :: after)).
    destruct (Nat.eqb_spec next c) as [->|Hne].
    + rewrite filter_cons_False by (intros Hx; by apply Hx).
      apply NoDup_cons in Hnd as [Hc _].
      by rewrite debugcli_filter_absent.
    + rewrite filter_cons_True by done. by rewrite IH.
Qed.

(** X13.  In a chain of distinct router sessions, [closeSession] takes
    the session out of the chain and nothing else: the sessions left are
    the others, in the order they had, still distinct; closing a session
    that is not in the chain changes nothing; the service and the mode of
    the instance stay. *)
Theorem debugcli_closeSession_removes (inst : Debugcli.CLI_INSTANCE)
    (c : nat) :
  NoDup (Debugcli.sessions inst) ->
  Debugcli.sessions (Debugcli.closeSession inst c) =
    filter (fun x => x <> c) (Debugcli.sessions inst) /\
  NoDup (Debugcli.sessions (Debugcli.closeSession inst c)) /\
  (c ∉ Debugcli.sessions inst -> Debugcli.closeSession inst c = inst) /\
  Debugcli.service (Debugcli.closeSession inst c) = Debugcli.service inst /\
  Debugcli.mode (Debugcli.closeSession inst c) = Debugcli.mode inst.
Proof.
  intros Hnd.
  assert (Debugcli.sessions (Debugcli.closeSession inst c) =
            filter (fun x => x <> c) (Debugcli.sessions inst)) as Hf.
  { unfold Debugcli.closeSession. simpl.
    destruct (Debugcli.sessions inst) as [|first rest] eqn:Hs; [done|].
    destruct (Nat.eqb_spec first c) as [->|Hne].
    - rewrite filter_cons_False by (intros Hx; by apply Hx).
      apply NoDup_cons in Hnd as [Hc _].
      by rewrite debugcli_filter_absent.
    - rewrite debugcli_unlink_filter by done.
      by rewrite filter_cons_True by done. }
  split; [done|]. split; [|split; [|done]].
  - rewrite Hf. by apply NoDup_filter.
  - intros Hc. destruct inst as [sv md ss].
    unfold Debugcli.closeSession in *. simpl in *. f_equal.
    rewrite Hf. by apply debugcli_filter_absent.
Qed.

(** X13 on a chain of three sessions. *)
Lemma debugcli_closeSession_removes_witness :
  let inst := {| Debugcli.service := 7%nat; Debugcli.mode := Debugcli.CLIM_USER;
                 Debugcli.sessions := [30; 20; 10]%nat |} in
  Debugcli.sessions (Debugcli.closeSession inst 20%nat) =
    filter (fun x => x <> 20%nat) (Debugcli.sessions inst) /\
  NoDup (Debugcli.sessions (Debugcli.closeSession inst 20%nat)) /\
  (20%nat ∉ Debugcli.sessions inst ->
   Debugcli.closeSession inst 20%nat = inst) /\
  Debugcli.service (Debugcli.closeSession inst 20%nat) =
    Debugcli.service inst /\
  Debugcli.mode (Debugcli.closeSession inst 20%nat) = Debugcli.mode inst.
Proof.
  apply (debugcli_closeSession_removes
           {| Debugcli.service := 7%nat; Debugcli.mode := Debugcli.CLIM_USER;
              Debugcli.sessions := [30; 20; 10]%nat |} 20%nat).
  apply (bool_decide_unpack _). reflexivity.
Defined.

Lemma debugcli_options_fold (options : list string) (m : Debugcli.CLI_MODE)
    (log : list string) :
  fold_left
    (fun '(m, log) o =>
       if strcaseeq o "developer" then (Debugcli.CLIM_DEVELOPER, log)
       else if strcaseeq o "user" then (Debugcli.CLIM_USER, log)
       else (m, log ++ ["Unknown option for CLI '" +:+ o +:+ "'"]))
    options (m, log) =
  (default m (last (omap Debugcli.mode_option options)),
   log ++ ((fun o => "Unknown option for CLI '" +:+ o +:+ "'") <$>
             List.filter Debugcli.unknown_option options)).
Proof.
  revert m log. induction options as [|o options IH]; intros m log.
  - simpl. by rewrite app_nil_r.
  - cbn [fold_left omap list_omap List.filter].
    unfold Debugcli.unknown_option, Debugcli.mode_option.
    destruct (strcaseeq o "developer"); [|destruct (strcaseeq o "user")].
    + rewrite IH, last_cons. by destruct (last _).
    + rewrite IH, last_cons. by destruct (last _).
    + rewrite IH, fmap_cons. by rewrite <- app_assoc.
Qed.

(** X14.  The debug router's constructor takes its mode from the last
    option that names one, user mode when none does; it reports every
    other option, in order, and goes on; the new instance has no session
    and is put in front of the list of instances. *)
Theorem debugcli_last_mode_option_wins
    (instances : list Debugcli.CLI_INSTANCE) (service_ : nat)
    (options : list string) :
  Debugcli.createInstance instances service_ options =
    (let inst :=
       {| Debugcli.service := service_;
          Debugcli.mode :=
            default Debugcli.CLIM_USER
              (last (omap Debugcli.mode_option options));
          Debugcli.sessions := [] |} in
     (inst, inst :: instances,
      (fun o => "Unknown option for CLI '" +:+ o +:+ "'") <$>
        List.filter Debugcli.unknown_option options)).
Proof.
  unfold Debugcli.createInstance. by rewrite debugcli_options_fold.
Qed.

Lemma string_take_empty (n : nat) : Debugcli.string_take n "" = "".
Proof. by destruct n. Qed.

Lemma string_take_length (n : nat) (s : string) :
  (String.length (Debugcli.string_take n s) <= n)%nat.
Proof.
  revert s. induction n as [|n IH]; intros [|c s]; simpl; try lia.
  specialize (IH s). lia.
Qed.

Lemma string_take_all (n : nat) (s : string) :
  (String.length s <= n)%nat -> Debugcli.string_take n s = s.
Proof.
  revert n. induction s as [|c s IH]; intros n Hn.
  - apply string_take_empty.
  - destruct n as [|n]; simpl in Hn; [lia|]. simpl. f_equal. apply IH. lia.
Qed.

Lemma string_take_app_ge (n : nat) (a b : string) :
  (String.length a <= n)%nat ->
  Debugcli.string_take n (a +:+ b) =
    a +:+ Debugcli.string_take (n - String.length a) b.
Proof.
  revert n. induction a as [|c a IH]; intros n Hn.
  - change ("" +:+ b) with b. simpl. by rewrite Nat.sub_0_r.
  - destruct n as [|n]; simpl in Hn; [lia|].
    change (String c (Debugcli.string_take n (a +:+ b)) =
            String c (a +:+ Debugcli.string_take (n - String.length a) b)).
    f_equal. apply IH. lia.
Qed.

Lemma string_take_app_le (n : nat) (a b : string) :
  (n <= String.length a)%nat ->
  Debugcli.string_take n (a +:+ b) = Debugcli.string_take n a.
Proof.
  revert n. induction a as [|c a IH]; intros n Hn.
  - simpl in Hn. assert (n = 0%nat) as -> by lia. by destruct b.
  - destruct n as [|n]; [done|]. simpl in Hn.
    change (String c (Debugcli.string_take n (a +:+ b)) =
            String c (Debugcli.string_take n a)).
    f_equal. apply IH. lia.
Qed.

Lemma has_char_take (c : ascii) (n : nat) (s : string) :
  Debugcli.has_char c s = false ->
  Debugcli.has_char c (Debugcli.string_take n s) = false.
Proof.
  revert s. induction n as [|n IH]; intros [|d s]; simpl; try done.
  intros [-> Hs]%orb_false_elim. simpl. by apply IH.
Qed.

Lemma concat_empty_cons (x : string) (xs : list string) :
  String.concat "" (x :: xs) = x +:+ String.concat "" xs.
Proof.
  destruct xs as [|y ys]; simpl.
  - by rewrite append_empty_r.
  - done.
Qed.

Section DebugcliExecute.
Variable CMDBUFLEN : Z.
Variable execute_cmd : Debugcli.CLI_SESSION -> bool.

(** The loop of [execute] copies the first bytes of the message, as many
    as still fit. *)
Lemma debugcli_extract_prefix (cmdlen : Z) (queue : list string) :
  0 <= cmdlen ->
  Forall (fun d => Debugcli.has_char zero d = false) queue ->
  exists warnings unread,
    Debugcli.extract CMDBUFLEN cmdlen queue =
      Some (Debugcli.string_take (Z.to_nat (CMDBUFLEN - 1 - cmdlen))
              (String.concat "" queue),
            warnings, unread) /\
    Forall (fun e => e = Debugcli.Warning) warnings.
Proof.
  revert cmdlen. induction queue as [|data rest IH]; intros cmdlen Hc Hz.
  - exists [], []. simpl. by rewrite string_take_empty.
  - apply Forall_cons in Hz as [Hd Hz].
    rewrite concat_empty_cons. cbn [Debugcli.extract].
    destruct (Z.ltb_spec cmdlen (CMDBUFLEN - 1)) as [Hlt|Hge].
    + rewrite (has_char_take _ _ _ Hd).
      destruct (Z.min_spec (Z.of_nat (String.length data))
                  (CMDBUFLEN - cmdlen - 1)) as [[Hlen ->]|[Hlen ->]].
      * destruct (IH (cmdlen + Z.of_nat (String.length data)))
          as (w & unread & -> & Hw); [lia | done |].
        eexists _, _. simpl. split.
        -- rewrite Nat2Z.id, string_take_app_ge by lia.
           rewrite string_take_all by lia.
           replace (Z.to_nat (CMDBUFLEN - 1 - cmdlen) - String.length data)%nat
             with (Z.to_nat (CMDBUFLEN - 1 -
                               (cmdlen + Z.of_nat (String.length data))))
             by lia.
           reflexivity.
        -- rewrite Z.eqb_refl. done.
      * destruct (IH (cmdlen + (CMDBUFLEN - cmdlen - 1)))
          as (w & unread & -> & Hw); [lia | done |].
        eexists _, _. simpl. split.
        -- replace (Z.to_nat (CMDBUFLEN - 1 -
                      (cmdlen + (CMDBUFLEN - cmdlen - 1)))) with 0%nat by lia.
           replace (CMDBUFLEN - cmdlen - 1) with (CMDBUFLEN - 1 - cmdlen)
             by lia.
           rewrite string_take_app_le by lia.
           assert (forall s, Debugcli.string_take 0 s = "") as ->
             by (by intros []).
           by rewrite append_empty_r.
        -- apply Forall_app. split; [|done]. by destruct (negb _); constructor.
    + exists [], (data :: rest). split; [|done].
      replace (Z.to_nat (CMDBUFLEN - 1 - cmdlen)) with 0%nat by lia.
      by destruct (data +:+ _).
Qed.

(** X15.  [execute] on a message with no NUL byte leaves in the command
    buffer the first [CMDBUFLEN - 1] bytes of the message, taken across
    its buffers, and never more; the command is run exactly when that
    prefix holds a newline, and the client is then prompted or closed
    according to the command's result; everything else reported is a
    truncation warning; the value returned is 1. *)
Theorem debugcli_execute_bounded_command (client : Debugcli.CLI_SESSION)
    (q : GWBUF) :
  1 <= CMDBUFLEN ->
  Forall (fun d => Debugcli.has_char zero d = false)
    (gw_head q :: gw_next q) ->
  exists warnings unread,
    Debugcli.execute CMDBUFLEN execute_cmd client (Some q) =
      (let command :=
         Debugcli.string_take (Z.to_nat (CMDBUFLEN - 1)) (gwbuf_content q) in
       let client' :=
         {| Debugcli.cmdbuf := command;
            Debugcli.client_mode := Debugcli.client_mode client;
            Debugcli.session := Debugcli.session client |} in
       Some (client',
             warnings ++
             (if Debugcli.has_char Debugcli.newline command
              then Debugcli.Executed command ::
                   (if execute_cmd client' then [Debugcli.Prompt]
                    else [Debugcli.Closed])
              else []),
             unread, 1)) /\
    Forall (fun e => e = Debugcli.Warning) warnings /\
    Z.of_nat (String.length
                (Debugcli.string_take (Z.to_nat (CMDBUFLEN - 1))
                   (gwbuf_content q))) <= CMDBUFLEN - 1.
Proof.
  intros Hlen Hz.
  destruct (debugcli_extract_prefix 0 (gw_head q :: gw_next q))
    as (w & unread & He & Hw); [lia | done |].
  exists w, unread. split; [|split; [done|]].
  - rewrite concat_empty_cons, Z.sub_0_r in He.
    unfold Debugcli.execute. rewrite He. done.
  - pose proof (string_take_length (Z.to_nat (CMDBUFLEN - 1))
                  (gwbuf_content q)). lia.
Qed.

End DebugcliExecute.

(** X15 with a buffer of eight bytes and a command that always succeeds:
    the line is cut after seven bytes, before its newline. *)
Lemma debugcli_execute_bounded_command_witness :
  let q := {| gw_head := "show ";
              gw_next := ["servers" +:+ String Debugcli.newline ""];
              hint := [] |} in
  let client := {| Debugcli.cmdbuf := "";
                   Debugcli.client_mode := Debugcli.CLIM_USER;
                   Debugcli.session := 1%nat |} in
  exists warnings unread,
    Debugcli.execute 8 (fun _ => true) client (Some q) =
      (let command :=
         Debugcli.string_take (Z.to_nat (8 - 1)) (gwbuf_content q) in
       let client' :=
         {| Debugcli.cmdbuf := command;
            Debugcli.client_mode := Debugcli.client_mode client;
            Debugcli.session := Debugcli.session client |} in
       Some (client',
             warnings ++
             (if Debugcli.has_char Debugcli.newline command
              then Debugcli.Executed command ::
                   (if (fun _ : Debugcli.CLI_SESSION => true) client'
                    then [Debugcli.Prompt]
                    else [Debugcli.Closed])
              else []),
             unread, 1)) /\
    Forall (fun e => e = Debugcli.Warning) warnings /\
    Z.of_nat (String.length
                (Debugcli.string_take (Z.to_nat (8 - 1))
                   (gwbuf_content q))) <= 8 - 1.
Proof.
  apply (debugcli_execute_bounded_command 8 (fun _ => true)
           {| Debugcli.cmdbuf := "";
              Debugcli.client_mode := Debugcli.CLIM_USER;
              Debugcli.session := 1%nat |}
           {| gw_head := "show ";
              gw_next := ["servers" +:+ String Debugcli.newline ""];
              hint := [] |}).
  - lia.
  - repeat constructor.
Defined.

(* --------------------------------------------------------------------- *)
(** *** Options and parameters given more than once *)

Lemma strcaseeq_disjoint (o a b : string) :
  strcaseeq o a = true -> lower a <> lower b -> strcaseeq o b = false.
Proof.
  unfold strcaseeq. intros Ha%String.eqb_eq Hab.
  apply String.eqb_neq. congruence.
Qed.

Lemma option_flags_fold (prefix : string) (options : list string)
    (strict ic ext : bool) (log : list string) (err : bool) :
  (fold_left
     (fun '(cf, log, err) o =>
        if strcaseeq o "ignorecase" then (Z.lor cf REG_ICASE, log, err)
        else if strcaseeq o "case"
             then (Z.land cf (Z.lnot REG_ICASE), log, err)
        else if strcaseeq o "extended" then (Z.lor cf REG_EXTENDED, log, err)
        else (cf, log ++ [prefix +:+ o +:+ "'."], err || strict))
     options
     ((if ic then REG_ICASE else 0) + (if ext then REG_EXTENDED else 0),
      log, err)).1.1 =
  (if default ic (last (omap case_option options)) then REG_ICASE else 0) +
  (if ext || existsb (fun o => strcaseeq o "extended") options
   then REG_EXTENDED else 0).
Proof.
  revert ic ext log err.
  induction options as [|o options IH]; intros ic ext log err.
  - simpl. by rewrite orb_false_r.
  - cbn [fold_left omap list_omap existsb]. unfold case_option at 1.
    destruct (strcaseeq o "ignorecase") eqn:Hi.
    + rewrite (strcaseeq_disjoint o "ignorecase" "extended" Hi) by done.
      replace (Z.lor _ REG_ICASE)
        with (REG_ICASE + (if ext then REG_EXTENDED else 0))
        by (by destruct ic, ext).
      etrans; [exact (IH true ext log err)|].
      rewrite last_cons. simpl. by destruct (last _).
    + destruct (strcaseeq o "case") eqn:Hc.
      * rewrite (strcaseeq_disjoint o "case" "extended" Hc) by done.
        replace (Z.land _ (Z.lnot REG_ICASE))
          with (0 + (if ext then REG_EXTENDED else 0))
          by (by destruct ic, ext).
        etrans; [exact (IH false ext log err)|].
        rewrite last_cons. simpl. by destruct (last _).
      * destruct (strcaseeq o "extended").
        -- replace (Z.lor _ REG_EXTENDED)
             with ((if ic then REG_ICASE else 0) + REG_EXTENDED)
             by (by destruct ic, ext).
           etrans; [exact (IH ic true log err)|].
           simpl. by rewrite orb_true_r.
        -- rewrite IH. simpl. done.
Qed.

(** X16.  The compilation flags the three filters derive from their
    options: letter case is ignored unless the last of the [case] and
    [ignorecase] options is [case]; extended syntax is on as soon as
    [extended] is given anywhere, and no option turns it off; no other
    flag is ever set. *)
Theorem option_flags_last_case_wins (prefix : string)
    (options : list string) (strict : bool) :
  (option_flags prefix options strict REG_ICASE).1.1 =
    (if default true (last (omap case_option options))
     then REG_ICASE else 0) +
    (if existsb (fun o => strcaseeq o "extended") options
     then REG_EXTENDED else 0).
Proof.
  exact (option_flags_fold prefix options strict true false [] false).
Qed.

Section CcrSettings.
Context `{Host} `{Regex}.

Lemma setting_cons_same (n v : string) (params : list FILTER_PARAMETER) :
  setting n ({| name := n; value := v |} :: params) =
    Some (default v (setting n params)).
Proof.
  unfold setting, streq. cbn [List.filter name].
  rewrite String.eqb_refl, fmap_cons, last_cons. cbn [value].
  by destruct (last _).
Qed.

Lemma setting_cons_other (n m v : string) (params : list FILTER_PARAMETER) :
  m <> n ->
  setting n ({| name := m; value := v |} :: params) = setting n params.
Proof.
  intros Hne. unfold setting, streq. cbn [List.filter name].
  by apply String.eqb_neq in Hne as ->.
Qed.

Lemma ccr_parameters_settings (params : list FILTER_PARAMETER)
    (i : Ccr.CCR_INSTANCE) (lv : list resource) (log : list string) :
  let i1 := (fold_left Ccr.set_parameter params (i, lv, log)).1.1 in
  Ccr.count i1 = default (Ccr.count i) (atoi <$> setting "count" params) /\
  Ccr.time i1 = default (Ccr.time i) (atoi <$> setting "time" params) /\
  Ccr.match_ i1 =
    from_option Some (Ccr.match_ i) (setting "match" params) /\
  Ccr.nomatch i1 =
    from_option Some (Ccr.nomatch i) (setting "ignore" params) /\
  Ccr.stats i1 = Ccr.stats i /\ Ccr.re i1 = Ccr.re i /\
  Ccr.nore i1 = Ccr.nore i.
Proof.
  revert i lv log. induction params as [|[n v] params IH]; intros i lv log.
  - done.
  - cbv zeta.
    change (fold_left Ccr.set_parameter
              ({| name := n; value := v |} :: params) (i, lv, log))
      with (fold_left Ccr.set_parameter params
              (Ccr.set_parameter (i, lv, log) {| name := n; value := v |})).
    destruct (Ccr.set_parameter (i, lv, log) {| name := n; value := v |})
      as [[i0 lv0] log0] eqn:Hs.
    specialize (IH i0 lv0 log0). cbv zeta in IH.
    destruct IH as (-> & -> & -> & -> & -> & -> & ->).
    unfold Ccr.set_parameter, streq in Hs. cbn [name value] in Hs.
    destruct (String.eqb_spec n "count") as [->|Hc].
    { injection Hs as <- _ _.
      rewrite setting_cons_same, !setting_cons_other by done. simpl.
      split; [|done]. by destruct (setting "count" params). }
    destruct (String.eqb_spec n "time") as [->|Ht].
    { injection Hs as <- _ _.
      rewrite setting_cons_same, !setting_cons_other by done. simpl.
      split; [done|]. split; [|done]. by destruct (setting "time" params). }
    destruct (String.eqb_spec n "match") as [->|Hm].
    { injection Hs as <- _ _.
      rewrite setting_cons_same, !setting_cons_other by done. simpl.
      split; [done|]. split; [done|]. split; [|done].
      by destruct (setting "match" params). }
    destruct (String.eqb_spec n "ignore") as [->|Hi].
    { injection Hs as <- _ _.
      rewrite setting_cons_same, !setting_cons_other by done. simpl.
      split; [done|]. split; [done|]. split; [done|]. split; [|done].
      by destruct (setting "ignore" params). }
    rewrite !setting_cons_other by done.
    destruct (negb _); injection Hs as <- _ _; done.
Qed.

(** X17.  The hysteresis filter always gets an instance, whatever the
    parameters and options.  Its count is the number read from the last
    [count] parameter, 0 when there is none; its time the one read from
    the last [time] parameter, 60 when there is none; its patterns are
    the values of the last [match] and [ignore] parameters; and its
    statistics start at zero. *)
Theorem ccr_createInstance_settings (options : list string)
    (params : list FILTER_PARAMETER) :
  exists i,
    instance (Ccr.createInstance options params) = Some i /\
    Ccr.count i = default 0 (atoi <$> setting "count" params) /\
    Ccr.time i = default 60 (atoi <$> setting "time" params) /\
    Ccr.match_ i = setting "match" params /\
    Ccr.nomatch i = setting "ignore" params /\
    Ccr.stats i = {| Ccr.n_add_count := 0; Ccr.n_add_time := 0;
                     Ccr.n_modified := 0 |}.
Proof.
  unfold Ccr.createInstance.
  pose proof (ccr_parameters_settings params
    {| Ccr.match_ := None; Ccr.nomatch := None;
       Ccr.time := Ccr.CCR_DEFAULT_TIME; Ccr.count := 0;
       Ccr.stats := {| Ccr.n_add_count := 0; Ccr.n_add_time := 0;
                       Ccr.n_modified := 0 |};
       Ccr.re := None; Ccr.nore := None |} [RInstance] []) as Hp.
  destruct (fold_left _ _ _) as [[i1 lv1] log1].
  cbn [fst snd Ccr.count Ccr.time Ccr.match_ Ccr.nomatch Ccr.stats Ccr.re
       Ccr.nore] in Hp.
  destruct Hp as (Hcount & Htime & Hmatch & Hnomatch & Hstats & _ & _).
  assert (forall o : option string, from_option Some None o = o) as Hfo
    by (by intros []).
  rewrite Hfo in Hmatch, Hnomatch.
  destruct (option_flags _ _ _ _) as [[cf log2] e].
  destruct (Ccr.match_ i1) as [m|] eqn:Hm;
    [destruct (regcomp m cf)|];
    (destruct (Ccr.nomatch _) as [m'|] eqn:Hn;
     [destruct (regcomp m' cf)|]);
    simpl in *; eexists; (split; [reflexivity|]); simpl;
    rewrite <- ?Hmatch, <- ?Hnomatch, ?Hm, ?Hn; done.
Qed.

End CcrSettings.

(** [atoi] on numerals inside and outside the ranges of [int] and of
    [long]: beyond [long] the value is that of [LONG_MAX] or [LONG_MIN]
    cut to an [int]. *)
Example atoi_cuts_strtol :
  atoi "2" = 2 /\ atoi " 42abc" = 42 /\ atoi "+7" = 7 /\ atoi "-7" = -7 /\
  atoi "x" = 0 /\ atoi "2147483648" = - 2147483648 /\
  atoi "4294967297" = 1 /\
  atoi "99999999999999999999" = -1 /\
  atoi "-99999999999999999999" = 0.
Proof. repeat split; reflexivity. Qed.

(** The same numerals as [count] and [time] of the hysteresis filter. *)
Example ccr_count_beyond_long :
  match instance (Ccr.createInstance (H := Demo.host) (H0 := Demo.regex) []
                    [Demo.param "count" "99999999999999999999";
                     Demo.param "time" "-99999999999999999999"]) with
  | Some i => Ccr.count i = -1 /\ Ccr.time i = 0
  | None => False
  end.
Proof. split; reflexivity. Qed.
